(** * Report and export engine of the approval tracker

    A shallow embedding of the class [ExportSystem] (the export module of
    the approval system) and of the properties its specification states.

    Conventions of the embedding.
    - A JavaScript string is the sequence of its UTF-8 bytes ([string]).
      The characters the code searches for and replaces are all ASCII, so
      the byte-wise operations agree with the code-unit ones; where the
      code measures or cuts a text ([length], [substring]) the UTF-16
      code units are counted ([js_length], [substring0]);
      [toLowerCase] acts on the ASCII letters.
    - A [Date] is its time value in milliseconds ([Z]); an invalid date is
      [None].  Numbers are integers ([Z]), except for the mean duration,
      which is an exact rational ([Q]); the statements about the mean are
      made for totals up to [Number.MAX_SAFE_INTEGER], where the
      double-precision arithmetic of the code gives the same text.
    - A request record is a Rocq record with exactly the fields of the data
      model, and its dates are valid [Date] objects; functions that only
      read records are pure functions.
    - Property names of records and counters are not names of members of
      [Object.prototype]: a key that is looked up is an own property or
      absent.  A value ([jsval]) holds no function, so an object value
      has the inherited [toString] unless it has an own property of that
      name, which then cannot be called.
    - [sanitizeRequest] writes through references, so it is modelled a
      second time over an explicit object store (module [Store]).
    - What the host provides (the clock, the host's date formats) is the
      interface [Host]; the renderers that need the workbook and the
      document builder of the page, and the markup renderer, are the
      interface [Renderers].
    - [Array.prototype.sort] is modelled by a stable insertion sort
      ([Array_sort]); [ordered_by] states what any engine may return. *)

From Stdlib Require Import ZArith List String Ascii Lia Bool.
From Stdlib Require Import Permutation Sorted QArith Qround DecimalString.
From stdpp Require Import gmap strings.
Import ListNotations.

Local Open Scope string_scope.
Local Open Scope Z_scope.

(* ================================================================== *)
(** ** Strings *)
(* ================================================================== *)

Definition DQUOTE : ascii := "034"%char.
Definition NEWLINE : ascii := "010"%char.
Definition dq : string := String DQUOTE EmptyString.
Definition nl : string := String NEWLINE EmptyString.

(** [s.includes(c)] for a one-character needle. *)
Fixpoint includes_char (c : ascii) (s : string) : bool :=
  match s with
  | EmptyString => false
  | String a rest => Ascii.eqb a c || includes_char c rest
  end.

(** [s.includes(needle)]. *)
Fixpoint includes (needle s : string) : bool :=
  String.prefix needle s ||
  match s with
  | EmptyString => false
  | String _ rest => includes needle rest
  end.

(** [s.replace(/c/g, by)] for a one-character pattern. *)
Fixpoint replace_char (c : ascii) (by_ : string) (s : string) : string :=
  match s with
  | EmptyString => EmptyString
  | String a rest =>
      if Ascii.eqb a c then by_ ++ replace_char c by_ rest
      else String a (replace_char c by_ rest)
  end.

Definition lower_ascii (a : ascii) : ascii :=
  let n := nat_of_ascii a in
  if ((65 <=? n) && (n <=? 90))%nat then ascii_of_nat (n + 32) else a.

(** [s.toLowerCase()] on the ASCII letters. *)
Fixpoint toLowerCase (s : string) : string :=
  match s with
  | EmptyString => EmptyString
  | String a rest => String (lower_ascii a) (toLowerCase rest)
  end.

(** [xs.join(sep)]. *)
Definition join (sep : string) (xs : list string) : string :=
  String.concat sep xs.

(** [xs.includes(x)] on an array of strings. *)
Definition array_includes (xs : list string) (x : string) : bool :=
  existsb (String.eqb x) xs.

(** Decimal rendering of an integer, as in a template literal. *)
Definition show_Z (z : Z) : string :=
  NilZero.string_of_int (Z.to_int z).

(** Rendering with at least [width] digits, zero padded on the left. *)
Fixpoint zeros (n : nat) : string :=
  match n with
  | O => EmptyString
  | S k => String "0" (zeros k)
  end.

Definition pad_left (width : nat) (s : string) : string :=
  zeros (width - String.length s) ++ s.

(* ================================================================== *)
(** ** JavaScript values *)
(* ================================================================== *)

#[local] Set Warnings "-register-all".

(** The values of the model: the primitive values, dates, arrays, and
    plain objects, which are created by an object literal or a spread and
    inherit from [Object.prototype]; their properties hold values of the
    model, so none of them is a function. *)
Inductive jsval : Type :=
| VUndefined
| VNull
| VBool (b : bool)
| VNumber (z : Z)
| VString (s : string)
| VDate (t : option Z)
| VArray (elems : list jsval)
| VObject (fields : list (string * jsval)).

(** A thrown [Error] carries its message. *)
Inductive error : Type :=
| Error (message : string)
| TypeError (message : string).

Inductive result (A : Type) : Type :=
| Ok (a : A)
| Throw (e : error).
Arguments Ok {A} a.
Arguments Throw {A} e.

(** What the host environment provides. *)
Class Host := {
  (** the time value of [new Date()] *)
  now : Z;
  (** [Date.prototype.toString], in the host's time zone *)
  Date_toString : Z -> string;
  Date_toLocaleDateString : Z -> string;
  Date_toLocaleTimeString : Z -> string;
  Date_toLocaleString : Z -> string
}.

(** Truthiness, as tested by [if (v)] and [v || w]. *)
Definition truthy (v : jsval) : bool :=
  match v with
  | VUndefined | VNull => false
  | VBool b => b
  | VNumber z => negb (z =? 0)
  | VString s => negb (String.eqb s "")
  | VDate _ | VArray _ | VObject _ => true
  end.

(** [v || w]. *)
Definition js_or (v w : jsval) : jsval := if truthy v then v else w.

(** The text of [v.toString()] where the call returns: a plain object
    answers with the inherited [Object.prototype.toString]; an array joins
    its elements with a comma, rendering [null] and [undefined] as the
    empty string.  [js_toString] below says when the call throws. *)
Fixpoint toString_of `{Host} (v : jsval) : string :=
  match v with
  | VUndefined => "undefined"
  | VNull => "null"
  | VBool true => "true"
  | VBool false => "false"
  | VNumber z => show_Z z
  | VString s => s
  | VDate (Some t) => Date_toString t
  | VDate None => "Invalid Date"
  | VArray elems =>
      join ","
        (map (fun e => match e with
                       | VUndefined | VNull => ""
                       | _ => toString_of e
                       end) elems)
  | VObject _ => "[object Object]"
  end.

(** [key] is an own property of the object. *)
Definition has_own (key : string) (fields : list (string * jsval)) : bool :=
  existsb (fun kv => String.eqb (fst kv) key) fields.

(** [ToString(v)] succeeds on an element of an array that is joined.  A
    value of the model holds no function: an object with an own property
    named [toString] has no method to call and no primitive value, and so
    has an array with such an element. *)
Fixpoint joinable (v : jsval) : bool :=
  match v with
  | VArray elems => forallb joinable elems
  | VObject fields => negb (has_own "toString" fields)
  | _ => true
  end.

(** The method call [v.toString()], as the escape functions make it on
    their parameter [str].  [null] and [undefined] have no properties; an
    own [toString] of an object hides the inherited method and cannot be
    called; an array joins its elements and throws when one of them
    cannot be converted. *)
Definition js_toString `{Host} (v : jsval) : result string :=
  match v with
  | VUndefined =>
      Throw (TypeError "Cannot read properties of undefined (reading 'toString')")
  | VNull =>
      Throw (TypeError "Cannot read properties of null (reading 'toString')")
  | VObject fields =>
      if has_own "toString" fields
      then Throw (TypeError "str.toString is not a function")
      else Ok (toString_of v)
  | VArray elems =>
      if forallb joinable elems then Ok (toString_of v)
      else Throw (TypeError "Cannot convert object to primitive value")
  | _ => Ok (toString_of v)
  end.

(* ================================================================== *)
(** ** Escaping (utility functions of [ExportSystem]) *)
(* ================================================================== *)

(** [escapeCsv(str)]. *)
Definition escapeCsv `{Host} (str : jsval) : result string :=
  match str with
  | VNull | VUndefined => Ok ""
  | _ =>
      match js_toString str with
      | Throw e => Throw e
      | Ok string =>
          if includes_char "," string || includes_char DQUOTE string
             || includes_char NEWLINE string
          then Ok (dq ++ replace_char DQUOTE (dq ++ dq) string ++ dq)
          else Ok string
      end
  end.

(** [escapeXml(str)]: five global replacements, the ampersand first. *)
Definition escapeXml `{Host} (str : jsval) : result string :=
  match str with
  | VNull | VUndefined => Ok ""
  | _ =>
      match js_toString str with
      | Throw e => Throw e
      | Ok string =>
          Ok (replace_char "'" "&#39;"
               (replace_char DQUOTE "&quot;"
                 (replace_char ">" "&gt;"
                   (replace_char "<" "&lt;"
                     (replace_char "&" "&amp;" string)))))
      end
  end.

(** [capitalize(str)]. *)
Definition upper_ascii (a : ascii) : ascii :=
  let n := nat_of_ascii a in
  if ((97 <=? n) && (n <=? 122))%nat then ascii_of_nat (n - 32) else a.

Definition capitalize (str : string) : string :=
  match str with
  | EmptyString => EmptyString
  | String a rest => String (upper_ascii a) rest
  end.

(* ================================================================== *)
(** ** Dates and durations *)
(* ================================================================== *)

(** Year, month and day of a day number counted from 1970-01-01, in the
    proleptic Gregorian calendar. *)
Definition civil_from_days (days : Z) : Z * Z * Z :=
  let z := days + 719468 in
  let era := z / 146097 in
  let doe := z - era * 146097 in
  let yoe := (doe - doe / 1460 + doe / 36524 - doe / 146096) / 365 in
  let doy := doe - (365 * yoe + yoe / 4 - yoe / 100) in
  let mp := (5 * doy + 2) / 153 in
  let d := doy - (153 * mp + 2) / 5 + 1 in
  let m := if mp <? 10 then mp + 3 else mp - 9 in
  let y := yoe + era * 400 + (if m <=? 2 then 1 else 0) in
  (y, m, d).

Definition show_padded (width : nat) (z : Z) : string :=
  pad_left width (show_Z z).

(** The date part [YYYY-MM-DD] of [toISOString]; years outside 0..9999
    take a sign and six digits. *)
Definition iso_date (t : Z) : string :=
  let '(y, m, d) := civil_from_days (t / 86400000) in
  let year :=
    if (0 <=? y) && (y <=? 9999) then show_padded 4 y
    else if y <? 0 then "-" ++ show_padded 6 (- y)
    else "+" ++ show_padded 6 y in
  year ++ "-" ++ show_padded 2 m ++ "-" ++ show_padded 2 d.

(** The time of day [HH:mm:ss] of [toISOString]. *)
Definition iso_time (t : Z) : string :=
  let ms := t mod 86400000 in
  show_padded 2 (ms / 3600000) ++ ":"
    ++ show_padded 2 (ms / 60000 mod 60) ++ ":"
    ++ show_padded 2 (ms / 1000 mod 60).

(** [new Date(t).toISOString()] for a valid time value. *)
Definition toISOString (t : Z) : string :=
  iso_date t ++ "T" ++ iso_time t ++ "." ++ show_padded 3 (t mod 1000) ++ "Z".

(** [new Date().toISOString().split('T')[0]]. *)
Definition today `{Host} : string := iso_date now.

(** [formatDate(date, format = 'medium')] on a metadata date, which is a
    [Date] or absent. *)
Definition formatDate `{Host} (date : option Z) (format : string) : string :=
  match date with
  | None => ""
  | Some d =>
      if String.eqb format "short" then Date_toLocaleDateString d
      else if String.eqb format "medium" then
        Date_toLocaleDateString d ++ " " ++ Date_toLocaleTimeString d
      else if String.eqb format "iso" then toISOString d
      else Date_toLocaleString d
  end.

(** [formatDuration(ms)].  [Math.floor] is [Qfloor] and the quotient
    [/] on [Z] rounds down as well; [%] is only reached with a positive
    left operand, where it agrees with [mod]. *)
Definition formatDuration (ms : Q) : string :=
  let seconds := Qfloor (ms / inject_Z 1000) in
  let minutes := seconds / 60 in
  let hours := minutes / 60 in
  let days := hours / 24 in
  if 0 <? days then show_Z days ++ "d " ++ show_Z (hours mod 24) ++ "h"
  else if 0 <? hours then show_Z hours ++ "h " ++ show_Z (minutes mod 60) ++ "m"
  else if 0 <? minutes then show_Z minutes ++ "m " ++ show_Z (seconds mod 60) ++ "s"
  else show_Z seconds ++ "s".

(* ================================================================== *)
(** ** Data model *)
(* ================================================================== *)

(** An approval event. *)
Record Approval := {
  approval_approverId : string;
  approval_level : Z;
  approvedAt : Z;
  approval_comment : option string
}.

(** A rejection event. *)
Record Rejection := {
  rejection_approverId : string;
  rejection_level : Z;
  rejectedAt : Z;
  rejection_reason : option string
}.

(** A comment event. *)
Record Comment := {
  comment_user : string;
  comment_type : string;
  comment_timestamp : Z;
  comment_text : string
}.

(** [request.metadata]. *)
Record Metadata := {
  status : string;
  submittedAt : Z;
  completedAt : option Z;
  currentLevel : Z;
  approvals : list Approval;
  rejections : list Rejection;
  comments : list Comment
}.

Record Request := {
  id : string;
  requester : string;
  subject : string;
  workflowId : string;
  metadata : Metadata
}.

(** [{ ...event, requestId: request.id }]. *)
Record Tagged (A : Type) := {
  event : A;
  requestId : string
}.
Arguments event {A} _.
Arguments requestId {A} _.
Arguments Build_Tagged {A} _ _.

(** [options.filters].  An absent property is [None]. *)
Record DateRange := {
  range_start : Z;
  range_end : Z
}.

Record Filters := {
  filter_dateRange : option DateRange;
  filter_status : option string;
  filter_requester : option string;
  filter_workflowId : option string;
  filter_sortBy : option string;
  filter_sortOrder : option string;
  filter_limit : option Z
}.

(** The empty object [{}] used for [options.filters || {}]. *)
Definition no_filters : Filters :=
  {| filter_dateRange := None; filter_status := None;
     filter_requester := None; filter_workflowId := None;
     filter_sortBy := None; filter_sortOrder := None;
     filter_limit := None |}.

(** The [options] object of an export call. *)
Record Options := {
  opt_filters : option Filters;
  opt_sheet : option string;
  opt_mode : option string;
  opt_includeAll : option bool;
  opt_title : option string
}.

Definition no_options : Options :=
  {| opt_filters := None; opt_sheet := None; opt_mode := None;
     opt_includeAll := None; opt_title := None |}.

(** The approval system as the export module sees it: the values of its
    [requests] map in insertion order, and the object that
    [getStatistics()] returns. *)
Record ApprovalSystem := {
  requests : list Request;
  getStatistics : jsval
}.

(** The result of [getExportData]. *)
Record ExportData := {
  data_requests : list Request;
  data_approvals : list (Tagged Approval);
  data_rejections : list (Tagged Rejection);
  data_comments : list (Tagged Comment);
  data_statistics : jsval
}.

(** Truthiness of an optional string property: [if (filters.status)]. *)
Definition supplied (o : option string) : option string :=
  match o with
  | Some s => if String.eqb s "" then None else Some s
  | None => None
  end.

(** [o || d] for an optional string property. *)
Definition or_default (o : option string) (d : string) : string :=
  match supplied o with
  | Some s => s
  | None => d
  end.

(* ================================================================== *)
(** ** Records as JavaScript objects *)
(* ================================================================== *)

(** Own properties in the order of the data model. *)
Definition js_of_option_string (o : option string) : jsval :=
  match o with
  | Some s => VString s
  | None => VUndefined
  end.

Definition js_of_option_date (o : option Z) : jsval :=
  match o with
  | Some t => VDate (Some t)
  | None => VUndefined
  end.

Definition fields_of_approval (a : Approval) : list (string * jsval) :=
  [ ("approverId", VString (approval_approverId a));
    ("level", VNumber (approval_level a));
    ("approvedAt", VDate (Some (approvedAt a)));
    ("comment", js_of_option_string (approval_comment a)) ].

Definition fields_of_rejection (r : Rejection) : list (string * jsval) :=
  [ ("approverId", VString (rejection_approverId r));
    ("level", VNumber (rejection_level r));
    ("rejectedAt", VDate (Some (rejectedAt r)));
    ("reason", js_of_option_string (rejection_reason r)) ].

Definition fields_of_comment (c : Comment) : list (string * jsval) :=
  [ ("user", VString (comment_user c));
    ("type", VString (comment_type c));
    ("timestamp", VDate (Some (comment_timestamp c)));
    ("text", VString (comment_text c)) ].

Definition js_of_tagged {A : Type} (fields_of : A -> list (string * jsval))
    (t : Tagged A) : jsval :=
  VObject ((fields_of (event t) ++ [("requestId", VString (requestId t))])%list).

Definition js_of_metadata (m : Metadata) : jsval :=
  VObject
    [ ("status", VString (status m));
      ("submittedAt", VDate (Some (submittedAt m)));
      ("completedAt", js_of_option_date (completedAt m));
      ("currentLevel", VNumber (currentLevel m));
      ("approvals", VArray (map (fun a => VObject (fields_of_approval a)) (approvals m)));
      ("rejections", VArray (map (fun r => VObject (fields_of_rejection r)) (rejections m)));
      ("comments", VArray (map (fun c => VObject (fields_of_comment c)) (comments m))) ].

Definition js_of_request (r : Request) : jsval :=
  VObject
    [ ("id", VString (id r));
      ("requester", VString (requester r));
      ("subject", VString (subject r));
      ("workflowId", VString (workflowId r));
      ("metadata", js_of_metadata (metadata r)) ].

(** [obj[key]] on own properties; an absent key reads [undefined]. *)
Fixpoint get_property (key : string) (fields : list (string * jsval)) : jsval :=
  match fields with
  | [] => VUndefined
  | (k, v) :: rest => if String.eqb k key then v else get_property key rest
  end.

Definition js_get (key : string) (obj : jsval) : jsval :=
  match obj with
  | VObject fields => get_property key fields
  | _ => VUndefined
  end.

(* ================================================================== *)
(** ** [JSON.stringify(value, null, 2)] *)
(* ================================================================== *)

Definition hex_digit (n : nat) : ascii :=
  if (n <? 10)%nat then ascii_of_nat (48 + n) else ascii_of_nat (87 + n).

(** The escape of one character inside a JSON string literal. *)
Definition json_escape_char (a : ascii) : string :=
  let n := nat_of_ascii a in
  if Ascii.eqb a DQUOTE then "\" ++ dq
  else if Ascii.eqb a "\" then "\\"
  else if (n =? 8)%nat then "\b"
  else if (n =? 9)%nat then "\t"
  else if (n =? 10)%nat then "\n"
  else if (n =? 12)%nat then "\f"
  else if (n =? 13)%nat then "\r"
  else if (n <? 32)%nat then
    "\u00" ++ String (hex_digit (n / 16)) (String (hex_digit (n mod 16)) EmptyString)
  else String a EmptyString.

Fixpoint json_escape (s : string) : string :=
  match s with
  | EmptyString => EmptyString
  | String a rest => json_escape_char a ++ json_escape rest
  end.

Definition json_quote (s : string) : string := dq ++ json_escape s ++ dq.

(** Serialization at the indentation [current], two spaces a level.  A
    date goes through [toJSON], that is [toISOString]; properties whose
    value is [undefined] are left out, array elements that are
    [undefined] are written [null]. *)
Fixpoint JSON_serialize (current : string) (v : jsval) {struct v} : string :=
  let inner := current ++ "  " in
  let sep := "," ++ nl ++ inner in
  match v with
  | VUndefined | VNull | VDate None => "null"
  | VBool true => "true"
  | VBool false => "false"
  | VNumber z => show_Z z
  | VString s => json_quote s
  | VDate (Some t) => json_quote (toISOString t)
  | VArray elems =>
      match elems with
      | [] => "[]"
      | _ => "[" ++ nl ++ inner ++ join sep (map (JSON_serialize inner) elems)
               ++ nl ++ current ++ "]"
      end
  | VObject fields =>
      let props :=
        (fix go (fs : list (string * jsval)) : list string :=
           match fs with
           | [] => []
           | (_, VUndefined) :: rest => go rest
           | (k, x) :: rest =>
               (json_quote k ++ ": " ++ JSON_serialize inner x) :: go rest
           end) fields in
      match props with
      | [] => "{}"
      | _ => "{" ++ nl ++ inner ++ join sep props ++ nl ++ current ++ "}"
      end
  end.

(** [JSON.stringify(value, null, 2)] for an object or array [value]. *)
Definition JSON_stringify (value : jsval) : string :=
  JSON_serialize EmptyString value.

(* ================================================================== *)
(** ** Query engine: [getExportData] *)
(* ================================================================== *)

(** The operands of [<] and [>] after [ToPrimitive] with hint number. *)
Inductive operand : Type :=
| OString (s : string)
| ONumber (z : Z)
| ONaN.

Definition to_operand `{Host} (v : jsval) : operand :=
  match v with
  | VUndefined => ONaN
  | VNull => ONumber 0
  | VBool b => ONumber (if b then 1 else 0)
  | VNumber z => ONumber z
  | VString s => OString s
  | VDate (Some t) => ONumber t
  | VDate None => ONaN
  | VArray _ | VObject _ => OString (toString_of v)
  end.

Fixpoint parse_digits (acc : Z) (s : string) : option Z :=
  match s with
  | EmptyString => Some acc
  | String a rest =>
      let n := nat_of_ascii a in
      if ((48 <=? n) && (n <=? 57))%nat
      then parse_digits (10 * acc + Z.of_nat (n - 48)) rest
      else None
  end.

(** [ToNumber] of a string holding an integer literal; [None] is [NaN].
    Other numeric literals have no counterpart among the integers. *)
Definition string_to_number (s : string) : option Z :=
  match s with
  | EmptyString => Some 0
  | String "-" (String a rest) => option_map Z.opp (parse_digits 0 (String a rest))
  | String "+" (String a rest) => parse_digits 0 (String a rest)
  | String "-" EmptyString | String "+" EmptyString => None
  | _ => parse_digits 0 s
  end.

Definition operand_number (o : operand) : option Z :=
  match o with
  | OString s => string_to_number s
  | ONumber z => Some z
  | ONaN => None
  end.

(** [a < b]: two strings compare as strings, anything else as numbers,
    and a comparison with [NaN] is false. *)
Definition js_lt `{Host} (a b : jsval) : bool :=
  match to_operand a, to_operand b with
  | OString x, OString y => String.ltb x y
  | x, y =>
      match operand_number x, operand_number y with
      | Some m, Some n => m <? n
      | _, _ => false
      end
  end.

(** [a > b]. *)
Definition js_gt `{Host} (a b : jsval) : bool := js_lt b a.

(** [new Date(v)].  A date is copied, [undefined] gives an invalid date.
    Parsing a string as a date is not modelled: the date-named fields of a
    record hold dates, never strings. *)
Definition new_Date (v : jsval) : jsval :=
  match v with
  | VDate t => VDate t
  | VUndefined => VDate None
  | VNull => VDate (Some 0)
  | VBool b => VDate (Some (if b then 1 else 0))
  | VNumber z => VDate (Some z)
  | VString _ | VArray _ | VObject _ => VDate None
  end.

(** [a.metadata[sortField] || a[sortField]], turned into a date when the
    field name contains [At]. *)
Definition sort_value (sortField : string) (a : Request) : jsval :=
  let aValue :=
    js_or (js_get sortField (js_of_metadata (metadata a)))
          (js_get sortField (js_of_request a)) in
  if includes "At" sortField then new_Date aValue else aValue.

(** The comparator handed to [sort]. *)
Definition compareFn `{Host} (sortField sortOrder : string) (a b : Request) : Z :=
  let aValue := sort_value sortField a in
  let bValue := sort_value sortField b in
  if String.eqb sortOrder "asc"
  then (if js_gt aValue bValue then 1 else -1)
  else (if js_lt aValue bValue then 1 else -1).

(** [Array.prototype.sort(compare)], modelled by a stable insertion sort:
    an element goes before the first later element that the comparator
    does not put in front of it.  Engines differ in the comparisons they
    make, and they agree with this model whenever the comparator orders
    the elements of the array totally. *)
Fixpoint sort_insert {A : Type} (compare : A -> A -> Z) (x : A) (sorted : list A)
    : list A :=
  match sorted with
  | [] => [x]
  | y :: rest =>
      if compare x y <=? 0 then x :: y :: rest
      else y :: sort_insert compare x rest
  end.

Fixpoint Array_sort {A : Type} (compare : A -> A -> Z) (xs : list A) : list A :=
  match xs with
  | [] => []
  | x :: rest => sort_insert compare x (Array_sort compare rest)
  end.

(** [xs.slice(0, end)]; a negative [end] counts from the end. *)
Definition slice0 {A : Type} (xs : list A) (end_ : Z) : list A :=
  if end_ <? 0
  then firstn (Z.to_nat (Z.max (Z.of_nat (length xs) + end_) 0)) xs
  else firstn (Z.to_nat end_) xs.

(** The four filter steps of [getExportData]. *)
Definition in_dateRange (range : DateRange) (request : Request) : bool :=
  let submitted := submittedAt (metadata request) in
  (range_start range <=? submitted) && (submitted <=? range_end range).

Definition applyFilters (filters : Filters) (allRequests : list Request)
    : list Request :=
  let filteredRequests := allRequests in
  let filteredRequests :=
    match filter_dateRange filters with
    | Some range => List.filter (in_dateRange range) filteredRequests
    | None => filteredRequests
    end in
  let filteredRequests :=
    match supplied (filter_status filters) with
    | Some wanted =>
        List.filter (fun request => String.eqb (status (metadata request)) wanted)
          filteredRequests
    | None => filteredRequests
    end in
  let filteredRequests :=
    match supplied (filter_requester filters) with
    | Some wanted =>
        List.filter (fun request => String.eqb (requester request) wanted)
          filteredRequests
    | None => filteredRequests
    end in
  match supplied (filter_workflowId filters) with
  | Some wanted =>
      List.filter (fun request => String.eqb (workflowId request) wanted)
        filteredRequests
  | None => filteredRequests
  end.

(** The sort step. *)
Definition sortRequests `{Host} (filters : Filters) (filteredRequests : list Request)
    : list Request :=
  let sortField := or_default (filter_sortBy filters) "submittedAt" in
  let sortOrder := or_default (filter_sortOrder filters) "desc" in
  Array_sort (compareFn sortField sortOrder) filteredRequests.

(** The limit step: [if (filters.limit)] holds for a number other than 0. *)
Definition applyLimit (filters : Filters) (filteredRequests : list Request)
    : list Request :=
  match filter_limit filters with
  | Some n => if n =? 0 then filteredRequests else slice0 filteredRequests n
  | None => filteredRequests
  end.

(** The request sequence of [getExportData]. *)
Definition queryRequests `{Host} (filters : Filters) (allRequests : list Request)
    : list Request :=
  applyLimit filters (sortRequests filters (applyFilters filters allRequests)).

(** The events of the requests, each tagged with the id of its request. *)
Definition extract {A : Type} (events : Metadata -> list A)
    (filteredRequests : list Request) : list (Tagged A) :=
  flat_map
    (fun request =>
       map (fun e => Build_Tagged e (id request)) (events (metadata request)))
    filteredRequests.

Definition getExportData `{Host} (approvalSystem : ApprovalSystem)
    (options : Options) : ExportData :=
  let filters :=
    match opt_filters options with
    | Some f => f
    | None => no_filters
    end in
  let allRequests := requests approvalSystem in
  let filteredRequests := queryRequests filters allRequests in
  {| data_requests := filteredRequests;
     data_approvals := extract approvals filteredRequests;
     data_rejections := extract rejections filteredRequests;
     data_comments := extract comments filteredRequests;
     data_statistics := getStatistics approvalSystem |}.

(* ================================================================== *)
(** ** Statistics calculator *)
(* ================================================================== *)

(** The object that [createSummary] returns. *)
Record Summary := {
  totalRequests : Z;
  pendingRequests : Z;
  approvedRequests : Z;
  rejectedRequests : Z;
  totalApprovals : Z;
  totalRejections : Z;
  totalComments : Z;
  avgApprovalTime : string;
  mostActiveRequester : string;
  mostCommonWorkflow : string
}.

(** [xs.length]. *)
Definition array_length {A : Type} (xs : list A) : Z := Z.of_nat (length xs).

Definition has_status (wanted : string) (r : Request) : bool :=
  String.eqb (status (metadata r)) wanted.

(** The requests that enter the mean: approved, with [completedAt] set. *)
Definition approved_and_completed (r : Request) : bool :=
  has_status "approved" r &&
  match completedAt (metadata r) with
  | Some _ => true
  | None => false
  end.

(** [end - start] of one request; 0 stands for a missing [completedAt],
    which the filter above excludes. *)
Definition approval_time (req : Request) : Z :=
  match completedAt (metadata req) with
  | Some end_ => end_ - submittedAt (metadata req)
  | None => 0
  end.

(** [calculateAverageApprovalTime(requests)].  The code adds and divides
    double-precision numbers; the sum and the mean are exact here, which
    is what the code computes as long as the durations are not negative
    and add up to at most [Number.MAX_SAFE_INTEGER] milliseconds. *)
Definition calculateAverageApprovalTime (requests : list Request) : string :=
  let approvedRequests := List.filter approved_and_completed requests in
  if array_length approvedRequests =? 0 then "N/A"
  else
    let totalTime :=
      fold_left (fun sum req => sum + approval_time req) approvedRequests 0 in
    let avgMs := (inject_Z totalTime / inject_Z (array_length approvedRequests))%Q in
    formatDuration avgMs.

(** A counter object: its string keys with their counts, in insertion
    order.  The keys are taken not to be names of [Object.prototype]. *)
Definition counters := list (string * Z).

Fixpoint counter_get (key : string) (c : counters) : option Z :=
  match c with
  | [] => None
  | (k, n) :: rest => if String.eqb k key then Some n else counter_get key rest
  end.

Fixpoint counter_set (key : string) (n : Z) (c : counters) : counters :=
  match c with
  | [] => [(key, n)]
  | (k, m) :: rest =>
      if String.eqb k key then (k, n) :: rest
      else (k, m) :: counter_set key n rest
  end.

(** [counts[key] = (counts[key] || 0) + 1]. *)
Definition counter_increment (c : counters) (key : string) : counters :=
  let old := match counter_get key c with
             | Some n => if n =? 0 then 0 else n
             | None => 0
             end in
  counter_set key (old + 1) c.

(** A key that is an array index: the canonical decimal form of an
    integer from 0 to 2^32 - 2. *)
Definition array_index (key : string) : option Z :=
  match key with
  | EmptyString => None
  | _ =>
      match parse_digits 0 key with
      | Some n =>
          if String.eqb (show_Z n) key && (n <? 4294967295) then Some n else None
      | None => None
      end
  end.

Definition compare_index (a b : Z * string) : Z :=
  if fst a <? fst b then -1 else if fst b <? fst a then 1 else 0.

(** [Object.keys(counts)]: the array indices in ascending order, then
    the other keys in insertion order. *)
Definition Object_keys (c : counters) : list string :=
  let indexed :=
    flat_map (fun kv => match array_index (fst kv) with
                        | Some n => [(n, fst kv)]
                        | None => []
                        end) c in
  let named :=
    List.filter (fun k => match array_index k with
                          | Some _ => false
                          | None => true
                          end) (map fst c) in
  (map snd (Array_sort compare_index indexed) ++ named)%list.

(** [keys.reduce((a, b) => counts[a] > counts[b] ? a : b)], behind the
    guard that answers [N/A] for no requests. *)
Definition most_frequent (names : list string) : string :=
  let counts := fold_left counter_increment names [] in
  let count_of key := match counter_get key counts with
                      | Some n => n
                      | None => 0
                      end in
  match Object_keys counts with
  | [] => "N/A"
  | first :: others =>
      fold_left (fun a b => if count_of b <? count_of a then a else b) others first
  end.

(** [getMostActiveRequester(requests)]. *)
Definition getMostActiveRequester (requests : list Request) : string :=
  if array_length requests =? 0 then "N/A"
  else most_frequent (map requester requests).

(** [getMostCommonWorkflow(requests)]. *)
Definition getMostCommonWorkflow (requests : list Request) : string :=
  if array_length requests =? 0 then "N/A"
  else most_frequent (map workflowId requests).

(** [createSummary(data)]. *)
Definition createSummary (data : ExportData) : Summary :=
  {| totalRequests := array_length (data_requests data);
     pendingRequests :=
       array_length (List.filter (has_status "pending") (data_requests data));
     approvedRequests :=
       array_length (List.filter (has_status "approved") (data_requests data));
     rejectedRequests :=
       array_length (List.filter (has_status "rejected") (data_requests data));
     totalApprovals := array_length (data_approvals data);
     totalRejections := array_length (data_rejections data);
     totalComments := array_length (data_comments data);
     avgApprovalTime := calculateAverageApprovalTime (data_requests data);
     mostActiveRequester := getMostActiveRequester (data_requests data);
     mostCommonWorkflow := getMostCommonWorkflow (data_requests data) |}.

(** One entry of the [requests] array of [createMinimalData]. *)
Record MinimalRequest := {
  minimal_id : string;
  minimal_requester : string;
  minimal_subject : string;
  minimal_status : string;
  minimal_submittedAt : Z;
  minimal_workflow : string
}.

Record MinimalData := {
  minimal_requests : list MinimalRequest;
  minimal_summary : Summary
}.

(** [createMinimalData(data)]. *)
Definition createMinimalData (data : ExportData) : MinimalData :=
  {| minimal_requests :=
       map (fun req =>
              {| minimal_id := id req;
                 minimal_requester := requester req;
                 minimal_subject := subject req;
                 minimal_status := status (metadata req);
                 minimal_submittedAt := submittedAt (metadata req);
                 minimal_workflow := workflowId req |})
           (data_requests data);
     minimal_summary := createSummary data |}.

(** The two objects above as JavaScript objects, keys in source order. *)
Definition js_of_summary (s : Summary) : jsval :=
  VObject
    [ ("totalRequests", VNumber (totalRequests s));
      ("pendingRequests", VNumber (pendingRequests s));
      ("approvedRequests", VNumber (approvedRequests s));
      ("rejectedRequests", VNumber (rejectedRequests s));
      ("totalApprovals", VNumber (totalApprovals s));
      ("totalRejections", VNumber (totalRejections s));
      ("totalComments", VNumber (totalComments s));
      ("avgApprovalTime", VString (avgApprovalTime s));
      ("mostActiveRequester", VString (mostActiveRequester s));
      ("mostCommonWorkflow", VString (mostCommonWorkflow s)) ].

Definition js_of_minimal_request (r : MinimalRequest) : jsval :=
  VObject
    [ ("id", VString (minimal_id r));
      ("requester", VString (minimal_requester r));
      ("subject", VString (minimal_subject r));
      ("status", VString (minimal_status r));
      ("submittedAt", VDate (Some (minimal_submittedAt r)));
      ("workflow", VString (minimal_workflow r)) ].

Definition js_of_minimal (m : MinimalData) : jsval :=
  VObject
    [ ("requests", VArray (map js_of_minimal_request (minimal_requests m)));
      ("summary", js_of_summary (minimal_summary m)) ].

(* ================================================================== *)
(** ** Renderers *)
(* ================================================================== *)

(** What a renderer returns. *)
Record Payload := {
  content : string;
  filename : string;
  mimeType : string;
  size : Z
}.

(** [new Blob([text]).size]: the number of UTF-8 bytes. *)
Definition blob_size (text : string) : Z := Z.of_nat (String.length text).

Definition bind_result {A B : Type} (m : result A) (k : A -> result B) : result B :=
  match m with
  | Ok a => k a
  | Throw e => Throw e
  end.

(** [xs.map(f)] for an [f] that may throw: the first exception wins. *)
Fixpoint map_result {A B : Type} (f : A -> result B) (xs : list A)
    : result (list B) :=
  match xs with
  | [] => Ok []
  | x :: rest =>
      bind_result (f x) (fun y =>
      bind_result (map_result f rest) (fun ys => Ok (y :: ys)))
  end.

(** The headers of the delimited-text templates. *)
Definition csv_headers (sheet : string) : option (list string) :=
  if String.eqb sheet "requests" then
    Some ["ID"; "Requester"; "Subject"; "Status"; "Created"; "Completed";
          "Level"; "Workflow"]
  else if String.eqb sheet "approvals" then
    Some ["Request ID"; "Approver"; "Level"; "Decision"; "Date"; "Comment"]
  else if String.eqb sheet "rejections" then
    Some ["Request ID"; "Rejector"; "Level"; "Decision"; "Date"; "Reason"]
  else if String.eqb sheet "comments" then
    Some ["Request ID"; "User"; "Type"; "Date"; "Comment"]
  else None.

(** The row mappers of the delimited-text templates. *)
Definition map_request_row `{Host} (request : Request) : result (list string) :=
  bind_result (escapeCsv (VString (subject request))) (fun subject_cell =>
  Ok [ id request;
       requester request;
       subject_cell;
       status (metadata request);
       formatDate (Some (submittedAt (metadata request))) "medium";
       formatDate (completedAt (metadata request)) "medium";
       show_Z (currentLevel (metadata request));
       workflowId request ]).

(** [request.id] where [request] is the result of [find]. *)
Definition found_id (request : option Request) : result string :=
  match request with
  | Some r => Ok (id r)
  | None => Throw (TypeError "Cannot read properties of undefined (reading 'id')")
  end.

Definition map_approval_row `{Host} (approval : Approval) (request : option Request)
    : result (list string) :=
  bind_result (found_id request) (fun request_id =>
  bind_result (escapeCsv (VString (or_default (approval_comment approval) "")))
    (fun comment_cell =>
  Ok [ request_id;
       approval_approverId approval;
       show_Z (approval_level approval);
       "approved";
       formatDate (Some (approvedAt approval)) "medium";
       comment_cell ])).

Definition map_rejection_row `{Host} (rejection : Rejection) (request : option Request)
    : result (list string) :=
  bind_result (found_id request) (fun request_id =>
  bind_result (escapeCsv (VString (or_default (rejection_reason rejection) "")))
    (fun reason_cell =>
  Ok [ request_id;
       rejection_approverId rejection;
       show_Z (rejection_level rejection);
       "rejected";
       formatDate (Some (rejectedAt rejection)) "medium";
       reason_cell ])).

Definition map_comment_row `{Host} (comment : Comment) (request : option Request)
    : result (list string) :=
  bind_result (found_id request) (fun request_id =>
  bind_result (escapeCsv (VString (comment_text comment))) (fun text_cell =>
  Ok [ request_id;
       comment_user comment;
       comment_type comment;
       formatDate (Some (comment_timestamp comment)) "medium";
       text_cell ])).

(** [data.requests.find(r => r.id === requestId)]. *)
Definition find_request (data : ExportData) (wanted : string) : option Request :=
  List.find (fun r => String.eqb (id r) wanted) (data_requests data).

(** [exportToCsv(data, options)]. *)
Definition exportToCsv `{Host} (data : ExportData) (options : Options)
    : result Payload :=
  let sheet := match opt_sheet options with
               | Some s => s
               | None => "requests"
               end in
  match csv_headers sheet with
  | None => Throw (Error ("No CSV template for sheet: " ++ sheet))
  | Some headers =>
      let data_rows :=
        if String.eqb sheet "requests" then
          map_result map_request_row (data_requests data)
        else if String.eqb sheet "approvals" then
          map_result
            (fun a => map_approval_row (event a) (find_request data (requestId a)))
            (data_approvals data)
        else if String.eqb sheet "rejections" then
          map_result
            (fun r => map_rejection_row (event r) (find_request data (requestId r)))
            (data_rejections data)
        else
          map_result
            (fun c => map_comment_row (event c) (find_request data (requestId c)))
            (data_comments data) in
      bind_result data_rows (fun cells =>
        let rows := join "," headers :: map (join ",") cells in
        let csvContent := join nl rows in
        Ok {| content := csvContent;
              filename := "approvals_" ++ sheet ++ "_" ++ today ++ ".csv";
              mimeType := "text/csv";
              size := blob_size csvContent |})
  end.

(** The value that [sanitizeRequest] returns for a record of the data
    model: a copy whose metadata dates are ISO strings.  Such a record has
    no [workflow] and no [data] property; what [sanitizeRequest] writes
    when they exist is the subject of module [Store]. *)
Definition date_to_iso (v : jsval) : jsval :=
  match v with
  | VDate (Some t) => VString (toISOString t)
  | _ => v
  end.

Definition sanitized_metadata (m : Metadata) : jsval :=
  match js_of_metadata m with
  | VObject fields => VObject (map (fun kv => (fst kv, date_to_iso (snd kv))) fields)
  | other => other
  end.

Definition sanitizedRequest (request : Request) : jsval :=
  VObject
    [ ("id", VString (id request));
      ("requester", VString (requester request));
      ("subject", VString (subject request));
      ("workflowId", VString (workflowId request));
      ("metadata", sanitized_metadata (metadata request)) ].

(** The export data as a JavaScript object. *)
Definition js_of_data (requests_of : Request -> jsval) (data : ExportData) : jsval :=
  VObject
    [ ("requests", VArray (map requests_of (data_requests data)));
      ("approvals",
       VArray (map (js_of_tagged fields_of_approval) (data_approvals data)));
      ("rejections",
       VArray (map (js_of_tagged fields_of_rejection) (data_rejections data)));
      ("comments",
       VArray (map (js_of_tagged fields_of_comment) (data_comments data)));
      ("statistics", data_statistics data) ].

(** The three modes of the structured-data templates. *)
Definition json_template (mode : string) : option (ExportData -> string) :=
  if String.eqb mode "full" then
    Some (fun data => JSON_stringify (js_of_data js_of_request data))
  else if String.eqb mode "summary" then
    Some (fun data => JSON_stringify (js_of_summary (createSummary data)))
  else if String.eqb mode "minimal" then
    Some (fun data => JSON_stringify (js_of_minimal (createMinimalData data)))
  else None.

(** [exportToJson(data, options)].  In [full] mode the template is looked
    up but not called. *)
Definition exportToJson `{Host} (data : ExportData) (options : Options)
    : result Payload :=
  let mode := match opt_mode options with
              | Some m => m
              | None => "full"
              end in
  match json_template mode with
  | None => Throw (Error ("No JSON template for mode: " ++ mode))
  | Some template =>
      let jsonString :=
        if String.eqb mode "full" then
          JSON_stringify (js_of_data sanitizedRequest data)
        else template data in
      Ok {| content := jsonString;
            filename := "approvals_" ++ mode ++ "_" ++ today ++ ".json";
            mimeType := "application/json";
            size := blob_size jsonString |}
  end.

(** The spreadsheet, document and markup renderers.  They build their
    payload with the workbook and document builders of the page, or throw;
    no property below looks inside them. *)
Class Renderers := {
  exportToExcel : ExportData -> Options -> result Payload;
  exportToPdf : ExportData -> Options -> result Payload;
  exportToXml : ExportData -> Options -> result Payload
}.

(* ================================================================== *)
(** ** Export orchestrator: [exportData] *)
(* ================================================================== *)

(** The export system: the approval system it reads, the names of its
    formats, and the templates registered at run time. *)
Record ExportSystem := {
  approvalSystem : ApprovalSystem;
  exportFormats : list string;
  customTemplates : list (string * jsval)
}.

(** [new ExportSystem(approvalSystem)]. *)
Definition createExportSystem (approvalSystem : ApprovalSystem) : ExportSystem :=
  {| approvalSystem := approvalSystem;
     exportFormats := ["csv"; "json"; "excel"; "pdf"; "xml"];
     customTemplates := [] |}.

(** [getAvailableFormats()]. *)
Definition getAvailableFormats (sys : ExportSystem) : list string :=
  exportFormats sys.

(** [addCustomFormat(formatName, template)]. *)
Definition addCustomFormat (sys : ExportSystem) (formatName : string)
    (template : jsval) : result ExportSystem :=
  if array_includes (exportFormats sys) formatName
  then Throw (Error ("Format " ++ formatName ++ " already exists"))
  else Ok {| approvalSystem := approvalSystem sys;
             exportFormats := (exportFormats sys ++ [formatName])%list;
             customTemplates := (customTemplates sys ++ [(formatName, template)])%list |}.

(** The metadata that [exportData] attaches to the result. *)
Record ExportMetadata := {
  exportedAt : string;
  meta_format : string;
  recordCount : Z;
  meta_filters : Filters;
  generatedBy : string
}.

Record ExportResult := {
  payload : Payload;
  export_metadata : ExportMetadata
}.

(** The steps of one export call that the specification orders: the call
    of the query engine and the call of a renderer. *)
Inductive Step : Type :=
| QueryEngineCalled (options : Options)
| RendererCalled (format : string).

(** A computation that may throw and that records its steps. *)
Definition Exec (A : Type) : Type := list Step -> result A * list Step.

Definition ret {A : Type} (a : A) : Exec A := fun log => (Ok a, log).

Definition throw {A : Type} (e : error) : Exec A := fun log => (Throw e, log).

Definition bind {A B : Type} (m : Exec A) (k : A -> Exec B) : Exec B :=
  fun log =>
    match m log with
    | (Ok a, log') => k a log'
    | (Throw e, log') => (Throw e, log')
    end.

Definition record_step (s : Step) : Exec unit := fun log => (Ok tt, (log ++ [s])%list).

Definition lift {A : Type} (r : result A) : Exec A := fun log => (r, log).

Notation "'let*' x ':=' m 'in' k" := (bind m (fun x => k))
  (at level 10, x name, m at level 100, k at level 200).
Notation "m '>>' k" := (bind m (fun _ => k))
  (at level 100, k at level 200, right associativity).

(** The switch on the lower-cased format. *)
Definition render `{Host} `{Renderers} (format : string) (data : ExportData)
    (options : Options) : Exec Payload :=
  let tag := toLowerCase format in
  if String.eqb tag "csv" then
    record_step (RendererCalled "csv") >> lift (exportToCsv data options)
  else if String.eqb tag "json" then
    record_step (RendererCalled "json") >> lift (exportToJson data options)
  else if String.eqb tag "excel" then
    record_step (RendererCalled "excel") >> lift (exportToExcel data options)
  else if String.eqb tag "pdf" then
    record_step (RendererCalled "pdf") >> lift (exportToPdf data options)
  else if String.eqb tag "xml" then
    record_step (RendererCalled "xml") >> lift (exportToXml data options)
  else throw (Error ("Format " ++ format ++ " not implemented")).

(** [exportData(format, options)]. *)
Definition exportData `{Host} `{Renderers} (sys : ExportSystem) (format : string)
    (options : Options) : Exec ExportResult :=
  if negb (array_includes (exportFormats sys) (toLowerCase format)) then
    throw (Error ("Unsupported format: " ++ format ++ ". Supported formats: "
                    ++ join ", " (exportFormats sys)))
  else
    record_step (QueryEngineCalled options) >>
    let data := getExportData (approvalSystem sys) options in
    let* exportResult := render format data options in
    ret {| payload := exportResult;
           export_metadata :=
             {| exportedAt := toISOString now;
                meta_format := format;
                recordCount := array_length (data_requests data);
                meta_filters := match opt_filters options with
                                | Some f => f
                                | None => no_filters
                                end;
                generatedBy := "ApprovalSystem Export Module" |} |}.

(* ================================================================== *)
(** ** [sanitizeRequest] over an object store *)
(* ================================================================== *)

Module Store.

(** Objects live in a store and are named by locations; a property holds
    a primitive value, a date, or a reference to an object. *)
Definition loc := positive.

Inductive value : Type :=
| Undefined
| Null
| Str (s : string)
| Num (z : Z)
| DateV (t : Z)
| Ref (l : loc).

Abbreviation object := (gmap string value).
Abbreviation store := (gmap loc (gmap string value)).

(** The own properties of the object at [l]. *)
Definition properties (l : loc) (h : store) : object :=
  match h !! l with
  | Some o => o
  | None => ∅
  end.

(** [l.key]. *)
Definition read (l : loc) (key : string) (h : store) : value :=
  match properties l h !! key with
  | Some v => v
  | None => Undefined
  end.

(** A new object with the given properties. *)
Definition alloc (o : object) (h : store) : loc * store :=
  let l := fresh (dom h) in (l, <[l := o]> h).

(** [{ ...v }]: the own properties of an object; none for [undefined],
    [null], a number or a date. *)
Definition spread (v : value) (h : store) : object :=
  match v with
  | Ref l => properties l h
  | _ => ∅
  end.

(** [delete target?.key]: nothing happens when [target] is [undefined] or
    [null]; otherwise the property is removed from the object that
    [target] refers to. *)
Definition delete_optional (target : value) (key : string) (h : store) : store :=
  match target with
  | Ref l => alter (delete key) l h
  | _ => h
  end.

(** [v instanceof Date ? v.toISOString() : v]. *)
Definition date_to_iso (v : value) : value :=
  match v with
  | DateV t => Str (toISOString t)
  | _ => v
  end.

(** [sanitizeRequest(request)]: the location of the copy and the store
    after the call. *)
Definition sanitizeRequest (request : loc) (h : store) : loc * store :=
  let '(sanitized, h) := alloc (properties request h) h in
  let h := delete_optional (read sanitized "workflow" h) "approvers" h in
  let h := delete_optional (read sanitized "data" h) "sensitiveInfo" h in
  let '(metadata_copy, h) := alloc (spread (read sanitized "metadata" h) h) h in
  let h := alter (insert "metadata" (Ref metadata_copy)) sanitized h in
  let h := alter (fmap date_to_iso) metadata_copy h in
  (sanitized, h).

(** [requests.map(req => this.sanitizeRequest(req))], the first step of
    [exportToJson] in [full] mode. *)
Fixpoint sanitizeAll (requests : list loc) (h : store) : list loc * store :=
  match requests with
  | [] => ([], h)
  | req :: rest =>
      let '(sanitized, h) := sanitizeRequest req h in
      let '(others, h) := sanitizeAll rest h in
      (sanitized :: others, h)
  end.

(** An array of the store is an object with its elements under the index
    keys and their number under [length]: the elements of the array that
    [v] refers to, or [None] when [v] is no such reference. *)
Definition array_elements (v : value) (h : store) : option (list value) :=
  match v with
  | Ref l =>
      match read l "length" h with
      | Num n =>
          Some (map (fun i => read l (show_Z (Z.of_nat i)) h) (seq 0 (Z.to_nat n)))
      | _ => None
      end
  | _ => None
  end.

(** [events.map(e => ({ ...e, requestId: request.id }))]: one new object
    for each event. *)
Fixpoint tag_events (request : loc) (events : list value) (h : store)
    : list loc * store :=
  match events with
  | [] => ([], h)
  | e :: rest =>
      let '(copy, h) :=
        alloc (<["requestId" := read request "id" h]> (spread e h)) h in
      let '(copies, h) := tag_events request rest h in
      (copy :: copies, h)
  end.

(** [request.metadata[field].map(...)]; [None] is the [TypeError] of a
    request without metadata object or without that array. *)
Definition extract_field (request : loc) (field : string) (h : store)
    : option (list loc * store) :=
  match read request "metadata" h with
  | Ref metadata =>
      match array_elements (read metadata field h) h with
      | Some events => Some (tag_events request events h)
      | None => None
      end
  | _ => None
  end.

(** What [getExportData] returns, with the statistics left out: the
    requests in their sorted order and the tagged copies of their
    events. *)
Record Exported := {
  exported_requests : list loc;
  exported_approvals : list loc;
  exported_rejections : list loc;
  exported_comments : list loc
}.

(** The body of [filteredRequests.forEach(request => ...)] for the
    requests in turn. *)
Fixpoint extract_all (requests : list loc) (h : store)
    : option ((list loc * list loc * list loc) * store) :=
  match requests with
  | [] => Some (([], [], []), h)
  | request :: rest =>
      match extract_field request "approvals" h with
      | None => None
      | Some (approvals, h) =>
          match extract_field request "rejections" h with
          | None => None
          | Some (rejections, h) =>
              match extract_field request "comments" h with
              | None => None
              | Some (comments, h) =>
                  match extract_all rest h with
                  | None => None
                  | Some ((more_approvals, more_rejections, more_comments), h) =>
                      Some ((approvals ++ more_approvals,
                             rejections ++ more_rejections,
                             comments ++ more_comments)%list, h)
                  end
              end
          end
      end
  end.

(** [if (v)]. *)
Definition truthy_value (v : value) : bool :=
  match v with
  | Undefined | Null => false
  | Str s => negb (String.eqb s "")
  | Num z => negb (z =? 0)
  | DateV _ | Ref _ => true
  end.

(** The time value of [new Date(v)], [None] for an invalid date.  A date
    of a request is a [Date] object; a date held as a string would be
    parsed by the host, which is not modelled. *)
Definition time_value (v : value) : option Z :=
  match v with
  | DateV t => Some t
  | Num z => if Z.abs z <=? 8640000000000000 then Some z else None
  | Null => Some 0
  | Undefined | Str _ | Ref _ => None
  end.

(** [new Date(a.metadata.submittedAt || a.submittedAt)], for a request
    whose metadata is an object. *)
Definition submitted_time (a : loc) (h : store) : option Z :=
  let in_metadata :=
    match read a "metadata" h with
    | Ref metadata => read metadata "submittedAt" h
    | _ => Undefined
    end in
  time_value (if truthy_value in_metadata then in_metadata else read a "submittedAt" h).

(** The comparator of the default sort, descending by [submittedAt]:
    [aValue < bValue ? 1 : -1], where a comparison with an invalid date
    is false. *)
Definition compare_submitted (h : store) (a b : loc) : Z :=
  match submitted_time a h, submitted_time b h with
  | Some x, Some y => if x <? y then 1 else -1
  | _, _ => -1
  end.

(** [getExportData({})]: no filter and no limit, the default sort, then
    the extraction.  [None] is the [TypeError] that the call throws when
    a request has no metadata object or lacks one of the three arrays;
    nothing has been written to an object of the source then. *)
Definition getExportData (allRequests : list loc) (h : store)
    : option (Exported * store) :=
  let filteredRequests := Array_sort (compare_submitted h) allRequests in
  match extract_all filteredRequests h with
  | None => None
  | Some ((approvals, rejections, comments), h) =>
      Some ({| exported_requests := filteredRequests;
               exported_approvals := approvals;
               exported_rejections := rejections;
               exported_comments := comments |}, h)
  end.

(** The effect of [exportData('json', {})] on the objects: the format is
    supported, [getExportData] runs, and [exportToJson] in its default
    mode [full] maps [sanitizeRequest] over the requests and keeps the
    tagged events.  [None] is the [TypeError] of [getExportData];
    otherwise the result names the objects of the exported data and
    gives the store as [sanitizeRequest] leaves it, which is the store
    after the call: the serialization and the export metadata that follow
    read these objects and write to new ones only. *)
Definition exportData_json (allRequests : list loc) (h : store)
    : option (Exported * store) :=
  match getExportData allRequests h with
  | None => None
  | Some (data, h) =>
      let '(sanitized, h) := sanitizeAll (exported_requests data) h in
      Some ({| exported_requests := sanitized;
               exported_approvals := exported_approvals data;
               exported_rejections := exported_rejections data;
               exported_comments := exported_comments data |}, h)
  end.

(** A request with a workflow that lists its approvers: the request at
    location 1, its workflow at 2, its metadata at 3, and the array of
    approvers at 4. *)
Definition request_with_approvers : store :=
  {[ 1%positive :=
       {[ "id" := Str "R1"; "requester" := Str "A"; "subject" := Str "S";
          "workflowId" := Str "W1"; "workflow" := Ref 2%positive;
          "metadata" := Ref 3%positive ]};
     2%positive :=
       {[ "name" := Str "two-step"; "approvers" := Ref 4%positive ]};
     3%positive :=
       {[ "status" := Str "pending"; "submittedAt" := DateV 0 ]};
     4%positive :=
       {[ "0" := Str "alice"; "1" := Str "bob"; "length" := Num 2 ]} ]}.

(** The same request with the metadata that the approval system keeps:
    the level and the three arrays of events, here empty, at the
    locations 5, 6 and 7. *)
Definition tracked_request : store :=
  {[ 1%positive :=
       {[ "id" := Str "R1"; "requester" := Str "A"; "subject" := Str "S";
          "workflowId" := Str "W1"; "workflow" := Ref 2%positive;
          "metadata" := Ref 3%positive ]};
     2%positive :=
       {[ "name" := Str "two-step"; "approvers" := Ref 4%positive ]};
     3%positive :=
       {[ "status" := Str "pending"; "submittedAt" := DateV 0;
          "currentLevel" := Num 0; "approvals" := Ref 5%positive;
          "rejections" := Ref 6%positive; "comments" := Ref 7%positive ]};
     4%positive :=
       {[ "0" := Str "alice"; "1" := Str "bob"; "length" := Num 2 ]};
     5%positive := {[ "length" := Num 0 ]};
     6%positive := {[ "length" := Num 0 ]};
     7%positive := {[ "length" := Num 0 ]} ]}.

End Store.

(* ================================================================== *)
(** ** Sample environment and sample records *)
(* ================================================================== *)

(** A host in the UTC time zone whose locale writes dates in ISO form. *)
Definition utc_host : Host :=
  {| now := 1700000000000;
     Date_toString := toISOString;
     Date_toLocaleDateString := iso_date;
     Date_toLocaleTimeString := iso_time;
     Date_toLocaleString := toISOString |}.

(** A page that loaded neither the workbook builder nor the document
    builder, where the two renderers stop at their first check; the markup
    renderer of this sample is a stand-in. *)
Definition bare_page : Renderers :=
  {| exportToExcel := fun _ _ =>
       Throw (Error "Excel export requires ExcelJS library. Please include it in your project.");
     exportToPdf := fun _ _ =>
       Throw (Error "PDF export requires jsPDF library. Please include it in your project.");
     exportToXml := fun _ _ => Throw (Error "markup renderer not loaded") |}.

(** A request without events. *)
Definition simple_request (id_ requester_ subject_ workflowId_ status_ : string)
    (submittedAt_ : Z) (completedAt_ : option Z) : Request :=
  {| id := id_;
     requester := requester_;
     subject := subject_;
     workflowId := workflowId_;
     metadata :=
       {| status := status_;
          submittedAt := submittedAt_;
          completedAt := completedAt_;
          currentLevel := 0;
          approvals := [];
          rejections := [];
          comments := [] |} |}.

(** Two approved requests that took two and four hours, and a pending one. *)
Definition three_requests : list Request :=
  [ simple_request "R1" "A" "S1" "W1" "approved" 0 (Some 7200000);
    simple_request "R2" "B" "S2" "W1" "approved" 3600000 (Some 18000000);
    simple_request "R3" "A" "S3" "W2" "pending" 5000000 None ].

Definition empty_statistics : jsval := VObject [].

Definition three_request_system : ExportSystem :=
  createExportSystem {| requests := three_requests; getStatistics := empty_statistics |}.

Definition only_filters (f : Filters) : Options :=
  {| opt_filters := Some f; opt_sheet := None; opt_mode := None;
     opt_includeAll := None; opt_title := None |}.

Definition only_mode (mode : string) : Options :=
  {| opt_filters := None; opt_sheet := None; opt_mode := Some mode;
     opt_includeAll := None; opt_title := None |}.

(** The data of an export over the given requests, as [getExportData]
    builds it. *)
Definition data_of (rs : list Request) : ExportData :=
  {| data_requests := rs;
     data_approvals := extract approvals rs;
     data_rejections := extract rejections rs;
     data_comments := extract comments rs;
     data_statistics := empty_statistics |}.

(** The wording of the specification for the delimited-text cell of a
    value that needs quoting: the value between double quotes, each of its
    own double quotes written twice. *)
Definition spec_quoted_cell (s : string) : string :=
  dq ++ string_of_list_ascii
          (flat_map (fun c => if Ascii.eqb c DQUOTE then [DQUOTE; DQUOTE] else [c])
             (list_ascii_of_string s))
     ++ dq.


(** The wording of the specification for a duration of whole seconds: the
    coarsest unit that is not zero, followed by the next finer one. *)
Definition spec_duration_text (seconds : Z) : string :=
  if 86400 <=? seconds then
    show_Z (seconds / 86400) ++ "d " ++ show_Z (seconds / 3600 mod 24) ++ "h"
  else if 3600 <=? seconds then
    show_Z (seconds / 3600) ++ "h " ++ show_Z (seconds / 60 mod 60) ++ "m"
  else if 60 <=? seconds then
    show_Z (seconds / 60) ++ "m " ++ show_Z (seconds mod 60) ++ "s"
  else show_Z seconds ++ "s".

(** The sum of a list of integers. *)
Definition sum_Z (xs : list Z) : Z := fold_right Z.add 0 xs.

(** The wording of the specification for the durations that enter the
    mean: one for each request whose status is approved and whose
    [completedAt] is set, namely [completedAt - submittedAt]; the other
    requests are passed over. *)
Inductive durations_of : list Request -> list Z -> Prop :=
| durations_nil : durations_of [] []
| durations_counted (r : Request) (rest : list Request) (ds : list Z) (completed : Z) :
    status (metadata r) = "approved" ->
    completedAt (metadata r) = Some completed ->
    durations_of rest ds ->
    durations_of (r :: rest) ((completed - submittedAt (metadata r)) :: ds)
| durations_skipped (r : Request) (rest : list Request) (ds : list Z) :
    ~ (status (metadata r) = "approved" /\ completedAt (metadata r) <> None) ->
    durations_of rest ds ->
    durations_of (r :: rest) ds.

(** [Number.MAX_SAFE_INTEGER]: up to here the numbers of the code are
    exact integers. *)
Definition MAX_SAFE_INTEGER : Z := 9007199254740991.

(** The coarsest of the units day, hour, minute and second of which a
    duration in milliseconds holds at least one, whatever its sign. *)
Definition coarsest_unit (ms : Z) : ascii :=
  if 86400000 <=? Z.abs ms then "d"%char
  else if 3600000 <=? Z.abs ms then "h"%char
  else if 60000 <=? Z.abs ms then "m"%char
  else "s"%char.

(** The first unit letter of a duration text. *)
Fixpoint leading_unit (text : string) : option ascii :=
  match text with
  | EmptyString => None
  | String c rest =>
      if Ascii.eqb c "d" || Ascii.eqb c "h" || Ascii.eqb c "m" || Ascii.eqb c "s"
      then Some c
      else leading_unit rest
  end.

(** [filters] with another sort field and sort order. *)
Definition with_sort (f : Filters) (sortBy sortOrder : option string) : Filters :=
  {| filter_dateRange := filter_dateRange f;
     filter_status := filter_status f;
     filter_requester := filter_requester f;
     filter_workflowId := filter_workflowId f;
     filter_sortBy := sortBy;
     filter_sortOrder := sortOrder;
     filter_limit := filter_limit f |}.

(** [filters] with another limit. *)
Definition with_limit (f : Filters) (limit : option Z) : Filters :=
  {| filter_dateRange := filter_dateRange f;
     filter_status := filter_status f;
     filter_requester := filter_requester f;
     filter_workflowId := filter_workflowId f;
     filter_sortBy := filter_sortBy f;
     filter_sortOrder := filter_sortOrder f;
     filter_limit := limit |}.

(** The key of the default sort. *)
Definition submitted (r : Request) : Z := submittedAt (metadata r).

(** [options.filters || {}]. *)
Definition filters_of (options : Options) : Filters :=
  match opt_filters options with
  | Some f => f
  | None => no_filters
  end.

(** A request satisfies the criteria that the query engine applies: the
    date range when there is one, and each of the three exact matches when
    its criterion is a string other than the empty one. *)
Definition satisfies (filters : Filters) (r : Request) : Prop :=
  (forall range, filter_dateRange filters = Some range ->
     range_start range <= submitted r <= range_end range)
  /\ (forall s, filter_status filters = Some s -> s <> "" ->
        status (metadata r) = s)
  /\ (forall s, filter_requester filters = Some s -> s <> "" ->
        requester r = s)
  /\ (forall s, filter_workflowId filters = Some s -> s <> "" ->
        workflowId r = s).

(** An exact-match criterion that is the empty string, read as a
    criterion that was not supplied. *)
Definition drop_empty (criterion : option string) : option string :=
  match criterion with
  | Some EmptyString => None
  | _ => criterion
  end.

(** The filters without the exact-match criteria that are the empty
    string; everything else is kept. *)
Definition without_empty_criteria (filters : Filters) : Filters :=
  {| filter_dateRange := filter_dateRange filters;
     filter_status := drop_empty (filter_status filters);
     filter_requester := drop_empty (filter_requester filters);
     filter_workflowId := drop_empty (filter_workflowId filters);
     filter_sortBy := filter_sortBy filters;
     filter_sortOrder := filter_sortOrder filters;
     filter_limit := filter_limit filters |}.

(** The wording of the specification: every criterion that is present
    holds, whatever its value. *)
Definition spec_satisfies (filters : Filters) (r : Request) : Prop :=
  (forall range, filter_dateRange filters = Some range ->
     range_start range <= submitted r <= range_end range)
  /\ (forall s, filter_status filters = Some s -> status (metadata r) = s)
  /\ (forall s, filter_requester filters = Some s -> requester r = s)
  /\ (forall s, filter_workflowId filters = Some s -> workflowId r = s).

(** No filter criterion is present. *)
Definition no_criteria (filters : Filters) : Prop :=
  filter_dateRange filters = None /\ filter_status filters = None
  /\ filter_requester filters = None /\ filter_workflowId filters = None.

(** [sub] is drawn from [all]: together with some other elements it is a
    rearrangement of [all], so no element occurs in [sub] more often than
    in [all]. *)
Definition drawn_from {A : Type} (sub all : list A) : Prop :=
  exists others, Permutation (sub ++ others)%list all.

(** [ys] is an arrangement of [xs] in which the comparator never asks for
    a later element to come before an earlier one: what any engine may
    return for [xs.sort(compare)] when such an arrangement exists. *)
Definition ordered_by {A : Type} (compare : A -> A -> Z) (xs ys : list A) : Prop :=
  Permutation ys xs /\ StronglySorted (fun a b => compare a b <= 0) ys.

(* ================================================================== *)
(** ** Structured markup: [objectToXml], [generateXml], [requestToXml] *)
(* ================================================================== *)

(** The first exception of a sequence of steps, or all their results. *)
Fixpoint sequence_results {A : Type} (steps : list (result A)) : result (list A) :=
  match steps with
  | [] => Ok []
  | step :: rest =>
      bind_result step (fun x =>
      bind_result (sequence_results rest) (fun xs => Ok (x :: xs)))
  end.

Definition compare_fst {A : Type} (a b : Z * A) : Z :=
  if fst a <? fst b then -1 else if fst b <? fst a then 1 else 0.

(** The order in which [Object.entries] lists own properties: the array
    indices in ascending order, then the other keys in insertion order. *)
Definition order_entries {A : Type} (entries : list (string * A)) : list (string * A) :=
  let indexed :=
    flat_map (fun kv => match array_index (fst kv) with
                        | Some n => [(n, kv)]
                        | None => []
                        end) entries in
  let named :=
    List.filter (fun kv => match array_index (fst kv) with
                           | Some _ => false
                           | None => true
                           end) entries in
  (map snd (Array_sort compare_fst indexed) ++ named)%list.

(** [escapeXml(v.toString())]. *)
Definition xml_text `{Host} (v : jsval) : result string :=
  bind_result (js_toString v) (fun s => escapeXml (VString s)).

Definition open_tag (name : string) : string := "<" ++ name ++ ">".
Definition close_tag (name : string) : string := "</" ++ name ++ ">".

(** [objectToXml(obj, tagName)].  The entries of [obj] are rendered in
    the order of [Object.entries]; the first one that throws ends the
    call.  A value that is an array becomes a wrapper with one child per
    element; a value whose [typeof] is object and that is not [null] is
    rendered by a recursive call, which for a date finds no entries;
    anything else is written as escaped text, and there [null] and
    [undefined] throw because they have no [toString]. *)
Fixpoint objectToXml `{Host} (obj : jsval) (tagName : string) {struct obj}
    : result string :=
  let wrap (rendered : list (string * result string)) : result string :=
    bind_result (sequence_results (map snd rendered)) (fun parts =>
      Ok (open_tag tagName ++ String.concat "" parts ++ close_tag tagName)) in
  let entry (key : string) (value : jsval) : result string :=
    match value with
    | VArray items =>
        bind_result
          (sequence_results
             (map (fun item =>
                     match item with
                     | VNull | VDate _ | VArray _ | VObject _ =>
                         objectToXml item "item"
                     | _ =>
                         bind_result (xml_text item) (fun text =>
                           Ok (open_tag "item" ++ text ++ close_tag "item"))
                     end) items))
          (fun children =>
             Ok (open_tag key ++ String.concat "" children ++ close_tag key))
    | VDate _ | VObject _ => objectToXml value key
    | _ =>
        bind_result (xml_text value) (fun text =>
          Ok (open_tag key ++ text ++ close_tag key))
    end in
  match obj with
  | VUndefined | VNull =>
      Throw (TypeError "Cannot convert undefined or null to object")
  | VBool _ | VNumber _ | VDate _ => wrap []
  | VString s =>
      wrap ((fix characters (i : Z) (cs : string) : list (string * result string) :=
               match cs with
               | EmptyString => []
               | String c rest =>
                   (show_Z i,
                    bind_result (escapeXml (VString (String c EmptyString)))
                      (fun text =>
                         Ok (open_tag (show_Z i) ++ text ++ close_tag (show_Z i))))
                   :: characters (i + 1) rest
               end) 0 s)
  | VArray elems =>
      wrap ((fix elements (i : Z) (es : list jsval) : list (string * result string) :=
               match es with
               | [] => []
               | e :: rest => (show_Z i, entry (show_Z i) e) :: elements (i + 1) rest
               end) 0 elems)
  | VObject fields =>
      wrap (order_entries
              ((fix properties (fs : list (string * jsval))
                  : list (string * result string) :=
                  match fs with
                  | [] => []
                  | (key, value) :: rest => (key, entry key value) :: properties rest
                  end) fields))
  end.

Definition xml_prolog : string :=
  "<?xml version=" ++ dq ++ "1.0" ++ dq ++ " encoding=" ++ dq ++ "UTF-8" ++ dq ++ "?>".

(** [generateXml(items, rootTag, itemTag)]. *)
Definition generateXml `{Host} (items : list jsval) (rootTag itemTag : string)
    : result string :=
  bind_result (map_result (fun item => objectToXml item itemTag) items)
    (fun rendered =>
       Ok (join nl ([xml_prolog; open_tag rootTag] ++ rendered
                      ++ [close_tag rootTag])%list)).

(** [requestToXml(request)]: a template literal that starts with a line
    break and indents by four and eight spaces. *)
Definition requestToXml `{Host} (request : Request) : result string :=
  let line (name : string) (text : string) : string :=
    nl ++ "        " ++ open_tag name ++ text ++ close_tag name in
  bind_result (escapeXml (VString (id request))) (fun id_text =>
  bind_result (escapeXml (VString (requester request))) (fun requester_text =>
  bind_result (escapeXml (VString (subject request))) (fun subject_text =>
  bind_result (escapeXml (VString (workflowId request))) (fun workflow_text =>
  bind_result (escapeXml (VString (status (metadata request)))) (fun status_text =>
  bind_result (escapeXml (VString (toISOString (submittedAt (metadata request)))))
    (fun submitted_text =>
  Ok (nl ++ "    <request>"
        ++ line "id" id_text
        ++ line "requester" requester_text
        ++ line "subject" subject_text
        ++ line "workflowId" workflow_text
        ++ line "status" status_text
        ++ line "submittedAt" submitted_text
        ++ line "currentLevel" (show_Z (currentLevel (metadata request)))
        ++ line "approvals" (show_Z (array_length (approvals (metadata request))))
        ++ line "rejections" (show_Z (array_length (rejections (metadata request))))
        ++ nl ++ "    </request>"))))))).

(** The character-wise entity encoding: what [escapeXml] is meant to
    compute in its five passes. *)
Definition xml_entity (c : ascii) : string :=
  if Ascii.eqb c "&" then "&amp;"
  else if Ascii.eqb c "<" then "&lt;"
  else if Ascii.eqb c ">" then "&gt;"
  else if Ascii.eqb c DQUOTE then "&quot;"
  else if Ascii.eqb c "'" then "&#39;"
  else String c EmptyString.

Fixpoint xml_encode (s : string) : string :=
  match s with
  | EmptyString => EmptyString
  | String c rest => xml_entity c ++ xml_encode rest
  end.

(** The number of occurrences of a character. *)
Fixpoint count_char (c : ascii) (s : string) : nat :=
  match s with
  | EmptyString => O
  | String a rest => ((if Ascii.eqb a c then 1 else 0) + count_char c rest)%nat
  end.

(* ================================================================== *)
(** ** Paginated document: the calls of [exportToPdf] *)
(* ================================================================== *)

(** A call on the document builder. *)
Inductive DocCall : Type :=
| SetFontSize (size : Z)
| DrawText (text : string) (x y : Z)
| AddPage.

(** [Object.entries(summary)], each value as a template literal writes
    it. *)
Definition summary_entries (s : Summary) : list (string * string) :=
  [ ("totalRequests", show_Z (totalRequests s));
    ("pendingRequests", show_Z (pendingRequests s));
    ("approvedRequests", show_Z (approvedRequests s));
    ("rejectedRequests", show_Z (rejectedRequests s));
    ("totalApprovals", show_Z (totalApprovals s));
    ("totalRejections", show_Z (totalRejections s));
    ("totalComments", show_Z (totalComments s));
    ("avgApprovalTime", avgApprovalTime s);
    ("mostActiveRequester", mostActiveRequester s);
    ("mostCommonWorkflow", mostCommonWorkflow s) ].

(** One round of the loop over the summary: the vertical position and
    the calls made so far. *)
Definition summary_line (state : Z * list DocCall) (entry : string * string)
    : Z * list DocCall :=
  let yPosition := fst state in
  let calls :=
    (snd state
       ++ [DrawText (capitalize (fst entry) ++ ": " ++ snd entry)%string 25 yPosition])%list in
  let yPosition := yPosition + 7 in
  if 280 <? yPosition then (20, (calls ++ [AddPage])%list) else (yPosition, calls).

(** The number of UTF-16 code units of the character that a UTF-8 byte
    starts: none for a continuation byte, two for the lead byte of a
    four-byte sequence (a character outside the basic plane, which is a
    surrogate pair in UTF-16), one for any other byte. *)
Definition code_units_of (b : ascii) : nat :=
  let n := N_of_ascii b in
  if (n <? 128)%N then 1%nat
  else if (n <? 192)%N then 0%nat
  else if (n <? 240)%N then 1%nat
  else 2%nat.

(** [s.length]: the number of UTF-16 code units of the string. *)
Fixpoint js_length (s : string) : nat :=
  match s with
  | EmptyString => 0%nat
  | String b rest => (code_units_of b + js_length rest)%nat
  end.

(** The high surrogate of the character with the four-byte sequence
    [b0 b1 b2 b3], in the three-byte form of generalized UTF-8. *)
Definition high_surrogate (b0 b1 b2 b3 : ascii) : string :=
  let cp := ((N_of_ascii b0 mod 8) * 262144 + (N_of_ascii b1 mod 64) * 4096
             + (N_of_ascii b2 mod 64) * 64 + N_of_ascii b3 mod 64)%N in
  let hi := (55296 + (cp - 65536) / 1024)%N in
  String (ascii_of_N 237)
    (String (ascii_of_N (128 + (hi / 64) mod 64))
       (String (ascii_of_N (128 + hi mod 64)) EmptyString)).

(** [s.substring(0, n)]: the first [n] code units of the string.  A
    character is kept with its continuation bytes; a cut in the middle
    of a surrogate pair keeps the high surrogate alone. *)
Fixpoint substring0 (n : nat) (s : string) : string :=
  match s with
  | EmptyString => EmptyString
  | String b rest =>
      match code_units_of b with
      | O => String b (substring0 n rest)
      | S O =>
          match n with
          | O => EmptyString
          | S k => String b (substring0 k rest)
          end
      | _ =>
          match n with
          | O => EmptyString
          | S O =>
              match rest with
              | String b1 (String b2 (String b3 _)) => high_surrogate b b1 b2 b3
              | _ => EmptyString
              end
          | S (S k) => String b (substring0 k rest)
          end
      end
  end.

(** [data.requests.slice(0, 15).map(...)]: the rows of the table. *)
Definition pdf_row `{Host} (req : Request) : list string :=
  [ substring0 10 (id req) ++ "...";
    requester req;
    if (30 <? js_length (subject req))%nat
    then substring0 30 (subject req) ++ "..."
    else subject req;
    status (metadata req);
    formatDate (Some (submittedAt (metadata req))) "short" ].

Definition pdf_table `{Host} (data : ExportData) : list (list string) :=
  map pdf_row (slice0 (data_requests data) 15).

(** [row.forEach((cell, cellIndex) => doc.text(...))]. *)
Fixpoint pdf_cells (cells : list string) (cellIndex rowY : Z) : list DocCall :=
  match cells with
  | [] => []
  | cell :: rest =>
      DrawText cell (20 + cellIndex * 35) rowY :: pdf_cells rest (cellIndex + 1) rowY
  end.

(** [tableData.forEach((row, rowIndex) => ...)]. *)
Fixpoint pdf_rows (rows : list (list string)) (rowIndex yPosition : Z) : list DocCall :=
  match rows with
  | [] => []
  | row :: rest =>
      (pdf_cells row 0 (yPosition + rowIndex * 7)
         ++ pdf_rows rest (rowIndex + 1) yPosition)%list
  end.

(** The calls that [exportToPdf(data, options)] makes on the document,
    in order, once it has found the document builder. *)
Definition exportToPdf_calls `{Host} (data : ExportData) (options : Options)
    : list DocCall :=
  let title := match opt_title options with
               | Some t => t
               | None => "Approval System Report"
               end in
  let yPosition := 20 in
  let calls := [SetFontSize 20; DrawText title 20 yPosition] in
  let yPosition := yPosition + 15 in
  let calls :=
    (calls ++ [SetFontSize 10;
               DrawText ("Generated on: " ++ Date_toLocaleString now)%string 20 yPosition])%list in
  let yPosition := yPosition + 10 in
  let calls := (calls ++ [SetFontSize 16; DrawText "Summary" 20 yPosition])%list in
  let yPosition := yPosition + 10 in
  let summary := createSummary data in
  let calls := (calls ++ [SetFontSize 11])%list in
  let after_summary :=
    fold_left summary_line (summary_entries summary) (yPosition, calls) in
  let yPosition := fst after_summary + 5 in
  let calls :=
    (snd after_summary ++ [SetFontSize 16; DrawText "Recent Requests" 20 yPosition])%list in
  let yPosition := yPosition + 10 in
  (calls ++ [SetFontSize 8] ++ pdf_rows (pdf_table data) 0 yPosition)%list.

(* ================================================================== *)
(** ** Statements used below *)
(* ================================================================== *)

(** The conjunction that the four filter steps test. *)
Definition passes (filters : Filters) (request : Request) : bool :=
  match filter_dateRange filters with
  | Some range => in_dateRange range request
  | None => true
  end
  && match supplied (filter_status filters) with
     | Some wanted => String.eqb (status (metadata request)) wanted
     | None => true
     end
  && match supplied (filter_requester filters) with
     | Some wanted => String.eqb (requester request) wanted
     | None => true
     end
  && match supplied (filter_workflowId filters) with
     | Some wanted => String.eqb (workflowId request) wanted
     | None => true
     end.

(** How many of the names are [name]. *)
Definition occurrences (name : string) (names : list string) : Z :=
  array_length (List.filter (String.eqb name) names).

(** The names that every object inherits from [Object.prototype].  A
    lookup by such a name in a counter object or in a table of templates
    finds the inherited member where an own property is meant. *)
Definition Object_prototype_names : list string :=
  [ "constructor"; "__defineGetter__"; "__defineSetter__"; "hasOwnProperty";
    "__lookupGetter__"; "__lookupSetter__"; "isPrototypeOf";
    "propertyIsEnumerable"; "toString"; "valueOf"; "__proto__";
    "toLocaleString" ].

(** The five formats that [exportData] can render. *)
Definition rendered_formats : list string := ["csv"; "json"; "excel"; "pdf"; "xml"].

(** The built-in formats are registered, as they are from the
    constructor on. *)
Definition has_builtin_formats (sys : ExportSystem) : Prop :=
  forall format, In format rendered_formats -> In format (exportFormats sys).

(** [counts[key]] read as a number; an absent key counts 0. *)
Definition count_in (c : counters) (key : string) : Z :=
  match counter_get key c with
  | Some n => n
  | None => 0
  end.

Definition only_sheet (sheet : string) : Options :=
  {| opt_filters := None; opt_sheet := Some sheet; opt_mode := None;
     opt_includeAll := None; opt_title := None |}.

(** A request with one approval, one rejection and one comment. *)
Definition eventful_request : Request :=
  {| id := "R9"; requester := "C"; subject := "Badge, " ++ dq ++ "East" ++ dq;
     workflowId := "W1";
     metadata :=
       {| status := "rejected"; submittedAt := 1000; completedAt := Some 9000;
          currentLevel := 2;
          approvals := [ {| approval_approverId := "lead"; approval_level := 1;
                            approvedAt := 4000; approval_comment := None |} ];
          rejections := [ {| rejection_approverId := "chief"; rejection_level := 2;
                             rejectedAt := 9000;
                             rejection_reason := Some "no budget" |} ];
          comments := [ {| comment_user := "C"; comment_type := "note";
                           comment_timestamp := 2000; comment_text := "urgent" |} ] |} |}.

Definition eventful_system : ApprovalSystem :=
  {| requests := eventful_request :: three_requests;
     getStatistics := VObject [("total", VNumber 4)] |}.

(** A store with two requests that have neither a workflow object nor a
    data object: the requests at 1 and 3, their metadata at 2 and 4. *)
Definition plain_requests : Store.store :=
  {[ 1%positive :=
       {[ "id" := Store.Str "R1"; "workflowId" := Store.Str "W1";
          "metadata" := Store.Ref 2%positive ]};
     2%positive :=
       {[ "status" := Store.Str "approved"; "submittedAt" := Store.DateV 0;
          "completedAt" := Store.DateV 7200000 ]};
     3%positive :=
       {[ "id" := Store.Str "R2"; "workflowId" := Store.Str "W1";
          "data" := Store.Null; "metadata" := Store.Ref 4%positive ]};
     4%positive :=
       {[ "status" := Store.Str "pending"; "submittedAt" := Store.DateV 1000 ]} ]}.

(** The parts of [objectToXml] by name, for the statements below: the
    child of an array element, the element of one entry, and the
    element around the rendered entries. *)
Definition xml_item `{Host} (item : jsval) : result string :=
  match item with
  | VNull | VDate _ | VArray _ | VObject _ => objectToXml item "item"
  | _ =>
      bind_result (xml_text item) (fun text =>
        Ok (open_tag "item" ++ text ++ close_tag "item"))
  end.

Definition xml_entry `{Host} (key : string) (value : jsval) : result string :=
  match value with
  | VArray items =>
      bind_result (sequence_results (map xml_item items)) (fun children =>
        Ok (open_tag key ++ String.concat "" children ++ close_tag key))
  | VDate _ | VObject _ => objectToXml value key
  | _ =>
      bind_result (xml_text value) (fun text =>
        Ok (open_tag key ++ text ++ close_tag key))
  end.

Definition xml_wrap (tagName : string) (rendered : list (string * result string))
    : result string :=
  bind_result (sequence_results (map snd rendered)) (fun parts =>
    Ok (open_tag tagName ++ String.concat "" parts ++ close_tag tagName)).

(** A value with every date in it replaced by the invalid date. *)
Fixpoint blank_dates (v : jsval) : jsval :=
  match v with
  | VDate _ => VDate None
  | VArray elems => VArray (map blank_dates elems)
  | VObject fields =>
      VObject
        ((fix each (fs : list (string * jsval)) : list (string * jsval) :=
            match fs with
            | [] => []
            | (key, value) :: rest => (key, blank_dates value) :: each rest
            end) fields)
  | _ => v
  end.

(* ================================================================== *)
(** * Properties *)
(* ================================================================== *)

(** ** Escaping *)

Lemma includes_char_In (c : ascii) (s : string) :
  includes_char c s = true <-> In c (list_ascii_of_string s).
Proof.
  induction s as [|a rest IH]; simpl.
  - split; [discriminate | tauto].
  - rewrite orb_true_iff, IH, Ascii.eqb_eq. tauto.
Qed.

Lemma string_of_list_ascii_app (xs ys : list ascii) :
  string_of_list_ascii (xs ++ ys)%list
  = string_of_list_ascii xs ++ string_of_list_ascii ys.
Proof.
  induction xs as [|x xs IH]; simpl; [reflexivity | now rewrite IH].
Qed.

Lemma replace_quote_doubles (s : string) :
  replace_char DQUOTE (dq ++ dq) s
  = string_of_list_ascii
      (flat_map (fun c => if Ascii.eqb c DQUOTE then [DQUOTE; DQUOTE] else [c])
         (list_ascii_of_string s)).
Proof.
  induction s as [|a rest IH]; simpl; [reflexivity |].
  rewrite string_of_list_ascii_app, <- IH.
  destruct (Ascii.eqb a DQUOTE); reflexivity.
Qed.

(** C5.  A string field that holds a comma, a double quote or a newline
    is rendered between double quotes with each of its double quotes
    written twice; any other string is rendered as it is; the subject
    [Widget, 'Pro'] (with double quotes around Pro) becomes the quoted
    cell with the inner quotes doubled. *)
Theorem escapeCsv_quotes_special_fields `{Host} (s : string) :
  let cs := list_ascii_of_string s in
  (In ","%char cs \/ In DQUOTE cs \/ In NEWLINE cs ->
     escapeCsv (VString s) = Ok (spec_quoted_cell s))
  /\ (~ (In ","%char cs \/ In DQUOTE cs \/ In NEWLINE cs) ->
     escapeCsv (VString s) = Ok s)
  /\ escapeCsv (VString ("Widget, " ++ dq ++ "Pro" ++ dq))
     = Ok (dq ++ "Widget, " ++ dq ++ dq ++ "Pro" ++ dq ++ dq ++ dq).
Proof.
  intros cs. unfold escapeCsv, js_toString. cbn [toString_of].
  repeat split.
  - intros Hin.
    assert (Hb : includes_char "," s || includes_char DQUOTE s
                 || includes_char NEWLINE s = true).
    { rewrite !orb_true_iff, !includes_char_In. tauto. }
    rewrite Hb. unfold spec_quoted_cell. now rewrite replace_quote_doubles.
  - intros Hnot.
    destruct (includes_char "," s || includes_char DQUOTE s
              || includes_char NEWLINE s) eqn:Hb; [| reflexivity].
    exfalso. apply Hnot.
    rewrite !orb_true_iff, !includes_char_In in Hb. tauto.
Qed.

Lemma escapeCsv_quotes_special_fields_witness :
  (In ","%char (list_ascii_of_string "a,b")
   /\ @escapeCsv utc_host (VString "a,b") = Ok (spec_quoted_cell "a,b"))
  /\ @escapeCsv utc_host (VString "plain") = Ok "plain".
Proof.
  split; [split |].
  - simpl. tauto.
  - apply (proj1 (@escapeCsv_quotes_special_fields utc_host "a,b")).
    simpl. tauto.
  - apply (proj1 (proj2 (@escapeCsv_quotes_special_fields utc_host "plain"))).
    simpl. intuition discriminate.
Defined.

(** Induction on values that reaches the elements of an array and the
    property values of an object. *)
Lemma jsval_nested_ind (P : jsval -> Prop) :
  P VUndefined -> P VNull -> (forall b, P (VBool b)) -> (forall z, P (VNumber z)) ->
  (forall s, P (VString s)) -> (forall t, P (VDate t)) ->
  (forall elems, List.Forall P elems -> P (VArray elems)) ->
  (forall fields, List.Forall (fun kv => P (snd kv)) fields -> P (VObject fields)) ->
  forall v, P v.
Proof.
  intros HU HN HB HZ HS HD HA HO.
  fix IH 1. intros [| | b | z | s | t | elems | fields].
  - exact HU.
  - exact HN.
  - apply HB.
  - apply HZ.
  - apply HS.
  - apply HD.
  - apply HA. induction elems as [|e rest IHrest]; constructor; [apply IH | exact IHrest].
  - apply HO. induction fields as [|[k v] rest IHrest]; constructor;
      [apply IH | exact IHrest].
Qed.








(** The guard answers [null] and [undefined] before the method call,
    which alone throws on them. *)
Lemma toString_throws_on_null `{Host} :
  (exists e, js_toString VNull = Throw e)
  /\ (exists e, js_toString VUndefined = Throw e).
Proof. split; eexists; reflexivity. Qed.

Lemma escapeXml_example `{Host} :
  escapeXml (VString "A & B < C") = Ok "A &amp; B &lt; C".
Proof. reflexivity. Qed.

(** ** Statistics *)

Lemma status_counts_partition (rs : list Request) :
  Forall (fun r => status (metadata r) = "pending"
                   \/ status (metadata r) = "approved"
                   \/ status (metadata r) = "rejected") rs ->
  (length (List.filter (has_status "pending") rs)
   + length (List.filter (has_status "approved") rs)
   + length (List.filter (has_status "rejected") rs) = length rs)%nat.
Proof.
  induction 1 as [|r rs Hr _ IH]; simpl; [reflexivity |].
  unfold has_status in *.
  destruct Hr as [E | [E | E]]; rewrite E; simpl; lia.
Qed.

(** C9.  When every request is pending, approved or rejected, the three
    status counts of the summary add up to [totalRequests], which is the
    number of requests. *)
Theorem createSummary_status_counts (data : ExportData) :
  Forall (fun r => status (metadata r) = "pending"
                   \/ status (metadata r) = "approved"
                   \/ status (metadata r) = "rejected") (data_requests data) ->
  pendingRequests (createSummary data) + approvedRequests (createSummary data)
    + rejectedRequests (createSummary data) = totalRequests (createSummary data)
  /\ totalRequests (createSummary data) = Z.of_nat (length (data_requests data)).
Proof.
  intros Hall. split; [| reflexivity].
  simpl. unfold array_length.
  rewrite <- (status_counts_partition _ Hall). lia.
Qed.

Lemma createSummary_status_counts_witness :
  pendingRequests (createSummary (data_of three_requests))
    + approvedRequests (createSummary (data_of three_requests))
    + rejectedRequests (createSummary (data_of three_requests)) = 3
  /\ totalRequests (createSummary (data_of three_requests)) = 3.
Proof.
  apply (createSummary_status_counts (data_of three_requests)).
  repeat constructor; simpl; tauto.
Defined.

(** A status outside the three is counted in the total only. *)
Lemma createSummary_other_status :
  let data := data_of [simple_request "R1" "A" "S" "W1" "escalated" 0 None] in
  pendingRequests (createSummary data) + approvedRequests (createSummary data)
    + rejectedRequests (createSummary data) = 0
  /\ totalRequests (createSummary data) = 1.
Proof. split; reflexivity. Qed.

Lemma fold_left_sum {A : Type} (f : A -> Z) (xs : list A) (start : Z) :
  fold_left (fun sum x => sum + f x) xs start = start + sum_Z (map f xs).
Proof.
  revert start. induction xs as [|x xs IH]; intros start; simpl.
  - lia.
  - rewrite IH. unfold sum_Z. lia.
Qed.

Lemma Permutation_List_filter {A : Type} (p : A -> bool) (xs ys : list A) :
  Permutation xs ys -> Permutation (List.filter p xs) (List.filter p ys).
Proof.
  induction 1 as [| x xs ys _ IH | x y xs | xs ys zs _ IH1 _ IH2]; simpl.
  - constructor.
  - destruct (p x); [now constructor | exact IH].
  - destruct (p x), (p y); try reflexivity. apply perm_swap.
  - now transitivity (List.filter p ys).
Qed.

Lemma sum_Z_Permutation (xs ys : list Z) :
  Permutation xs ys -> sum_Z xs = sum_Z ys.
Proof.
  induction 1; simpl; unfold sum_Z in *; simpl; lia.
Qed.

(** The mean approval time does not depend on the order of the requests. *)
Lemma calculateAverageApprovalTime_Permutation (xs ys : list Request) :
  Permutation xs ys ->
  calculateAverageApprovalTime xs = calculateAverageApprovalTime ys.
Proof.
  intros Hp. unfold calculateAverageApprovalTime, array_length.
  pose proof (Permutation_List_filter approved_and_completed _ _ Hp) as Hf.
  rewrite (Permutation_length Hf), !fold_left_sum.
  now rewrite (sum_Z_Permutation _ _ (Permutation_map approval_time Hf)).
Qed.

Lemma Qfloor_mean_seconds (total : Z) (count : positive) :
  Qfloor (inject_Z total / inject_Z (Zpos count) / inject_Z 1000)
  = total / (1000 * Zpos count).
Proof.
  unfold Qdiv, Qmult, Qinv, inject_Z, Qfloor. simpl.
  rewrite !Z.mul_1_r, Pos.mul_1_l, Pos2Z.inj_mul.
  f_equal. lia.
Qed.

(** [formatDuration] picks the coarsest unit that is not zero. *)
Lemma formatDuration_coarsest_unit (ms : Q) :
  formatDuration ms = spec_duration_text (Qfloor (ms / inject_Z 1000)).
Proof.
  unfold formatDuration, spec_duration_text.
  set (s := Qfloor (ms / inject_Z 1000)).
  assert (Hh : s / 60 / 60 = s / 3600) by (now rewrite Z.div_div by lia).
  assert (Hd : s / 60 / 60 / 24 = s / 86400)
    by (rewrite Hh; now rewrite Z.div_div by lia).
  rewrite Hd, Hh.
  assert (E1 : (0 <? s / 86400) = (86400 <=? s)).
  { apply eq_true_iff_eq. rewrite Z.ltb_lt, Z.leb_le.
    Z.to_euclidean_division_equations. lia. }
  assert (E2 : (0 <? s / 3600) = (3600 <=? s)).
  { apply eq_true_iff_eq. rewrite Z.ltb_lt, Z.leb_le.
    Z.to_euclidean_division_equations. lia. }
  assert (E3 : (0 <? s / 60) = (60 <=? s)).
  { apply eq_true_iff_eq. rewrite Z.ltb_lt, Z.leb_le.
    Z.to_euclidean_division_equations. lia. }
  now rewrite E1, E2, E3.
Qed.

Lemma append_unit_not_NA (x : string) (c : ascii) (rest : string) :
  c <> "N"%char -> c <> "/"%char -> c <> "A"%char ->
  x ++ String c rest <> "N/A".
Proof.
  intros HN Hs HA.
  destruct x as [|a [|b [|d [|e x]]]]; simpl; intros E;
    inversion E; congruence.
Qed.

Lemma formatDuration_not_NA (ms : Q) : formatDuration ms <> "N/A".
Proof.
  rewrite formatDuration_coarsest_unit. unfold spec_duration_text.
  repeat match goal with
         | |- context [if ?b then _ else _] => destruct b
         end; apply append_unit_not_NA; discriminate.
Qed.

Lemma length_zero_Z {A : Type} (xs : list A) :
  (array_length xs =? 0) = true <-> xs = [].
Proof.
  unfold array_length. rewrite Z.eqb_eq.
  destruct xs; simpl; split; intros E; try reflexivity; try discriminate; lia.
Qed.

Lemma approved_and_completed_iff (r : Request) :
  approved_and_completed r = true
  <-> status (metadata r) = "approved" /\ completedAt (metadata r) <> None.
Proof.
  unfold approved_and_completed, has_status.
  rewrite andb_true_iff, String.eqb_eq.
  destruct (completedAt (metadata r)); split; intros [E1 E2];
    split; congruence.
Qed.

Lemma filter_nil_iff {A : Type} (p : A -> bool) (xs : list A) :
  List.filter p xs = [] <-> ~ exists x, In x xs /\ p x = true.
Proof.
  split.
  - intros E [x Hx]. apply filter_In in Hx. rewrite E in Hx. destruct Hx.
  - intros Hnone. destruct (List.filter p xs) as [|x rest] eqn:E; [reflexivity |].
    exfalso. apply Hnone. exists x. apply filter_In. rewrite E. now left.
Qed.

Lemma durations_of_filter (requests : list Request) (durations : list Z) :
  durations_of requests durations ->
  map approval_time (List.filter approved_and_completed requests) = durations.
Proof.
  induction 1 as [| r rest ds completed Hs Hc _ IH | r rest ds Hnot _ IH];
    cbn [List.filter]; [reflexivity | |].
  - assert (Hr : approved_and_completed r = true).
    { apply approved_and_completed_iff. split; [exact Hs | congruence]. }
    rewrite Hr. cbn [map]. unfold approval_time at 1. now rewrite Hc, IH.
  - assert (Hr : approved_and_completed r = false).
    { apply not_true_iff_false. intros Hr. apply Hnot.
      now apply approved_and_completed_iff. }
    now rewrite Hr.
Qed.

(** C4, as amended.  The average approval time is the text N/A exactly
    when no request is approved with [completedAt] set.  Otherwise, when
    no duration [completedAt - submittedAt] of those requests is negative
    and the durations add up to at most [Number.MAX_SAFE_INTEGER]
    milliseconds, it is their mean, written in the coarsest unit that is
    not zero.  The summary of requests whose requester and workflow
    names are not names of members of [Object.prototype] carries that
    text; and for two such approved requests that took two and four hours
    together with a pending one, in any order, the summary says 3h 0m
    and one pending request. *)
Theorem avgApprovalTime_spec :
  (forall requests : list Request,
     calculateAverageApprovalTime requests = "N/A"
     <-> ~ exists r, In r requests
                     /\ status (metadata r) = "approved"
                     /\ completedAt (metadata r) <> None)
  /\ (forall (requests : list Request) (durations : list Z),
        durations_of requests durations ->
        durations <> [] ->
        List.Forall (fun d => 0 <= d) durations ->
        sum_Z durations <= MAX_SAFE_INTEGER ->
        calculateAverageApprovalTime requests
        = spec_duration_text
            (sum_Z durations / (1000 * Z.of_nat (length durations))))
  /\ (forall data : ExportData,
        List.Forall (fun r => ~ In (requester r) Object_prototype_names
                              /\ ~ In (workflowId r) Object_prototype_names)
          (data_requests data) ->
        avgApprovalTime (createSummary data)
        = calculateAverageApprovalTime (data_requests data))
  /\ (forall (data : ExportData) (r1 r2 r3 : Request),
        Permutation (data_requests data) [r1; r2; r3] ->
        status (metadata r1) = "approved" ->
        completedAt (metadata r1) = Some (submittedAt (metadata r1) + 2 * 3600000) ->
        status (metadata r2) = "approved" ->
        completedAt (metadata r2) = Some (submittedAt (metadata r2) + 4 * 3600000) ->
        status (metadata r3) = "pending" ->
        List.Forall (fun r => ~ In (requester r) Object_prototype_names
                              /\ ~ In (workflowId r) Object_prototype_names)
          [r1; r2; r3] ->
        avgApprovalTime (createSummary data) = "3h 0m"
        /\ pendingRequests (createSummary data) = 1).
Proof.
  split; [| split; [| split]].
  - intros requests. unfold calculateAverageApprovalTime.
    set (approved := List.filter approved_and_completed requests).
    destruct (array_length approved =? 0) eqn:E.
    + apply length_zero_Z in E.
      split; [intros _ | reflexivity].
      apply filter_nil_iff in E. intros [r [Hin Hr]]. apply E.
      exists r. split; [exact Hin |]. now apply approved_and_completed_iff.
    + split; [intros Hna; now apply formatDuration_not_NA in Hna |].
      intros Hnone. exfalso.
      assert (Hnil : approved = []).
      { apply filter_nil_iff. intros [r [Hin Hr]]. apply Hnone.
        exists r. split; [exact Hin |]. now apply approved_and_completed_iff. }
      apply length_zero_Z in Hnil. congruence.
  - intros requests durations Hds Hne _ _.
    apply durations_of_filter in Hds.
    unfold calculateAverageApprovalTime.
    set (approved := List.filter approved_and_completed requests) in *.
    assert (Hlen : length approved = length durations)
      by (rewrite <- Hds; now rewrite length_map).
    destruct (array_length approved =? 0) eqn:E.
    + apply length_zero_Z in E. rewrite E in Hds. simpl in Hds. congruence.
    + rewrite formatDuration_coarsest_unit, fold_left_sum, Hds. f_equal.
      unfold array_length. rewrite Hlen.
      destruct durations as [|d rest]; [contradiction |].
      remember (d :: rest) as l eqn:El.
      destruct (Z.of_nat (length l)) as [|count|count] eqn:Ec;
        try (subst l; simpl in Ec; lia).
      rewrite Qfloor_mean_seconds. f_equal.
  - reflexivity.
  - intros data r1 r2 r3 Hp S1 C1 S2 C2 S3 _.
    cbn [avgApprovalTime pendingRequests createSummary]. split.
    + rewrite (calculateAverageApprovalTime_Permutation _ _ Hp).
      unfold calculateAverageApprovalTime, approved_and_completed, has_status.
      simpl List.filter. rewrite S1, S2, S3, C1, C2. simpl List.filter.
      simpl fold_left. unfold approval_time. rewrite C1, C2.
      replace (0 + (submittedAt (metadata r1) + 2 * 3600000 - submittedAt (metadata r1))
               + (submittedAt (metadata r2) + 4 * 3600000 - submittedAt (metadata r2)))
        with 21600000 by lia.
      reflexivity.
    + unfold array_length.
      rewrite (Permutation_length
                 (Permutation_List_filter (has_status "pending") _ _ Hp)).
      unfold has_status. simpl. rewrite S1, S2, S3. reflexivity.
Qed.

Lemma avgApprovalTime_spec_witness :
  let quick := simple_request "R7" "A" "S7" "W1" "approved" 1000 (Some 91000) in
  let slow := simple_request "R8" "B" "S8" "W1" "approved" 0 (Some 180000) in
  let open := simple_request "R9" "B" "S9" "W2" "pending" 0 None in
  (durations_of [quick; open; slow] [90000; 180000]
   /\ calculateAverageApprovalTime [quick; open; slow] = "2m 15s")
  /\ (avgApprovalTime (createSummary (data_of three_requests)) = "3h 0m"
      /\ pendingRequests (createSummary (data_of three_requests)) = 1).
Proof.
  intros quick slow open.
  assert (Hds : durations_of [quick; open; slow] [90000; 180000]).
  { apply (durations_counted quick _ _ 91000); [reflexivity | reflexivity |].
    apply durations_skipped; [intros [Hs _]; discriminate |].
    apply (durations_counted slow _ _ 180000); [reflexivity | reflexivity |].
    constructor. }
  split; [split; [exact Hds |] |].
  - apply (proj1 (proj2 avgApprovalTime_spec) [quick; open; slow] [90000; 180000] Hds).
    + discriminate.
    + repeat constructor; lia.
    + vm_compute. discriminate.
  - apply (proj2 (proj2 (proj2 avgApprovalTime_spec)) (data_of three_requests)
             (simple_request "R1" "A" "S1" "W1" "approved" 0 (Some 7200000))
             (simple_request "R2" "B" "S2" "W1" "approved" 3600000 (Some 18000000))
             (simple_request "R3" "A" "S3" "W2" "pending" 5000000 None));
      try reflexivity.
    repeat constructor; cbn; intuition discriminate.
Defined.

(** C4 as stated fails when an approved request was completed before it
    was submitted: the mean is two hours in magnitude, so the hour is
    the coarsest unit that is not zero, and the text is written in
    seconds. *)
Lemma negative_mean_is_written_in_seconds :
  let r := simple_request "R1" "A" "S" "W1" "approved" 7200000 (Some 0) in
  durations_of [r] [-7200000]
  /\ calculateAverageApprovalTime [r] = "-7200s"
  /\ coarsest_unit (-7200000) = "h"%char
  /\ leading_unit (calculateAverageApprovalTime [r]) = Some "s"%char
  /\ leading_unit (calculateAverageApprovalTime [r])
     <> Some (coarsest_unit (-7200000)).
Proof.
  intros r. split; [| split; [| split; [| split]]]; try reflexivity.
  - apply (durations_counted r [] [] 0); [reflexivity | reflexivity | constructor].
  - vm_compute. discriminate.
Qed.

(** ** Query engine *)

Lemma supplied_Some (o : option string) (s : string) :
  supplied o = Some s <-> o = Some s /\ s <> "".
Proof.
  unfold supplied. destruct o as [t|]; [| split; [discriminate | intros [E _]; discriminate]].
  destruct (String.eqb_spec t ""); split.
  - discriminate.
  - intros [E Hne]. congruence.
  - intros E. split; congruence.
  - intros [E _]. congruence.
Qed.

Lemma supplied_None (o : option string) :
  supplied o = None <-> o = None \/ o = Some "".
Proof.
  unfold supplied. destruct o as [t|]; [| tauto].
  destruct (String.eqb_spec t ""); split; intros E; try congruence.
  - right. congruence.
  - destruct E; congruence.
Qed.

Lemma exact_match_step (o : option string) (g : Request -> string)
    (xs : list Request) (r : Request) :
  In r match supplied o with
       | Some wanted => List.filter (fun request => String.eqb (g request) wanted) xs
       | None => xs
       end
  <-> In r xs /\ (forall s, o = Some s -> s <> "" -> g r = s).
Proof.
  destruct (supplied o) as [wanted|] eqn:E.
  - apply supplied_Some in E. destruct E as [-> Hne].
    rewrite filter_In, String.eqb_eq. split.
    + intros [Hin Hg]. split; [exact Hin |]. intros s [= <-] _. exact Hg.
    + intros [Hin Hg]. split; [exact Hin |]. now apply Hg.
  - apply supplied_None in E. split.
    + intros Hin. split; [exact Hin |]. intros s Hs Hne.
      destruct E; congruence.
    + tauto.
Qed.

Lemma dateRange_step (o : option DateRange) (xs : list Request) (r : Request) :
  In r match o with
       | Some range => List.filter (in_dateRange range) xs
       | None => xs
       end
  <-> In r xs /\ (forall range, o = Some range ->
                    range_start range <= submitted r <= range_end range).
Proof.
  destruct o as [range|].
  - rewrite filter_In. unfold in_dateRange, submitted.
    rewrite andb_true_iff, !Z.leb_le. split.
    + intros [Hin Hr]. split; [exact Hin |]. intros ? [= <-]. exact Hr.
    + intros [Hin Hr]. split; [exact Hin |]. now apply Hr.
  - split; [| tauto]. intros Hin. split; [exact Hin | discriminate].
Qed.

(** What passes the four filter steps is an input request that satisfies
    the criteria, and conversely. *)
Lemma applyFilters_In (filters : Filters) (allRequests : list Request) (r : Request) :
  In r (applyFilters filters allRequests)
  <-> In r allRequests /\ satisfies filters r.
Proof.
  unfold applyFilters, satisfies. cbv zeta.
  rewrite (exact_match_step (filter_workflowId filters) workflowId).
  rewrite (exact_match_step (filter_requester filters) requester).
  rewrite (exact_match_step (filter_status filters) (fun q => status (metadata q))).
  rewrite dateRange_step. tauto.
Qed.

Lemma sort_insert_Permutation {A : Type} (compare : A -> A -> Z) (x : A) (xs : list A) :
  Permutation (sort_insert compare x xs) (x :: xs).
Proof.
  induction xs as [|y rest IH]; simpl; [reflexivity |].
  destruct (compare x y <=? 0); [reflexivity |].
  rewrite IH. apply perm_swap.
Qed.

(** Sorting rearranges: whatever the comparator answers, the result has
    the elements of the array, each as often as before. *)
Lemma Array_sort_Permutation {A : Type} (compare : A -> A -> Z) (xs : list A) :
  Permutation (Array_sort compare xs) xs.
Proof.
  induction xs as [|x rest IH]; simpl; [reflexivity |].
  rewrite sort_insert_Permutation. now constructor.
Qed.

Lemma firstn_incl {A : Type} (k : nat) (xs : list A) (x : A) :
  In x (firstn k xs) -> In x xs.
Proof.
  intros Hin. rewrite <- (firstn_skipn k xs). apply in_or_app. now left.
Qed.

Lemma slice0_incl {A : Type} (xs : list A) (n : Z) (x : A) :
  In x (slice0 xs n) -> In x xs.
Proof.
  unfold slice0. destruct (n <? 0); apply firstn_incl.
Qed.

Lemma applyLimit_incl (filters : Filters) (xs : list Request) (x : Request) :
  In x (applyLimit filters xs) -> In x xs.
Proof.
  unfold applyLimit. destruct (filter_limit filters) as [n|]; [| tauto].
  destruct (n =? 0); [tauto | apply slice0_incl].
Qed.

Lemma queryRequests_In `{Host} (filters : Filters) (allRequests : list Request)
    (r : Request) :
  In r (queryRequests filters allRequests) ->
  In r allRequests /\ satisfies filters r.
Proof.
  unfold queryRequests, sortRequests. intros Hin.
  apply applyLimit_incl in Hin.
  apply (Permutation_in _ (Array_sort_Permutation _ _)) in Hin.
  now apply applyFilters_In.
Qed.

Lemma drawn_from_refl {A : Type} (xs : list A) : drawn_from xs xs.
Proof. exists []. now rewrite app_nil_r. Qed.

Lemma drawn_from_trans {A : Type} (xs ys zs : list A) :
  drawn_from xs ys -> drawn_from ys zs -> drawn_from xs zs.
Proof.
  intros [o1 H1] [o2 H2]. exists (o1 ++ o2)%list.
  now rewrite app_assoc, H1.
Qed.

Lemma Permutation_drawn_from {A : Type} (xs ys : list A) :
  Permutation xs ys -> drawn_from xs ys.
Proof. intros Hp. exists []. now rewrite app_nil_r. Qed.

Lemma filter_drawn_from {A : Type} (p : A -> bool) (xs : list A) :
  drawn_from (List.filter p xs) xs.
Proof.
  exists (List.filter (fun x => negb (p x)) xs).
  induction xs as [|x rest IH]; simpl; [reflexivity |].
  destruct (p x); simpl.
  - now constructor.
  - rewrite <- Permutation_middle. now constructor.
Qed.

Lemma firstn_drawn_from {A : Type} (k : nat) (xs : list A) :
  drawn_from (firstn k xs) xs.
Proof. exists (skipn k xs). now rewrite firstn_skipn. Qed.

Lemma applyFilters_drawn_from (filters : Filters) (allRequests : list Request) :
  drawn_from (applyFilters filters allRequests) allRequests.
Proof.
  unfold applyFilters. cbv zeta.
  repeat match goal with
         | |- context [match ?o with Some _ => _ | None => _ end] => destruct o
         end;
    repeat first [ apply drawn_from_refl
                 | eapply drawn_from_trans; [apply filter_drawn_from |] ].
Qed.

Lemma queryRequests_drawn_from `{Host} (filters : Filters)
    (allRequests : list Request) :
  drawn_from (queryRequests filters allRequests) allRequests.
Proof.
  unfold queryRequests.
  apply (drawn_from_trans _ (sortRequests filters (applyFilters filters allRequests))).
  - unfold applyLimit. destruct (filter_limit filters) as [n|];
      [| apply drawn_from_refl].
    destruct (n =? 0); [apply drawn_from_refl |].
    unfold slice0. destruct (n <? 0); apply firstn_drawn_from.
  - apply (drawn_from_trans _ (applyFilters filters allRequests)).
    + apply Permutation_drawn_from, Array_sort_Permutation.
    + apply applyFilters_drawn_from.
Qed.

(** Without a limit the query engine returns every input request that
    satisfies the criteria. *)
Lemma queryRequests_complete `{Host} (filters : Filters)
    (allRequests : list Request) (r : Request) :
  filter_limit filters = None ->
  In r allRequests -> satisfies filters r ->
  In r (queryRequests filters allRequests).
Proof.
  intros Hlimit Hin Hsat. unfold queryRequests, applyLimit, sortRequests.
  rewrite Hlimit.
  apply (Permutation_in _ (Permutation_sym (Array_sort_Permutation _ _))).
  now apply applyFilters_In.
Qed.

Lemma applyFilters_no_criteria (filters : Filters) (allRequests : list Request) :
  no_criteria filters -> applyFilters filters allRequests = allRequests.
Proof.
  intros (E1 & E2 & E3 & E4). unfold applyFilters.
  now rewrite E1, E2, E3, E4.
Qed.

Lemma supplied_drop_empty (criterion : option string) :
  supplied (drop_empty criterion) = supplied criterion.
Proof. destruct criterion as [[|a s]|]; reflexivity. Qed.

(** The query engine does not tell an empty-string criterion from one
    that is absent. *)
Lemma queryRequests_without_empty_criteria `{Host} (filters : Filters)
    (allRequests : list Request) :
  queryRequests (without_empty_criteria filters) allRequests
  = queryRequests filters allRequests.
Proof.
  unfold queryRequests, applyLimit, sortRequests, applyFilters, without_empty_criteria.
  cbn [filter_dateRange filter_status filter_requester filter_workflowId
       filter_sortBy filter_sortOrder filter_limit].
  now rewrite !supplied_drop_empty.
Qed.

(** C3, as amended.  The requests that the query engine returns are
    drawn from the input requests, and each of them satisfies every
    criterion that is supplied with a value other than the empty string:
    the date range with both ends included, and the exact matches on
    status, requester and workflow; when no limit is set, every input
    request that satisfies them is returned.  A status, requester or
    workflow criterion that is the empty string is treated as not
    supplied: the result is the one for the filters without it.  When no
    criterion is supplied, or only empty ones, the filter steps return the
    input unchanged and the result is a rearrangement of it when no limit
    is set.  When no input request satisfies the criteria the result is
    the empty sequence. *)
Theorem getExportData_filters `{Host} (approvalSystem : ApprovalSystem)
    (options : Options) :
  let filters := filters_of options in
  let result := data_requests (getExportData approvalSystem options) in
  drawn_from result (requests approvalSystem)
  /\ (forall r, In r result ->
     In r (requests approvalSystem) /\ satisfies filters r)
  /\ (filter_limit filters = None ->
      forall r, In r (requests approvalSystem) -> satisfies filters r ->
                In r result)
  /\ result
     = data_requests
         (getExportData approvalSystem (only_filters (without_empty_criteria filters)))
  /\ (no_criteria (without_empty_criteria filters) ->
      applyFilters filters (requests approvalSystem) = requests approvalSystem
      /\ (filter_limit filters = None ->
          Permutation result (requests approvalSystem)))
  /\ ((forall r, In r (requests approvalSystem) -> ~ satisfies filters r) ->
      result = []).
Proof.
  intros filters result. subst filters result. cbn [getExportData data_requests].
  fold (filters_of options).
  assert (Hnone : no_criteria (without_empty_criteria (filters_of options)) ->
                  applyFilters (filters_of options) (requests approvalSystem)
                  = requests approvalSystem).
  { intros Hnone. apply (applyFilters_no_criteria _ (requests approvalSystem)) in Hnone.
    rewrite <- Hnone at 2. unfold applyFilters, without_empty_criteria.
    cbn [filter_dateRange filter_status filter_requester filter_workflowId].
    now rewrite !supplied_drop_empty. }
  split; [| split; [| split; [| split; [| split]]]].
  - apply queryRequests_drawn_from.
  - intros r Hin. now apply queryRequests_In in Hin.
  - intros Hlimit r Hin Hsat. now apply queryRequests_complete.
  - cbn [only_filters opt_filters].
    now rewrite queryRequests_without_empty_criteria.
  - intros Hempty. split; [now apply Hnone |].
    intros Hlimit. unfold queryRequests, sortRequests, applyLimit.
    rewrite Hlimit, Array_sort_Permutation.
    now rewrite Hnone.
  - intros Hnot.
    destruct (queryRequests (filters_of options) (requests approvalSystem))
      as [|r rest] eqn:E; [reflexivity |].
    exfalso. assert (Hin : In r (r :: rest)) by now left.
    rewrite <- E in Hin. apply queryRequests_In in Hin.
    destruct Hin as [Hin Hsat]. exact (Hnot r Hin Hsat).
Qed.

Lemma getExportData_filters_witness :
  let system := {| requests := three_requests; getStatistics := empty_statistics |} in
  let approved_early :=
    only_filters
      {| filter_dateRange := Some {| range_start := 0; range_end := 4000000 |};
         filter_status := Some "approved";
         filter_requester := None; filter_workflowId := None;
         filter_sortBy := None; filter_sortOrder := None;
         filter_limit := None |} in
  let rejected :=
    only_filters
      {| filter_dateRange := None; filter_status := Some "rejected";
         filter_requester := None; filter_workflowId := None;
         filter_sortBy := None; filter_sortOrder := None;
         filter_limit := None |} in
  let empty_status :=
    only_filters
      {| filter_dateRange := None; filter_status := Some "";
         filter_requester := None; filter_workflowId := None;
         filter_sortBy := None; filter_sortOrder := None;
         filter_limit := None |} in
  let r := simple_request "R1" "A" "S1" "W1" "approved" 0 (Some 7200000) in
  (In r three_requests /\ satisfies (filters_of approved_early) r)
  /\ Permutation (data_requests (@getExportData utc_host system no_options))
       three_requests
  /\ Permutation (data_requests (@getExportData utc_host system empty_status))
       three_requests
  /\ data_requests (@getExportData utc_host system rejected) = [].
Proof.
  intros system approved_early rejected empty_status r.
  split; [| split; [| split]].
  - apply (proj1 (proj2 (@getExportData_filters utc_host system approved_early)) r).
    vm_compute. right. left. reflexivity.
  - apply (proj1 (proj2 (proj2 (proj2 (proj2
             (@getExportData_filters utc_host system no_options))))));
      [repeat split | reflexivity].
  - apply (proj1 (proj2 (proj2 (proj2 (proj2
             (@getExportData_filters utc_host system empty_status))))));
      [repeat split | reflexivity].
  - apply (proj2 (proj2 (proj2 (proj2 (proj2
             (@getExportData_filters utc_host system rejected)))))).
    intros q Hq (_ & Hstatus & _).
    specialize (Hstatus "rejected" eq_refl).
    assert (Hne : "rejected" <> "") by discriminate. specialize (Hstatus Hne).
    simpl in Hq. destruct Hq as [<- | [<- | [<- | []]]]; discriminate.
Defined.

(** C3 as stated fails for a criterion that is the empty string: the
    query engine skips it, so a pending request is returned although the
    status criterion is present and differs from its status. *)
Lemma empty_status_criterion_is_skipped :
  let filters :=
    {| filter_dateRange := None; filter_status := Some "";
       filter_requester := None; filter_workflowId := None;
       filter_sortBy := None; filter_sortOrder := None;
       filter_limit := None |} in
  let r := simple_request "R1" "A" "S" "W1" "pending" 0 None in
  In r (data_requests
          (@getExportData utc_host
             {| requests := [r]; getStatistics := empty_statistics |}
             (only_filters filters)))
  /\ ~ spec_satisfies filters r.
Proof.
  intros filters r. split.
  - vm_compute. left. reflexivity.
  - intros (_ & Hstatus & _). specialize (Hstatus "" eq_refl). discriminate.
Qed.

Lemma slice0_firstn {A : Type} (xs : list A) (n : Z) :
  0 <= n -> slice0 xs n = firstn (Z.to_nat n) xs.
Proof.
  intros Hn. unfold slice0.
  destruct (n <? 0) eqn:E; [| reflexivity].
  apply Z.ltb_lt in E. lia.
Qed.

(** C7, as amended.  A limit [n] of at least 1 truncates last: the
    result is the first [n] elements of the sorted, filtered sequence, so
    it has at most [n] elements. *)
Theorem limit_truncates_last `{Host} (approvalSystem : ApprovalSystem)
    (options : Options) (filters : Filters) (n : Z) :
  opt_filters options = Some filters ->
  filter_limit filters = Some n ->
  1 <= n ->
  let result := data_requests (getExportData approvalSystem options) in
  result = firstn (Z.to_nat n)
             (sortRequests filters (applyFilters filters (requests approvalSystem)))
  /\ Z.of_nat (length result) <= n.
Proof.
  intros Hf Hlimit Hn result. subst result.
  cbn [getExportData data_requests]. rewrite Hf.
  unfold queryRequests, applyLimit. rewrite Hlimit.
  destruct (n =? 0) eqn:E; [apply Z.eqb_eq in E; lia |].
  rewrite slice0_firstn by lia. split; [reflexivity |].
  pose proof (firstn_le_length (Z.to_nat n)
                (sortRequests filters
                   (applyFilters filters (requests approvalSystem)))) as Hle.
  lia.
Qed.

Lemma limit_truncates_last_witness :
  let filters := with_limit no_filters (Some 2) in
  let result :=
    data_requests
      (@getExportData utc_host
         {| requests := three_requests; getStatistics := empty_statistics |}
         (only_filters filters)) in
  result = firstn 2 (@sortRequests utc_host filters (applyFilters filters three_requests))
  /\ Z.of_nat (length result) <= 2.
Proof.
  intros filters result.
  apply (@limit_truncates_last utc_host
           {| requests := three_requests; getStatistics := empty_statistics |}
           (only_filters filters) filters 2); [reflexivity | reflexivity | lia].
Defined.

(** C7 as stated fails for the limit 0: the guard [if (filters.limit)]
    does not hold for 0, nothing is cut, and all three requests are
    returned. *)
Lemma limit_zero_returns_everything :
  let filters := with_limit no_filters (Some 0) in
  let result :=
    data_requests
      (@getExportData utc_host
         {| requests := three_requests; getStatistics := empty_statistics |}
         (only_filters filters)) in
  length result = 3%nat /\ ~ (Z.of_nat (length result) <= 0).
Proof.
  intros filters result. split; [reflexivity |].
  vm_compute. intros Hle. apply Hle. reflexivity.
Qed.

(** ** Sorting *)

Section SortedBy.

Context {A : Type} (R : A -> A -> Prop) (compare : A -> A -> Z).
Hypothesis compare_before : forall a b, compare a b <= 0 -> R a b.
Hypothesis compare_after : forall a b, 0 < compare a b -> R b a.
Hypothesis R_transitive : forall a b c, R a b -> R b c -> R a c.

Lemma sort_insert_sorted (x : A) (xs : list A) :
  StronglySorted R xs -> StronglySorted R (sort_insert compare x xs).
Proof.
  induction 1 as [|y rest Hsorted IH Hy]; simpl.
  - constructor; constructor.
  - destruct (compare x y <=? 0) eqn:E.
    + apply Z.leb_le in E. apply compare_before in E.
      constructor; [now constructor |].
      constructor; [exact E |].
      apply List.Forall_forall. intros z Hz. rewrite List.Forall_forall in Hy.
      apply (R_transitive x y z); [exact E | now apply Hy].
    + apply Z.leb_gt in E. apply compare_after in E.
      constructor; [exact IH |].
      apply List.Forall_forall. intros z Hz.
      apply (Permutation_in _ (sort_insert_Permutation compare x rest)) in Hz.
      destruct Hz as [<- | Hz]; [exact E |].
      rewrite List.Forall_forall in Hy. now apply Hy.
Qed.

Lemma Array_sort_sorted (xs : list A) : StronglySorted R (Array_sort compare xs).
Proof.
  induction xs as [|x rest IH]; simpl; [constructor |].
  now apply sort_insert_sorted.
Qed.

End SortedBy.

Lemma StronglySorted_app {A : Type} (R : A -> A -> Prop) (xs ys : list A) :
  StronglySorted R xs -> StronglySorted R ys ->
  (forall a b, In a xs -> In b ys -> R a b) ->
  StronglySorted R (xs ++ ys)%list.
Proof.
  induction 1 as [|x rest Hsorted IH Hx]; intros Hys Hcross; simpl; [exact Hys |].
  constructor.
  - apply IH; [exact Hys |]. intros a b Ha Hb. apply Hcross; [now right | exact Hb].
  - apply Forall_app. split; [exact Hx |].
    apply List.Forall_forall. intros b Hb. apply Hcross; [now left | exact Hb].
Qed.

Lemma StronglySorted_rev {A : Type} (R : A -> A -> Prop) (xs : list A) :
  StronglySorted R xs -> StronglySorted (fun a b => R b a) (rev xs).
Proof.
  induction 1 as [|x rest Hsorted IH Hx]; simpl; [constructor |].
  apply StronglySorted_app; [exact IH | constructor; constructor |].
  intros a b Ha [<- | []]. apply in_rev in Ha.
  rewrite List.Forall_forall in Hx. now apply Hx.
Qed.

(** Two sorted arrangements of the same elements are equal when the order
    is antisymmetric on them. *)
Lemma sorted_arrangement_unique {A : Type} (R : A -> A -> Prop) (xs ys : list A) :
  (forall a b, In a xs -> In b xs -> R a b -> R b a -> a = b) ->
  StronglySorted R xs -> StronglySorted R ys -> Permutation xs ys -> xs = ys.
Proof.
  intros Hanti Hxs. revert ys.
  induction Hxs as [|x rest Hsorted IH Hx]; intros ys Hys Hperm.
  - now apply Permutation_nil in Hperm.
  - destruct Hys as [|y rest' Hsorted' Hy].
    + symmetry in Hperm. now apply Permutation_nil in Hperm.
    + assert (Hxy : x = y).
      { assert (Hx_in : In x (y :: rest'))
          by (apply (Permutation_in _ Hperm); now left).
        assert (Hy_in : In y (x :: rest))
          by (apply (Permutation_in _ (Permutation_sym Hperm)); now left).
        destruct Hx_in as [E | Hx_in]; [now symmetry |].
        destruct Hy_in as [E | Hy_in]; [exact E |].
        rewrite List.Forall_forall in Hx, Hy.
        apply Hanti; [now left | now right | now apply Hx | now apply Hy]. }
      subst y. f_equal.
      apply IH; [| exact Hsorted' | now apply Permutation_cons_inv in Hperm].
      intros a b Ha Hb. apply Hanti; now right.
Qed.

Lemma NoDup_map_injective {A B : Type} (f : A -> B) (xs : list A) (a b : A) :
  List.NoDup (map f xs) -> In a xs -> In b xs -> f a = f b -> a = b.
Proof.
  induction xs as [|x rest IH]; simpl; [tauto |].
  intros Hnd Ha Hb E. apply List.NoDup_cons_iff in Hnd. destruct Hnd as [Hx Hrest].
  destruct Ha as [<- | Ha], Hb as [<- | Hb]; try reflexivity.
  - exfalso. apply Hx. rewrite E. now apply in_map.
  - exfalso. apply Hx. rewrite <- E. now apply in_map.
  - now apply IH.
Qed.

Lemma NoDup_map_filter {A B : Type} (f : A -> B) (p : A -> bool) (xs : list A) :
  List.NoDup (map f xs) -> List.NoDup (map f (List.filter p xs)).
Proof.
  induction xs as [|x rest IH]; simpl; [tauto |].
  intros Hnd. apply List.NoDup_cons_iff in Hnd. destruct Hnd as [Hx Hrest].
  destruct (p x); simpl; [| now apply IH].
  apply List.NoDup_cons_iff. split; [| now apply IH].
  intros Hin. apply Hx. apply in_map_iff in Hin. destruct Hin as [y [E Hy]].
  apply filter_In in Hy. rewrite <- E. apply in_map. tauto.
Qed.

Lemma applyFilters_NoDup {B : Type} (f : Request -> B) (filters : Filters)
    (xs : list Request) :
  List.NoDup (map f xs) -> List.NoDup (map f (applyFilters filters xs)).
Proof.
  intros Hnd. unfold applyFilters. cbv zeta.
  repeat match goal with
         | |- context [match ?o with Some _ => _ | None => _ end] => destruct o
         end; repeat apply NoDup_map_filter; exact Hnd.
Qed.

(** The comparator on the field submittedAt compares the time values. *)
Lemma compareFn_submittedAt_asc `{Host} (a b : Request) :
  compareFn "submittedAt" "asc" a b = if submitted b <? submitted a then 1 else -1.
Proof. reflexivity. Qed.

Lemma compareFn_submittedAt_desc `{Host} (a b : Request) :
  compareFn "submittedAt" "desc" a b = if submitted a <? submitted b then 1 else -1.
Proof. reflexivity. Qed.

Lemma sort_submittedAt_asc_sorted `{Host} (xs : list Request) :
  StronglySorted (fun a b => submitted a <= submitted b)
    (Array_sort (compareFn "submittedAt" "asc") xs).
Proof.
  apply Array_sort_sorted.
  - intros a b. rewrite compareFn_submittedAt_asc.
    destruct (submitted b <? submitted a) eqn:E; [lia |].
    apply Z.ltb_ge in E. lia.
  - intros a b. rewrite compareFn_submittedAt_asc.
    destruct (submitted b <? submitted a) eqn:E; [| lia].
    apply Z.ltb_lt in E. lia.
  - intros a b c. lia.
Qed.

Lemma sort_submittedAt_desc_sorted `{Host} (xs : list Request) :
  StronglySorted (fun a b => submitted b <= submitted a)
    (Array_sort (compareFn "submittedAt" "desc") xs).
Proof.
  apply Array_sort_sorted.
  - intros a b. rewrite compareFn_submittedAt_desc.
    destruct (submitted a <? submitted b) eqn:E; [lia |].
    apply Z.ltb_ge in E. lia.
  - intros a b. rewrite compareFn_submittedAt_desc.
    destruct (submitted a <? submitted b) eqn:E; [| lia].
    apply Z.ltb_lt in E. lia.
  - intros a b c. lia.
Qed.

Lemma sort_desc_is_reverse_of_asc `{Host} (xs : list Request) :
  List.NoDup (map submitted xs) ->
  Array_sort (compareFn "submittedAt" "desc") xs
  = rev (Array_sort (compareFn "submittedAt" "asc") xs).
Proof.
  intros Hnd.
  pose proof (Array_sort_Permutation (compareFn "submittedAt" "desc") xs) as Pd.
  pose proof (Array_sort_Permutation (compareFn "submittedAt" "asc") xs) as Pa.
  apply (sorted_arrangement_unique (fun a b => submitted b <= submitted a)).
  - intros a b Ha Hb Hab Hba.
    apply (NoDup_map_injective submitted xs); [exact Hnd | | | lia].
    + now apply (Permutation_in _ Pd).
    + now apply (Permutation_in _ Pd).
  - apply sort_submittedAt_desc_sorted.
  - apply (StronglySorted_rev (fun a b => submitted a <= submitted b)).
    apply sort_submittedAt_asc_sorted.
  - rewrite Pd. rewrite <- Permutation_rev. now symmetry.
Qed.

Lemma StronglySorted_weaken {A : Type} (R S : A -> A -> Prop) (xs : list A) :
  (forall a b, R a b -> S a b) -> StronglySorted R xs -> StronglySorted S xs.
Proof.
  intros Himpl. induction 1 as [|x rest Hsorted IH Hx]; constructor.
  - exact IH.
  - rewrite List.Forall_forall in *. intros y Hy. now apply Himpl, Hx.
Qed.

Lemma Array_sort_ext {A : Type} (c1 c2 : A -> A -> Z) (xs : list A) :
  (forall a b, c1 a b = c2 a b) -> Array_sort c1 xs = Array_sort c2 xs.
Proof.
  intros Hext. induction xs as [|x rest IH]; simpl; [reflexivity |].
  rewrite IH. generalize (Array_sort c2 rest) as sorted.
  induction sorted as [|y more IHs]; simpl; [reflexivity |].
  now rewrite Hext, IHs.
Qed.

(** The same for any engine: whatever arrangements ordered by the two
    comparators a sort returns, the descending one is the reverse of the
    ascending one. *)
Lemma ordered_desc_is_reverse_of_asc `{Host} (xs descending ascending : list Request) :
  List.NoDup (map submitted xs) ->
  ordered_by (compareFn "submittedAt" "desc") xs descending ->
  ordered_by (compareFn "submittedAt" "asc") xs ascending ->
  descending = rev ascending.
Proof.
  intros Hnd [Pd Sd] [Pa Sa].
  apply (sorted_arrangement_unique (fun a b => submitted b <= submitted a)).
  - intros a b Ha Hb Hab Hba.
    apply (NoDup_map_injective submitted xs); [exact Hnd | | | lia].
    + now apply (Permutation_in _ Pd).
    + now apply (Permutation_in _ Pd).
  - apply (StronglySorted_weaken
             (fun a b => compareFn "submittedAt" "desc" a b <= 0));
      [| exact Sd].
    intros a b Hab. rewrite compareFn_submittedAt_desc in Hab.
    destruct (submitted a <? submitted b) eqn:E; [lia |].
    apply Z.ltb_ge in E. lia.
  - apply (StronglySorted_rev (fun a b => submitted a <= submitted b)).
    apply (StronglySorted_weaken
             (fun a b => compareFn "submittedAt" "asc" a b <= 0));
      [| exact Sa].
    intros a b Hab. rewrite compareFn_submittedAt_asc in Hab.
    destruct (submitted b <? submitted a) eqn:E; [lia |].
    apply Z.ltb_ge in E. lia.
  - rewrite Pd. rewrite <- Permutation_rev. now symmetry.
Qed.

(** The model of [sort] returns such an arrangement. *)
Lemma Array_sort_ordered_by `{Host} (sortOrder : string) (xs : list Request) :
  ordered_by (compareFn "submittedAt" sortOrder) xs
    (Array_sort (compareFn "submittedAt" sortOrder) xs).
Proof.
  split; [apply Array_sort_Permutation |].
  destruct (String.eqb sortOrder "asc") eqn:Eo.
  - apply String.eqb_eq in Eo. subst sortOrder.
    apply (StronglySorted_weaken (fun a b => submitted a <= submitted b));
      [| apply sort_submittedAt_asc_sorted].
    intros a b Hab. rewrite compareFn_submittedAt_asc.
    destruct (submitted b <? submitted a) eqn:E; [| lia].
    apply Z.ltb_lt in E. lia.
  - assert (Hdesc : forall a b,
               compareFn "submittedAt" sortOrder a b
               = compareFn "submittedAt" "desc" a b).
    { intros a b. unfold compareFn. now rewrite Eo. }
    rewrite (Array_sort_ext _ _ xs Hdesc).
    apply (StronglySorted_weaken (fun a b => submitted b <= submitted a));
      [| apply sort_submittedAt_desc_sorted].
    intros a b Hab. rewrite Hdesc, compareFn_submittedAt_desc.
    destruct (submitted a <? submitted b) eqn:E; [| lia].
    apply Z.ltb_lt in E. lia.
Qed.

(** C6.  When the submission times of the records are pairwise distinct,
    sorting by submittedAt in descending order gives the reverse of the
    ascending order: for the sort step on any such sequence, for the
    whole query (any filter criteria, no limit) on any such collection,
    and for any two arrangements that are ordered by the two comparators. *)
Theorem sort_desc_reverses_asc `{Host} (approvalSystem : ApprovalSystem)
    (filters : Filters) :
  List.NoDup (map submitted (requests approvalSystem)) ->
  let desc := with_sort filters (Some "submittedAt") (Some "desc") in
  let asc := with_sort filters (Some "submittedAt") (Some "asc") in
  sortRequests desc (requests approvalSystem)
  = rev (sortRequests asc (requests approvalSystem))
  /\ (filter_limit filters = None ->
      data_requests (getExportData approvalSystem (only_filters desc))
      = rev (data_requests (getExportData approvalSystem (only_filters asc))))
  /\ (forall descending ascending,
        ordered_by (compareFn "submittedAt" "desc") (requests approvalSystem)
          descending ->
        ordered_by (compareFn "submittedAt" "asc") (requests approvalSystem)
          ascending ->
        descending = rev ascending).
Proof.
  intros Hnd desc asc. split; [| split].
  - now apply sort_desc_is_reverse_of_asc.
  - intros Hlimit. cbn [getExportData data_requests only_filters opt_filters].
    unfold queryRequests, applyLimit. subst desc asc.
    cbn [with_sort filter_limit]. rewrite Hlimit.
    change (applyFilters (with_sort filters (Some "submittedAt") (Some "desc")))
      with (applyFilters filters).
    change (applyFilters (with_sort filters (Some "submittedAt") (Some "asc")))
      with (applyFilters filters).
    apply sort_desc_is_reverse_of_asc. now apply applyFilters_NoDup.
  - intros descending ascending. now apply ordered_desc_is_reverse_of_asc.
Qed.

Lemma sort_desc_reverses_asc_witness :
  let system := {| requests := three_requests; getStatistics := empty_statistics |} in
  let desc := with_sort no_filters (Some "submittedAt") (Some "desc") in
  let asc := with_sort no_filters (Some "submittedAt") (Some "asc") in
  List.NoDup (map submitted three_requests)
  /\ @sortRequests utc_host desc three_requests
     = rev (@sortRequests utc_host asc three_requests).
Proof.
  intros system desc asc.
  assert (Hnd : List.NoDup (map submitted three_requests)).
  { simpl. repeat constructor; simpl; intuition discriminate. }
  split; [exact Hnd |].
  exact (proj1 (@sort_desc_reverses_asc utc_host system no_filters Hnd)).
Defined.

(** With equal submission times the two orders need not be reverses of
    each other: the comparator never answers 0. *)
Lemma sort_desc_with_equal_times :
  let a := simple_request "R1" "A" "S" "W1" "pending" 0 None in
  let b := simple_request "R2" "B" "S" "W1" "pending" 0 None in
  @Array_sort Request (@compareFn utc_host "submittedAt" "desc") [a; b]
  = @Array_sort Request (@compareFn utc_host "submittedAt" "asc") [a; b].
Proof. reflexivity. Qed.

(** ** Export orchestrator *)

Lemma array_includes_In (xs : list string) (x : string) :
  array_includes xs x = true <-> In x xs.
Proof.
  unfold array_includes. rewrite existsb_exists. split.
  - intros [y [Hin E]]. apply String.eqb_eq in E. now subst y.
  - intros Hin. exists x. split; [exact Hin | apply String.eqb_refl].
Qed.

(** C2, as amended.  A format whose lower-case form is not among the
    supported formats makes [exportData] throw the error whose message
    names the format and lists the supported ones, and nothing else
    happens: no step is recorded, so the query engine is not called and no
    renderer runs. *)
Theorem exportData_rejects_unsupported `{Host} `{Renderers} (sys : ExportSystem)
    (format : string) (options : Options) (log : list Step) :
  ~ In (toLowerCase format) (exportFormats sys) ->
  exportData sys format options log
  = (Throw (Error ("Unsupported format: " ++ format ++ ". Supported formats: "
                     ++ join ", " (exportFormats sys))),
     log).
Proof.
  intros Hnot. unfold exportData.
  destruct (array_includes (exportFormats sys) (toLowerCase format)) eqn:E.
  - apply array_includes_In in E. contradiction.
  - reflexivity.
Qed.

Lemma exportData_rejects_unsupported_witness :
  ~ In (toLowerCase "bogus") (exportFormats three_request_system)
  /\ @exportData utc_host bare_page three_request_system "bogus" no_options []
     = (Throw (Error "Unsupported format: bogus. Supported formats: csv, json, excel, pdf, xml"),
        []).
Proof.
  assert (Hnot : ~ In (toLowerCase "bogus") (exportFormats three_request_system)).
  { simpl. intuition discriminate. }
  split; [exact Hnot |].
  exact (@exportData_rejects_unsupported utc_host bare_page three_request_system
           "bogus" no_options [] Hnot).
Defined.

(** A supported format reaches the query engine first. *)
Lemma exportData_supported_queries_first `{Host} `{Renderers} (sys : ExportSystem)
    (format : string) (options : Options) (log : list Step) :
  In (toLowerCase format) (exportFormats sys) ->
  exists later,
    snd (exportData sys format options log)
    = (log ++ QueryEngineCalled options :: later)%list.
Proof.
  intros Hin. apply array_includes_In in Hin.
  unfold exportData. rewrite Hin. cbn [negb].
  unfold render.
  repeat match goal with
         | |- context [if String.eqb ?a ?b then _ else _] => destruct (String.eqb a b)
         end;
    unfold bind, record_step, lift, throw, ret;
    try match goal with
        | |- context [exportToCsv ?d ?o] => destruct (exportToCsv d o)
        | |- context [exportToJson ?d ?o] => destruct (exportToJson d o)
        | |- context [exportToExcel ?d ?o] => destruct (exportToExcel d o)
        | |- context [exportToPdf ?d ?o] => destruct (exportToPdf d o)
        | |- context [exportToXml ?d ?o] => destruct (exportToXml d o)
        end;
    cbn [snd]; rewrite <- ?app_assoc; eexists; reflexivity.
Qed.

(** C2 as stated fails for a format that differs from a supported one in
    case only: CSV is not an element of the supported formats, yet the
    export succeeds, after the query engine and the renderer have run. *)
Lemma uppercase_format_is_accepted :
  ~ In "CSV" (exportFormats three_request_system)
  /\ exists exportResult,
       @exportData utc_host bare_page three_request_system "CSV" no_options []
       = (Ok exportResult, [QueryEngineCalled no_options; RendererCalled "csv"]).
Proof.
  split.
  - simpl. intuition discriminate.
  - eexists. vm_compute. reflexivity.
Qed.

(** C8.  The minimal export of the single pending request R1 of requester
    A, subject S, workflow W1, submitted at T, is the serialization of an
    object whose [requests] is the one projection with the six keys id,
    requester, subject, status, submittedAt and workflow, and whose
    [summary] has totalRequests 1. *)
Theorem minimal_json_export `{Host} `{Renderers} (T level : Z) (completed : option Z)
    (statistics : jsval) :
  let request :=
    {| id := "R1"; requester := "A"; subject := "S"; workflowId := "W1";
       metadata := {| status := "pending"; submittedAt := T;
                      completedAt := completed; currentLevel := level;
                      approvals := []; rejections := []; comments := [] |} |} in
  let system := {| requests := [request]; getStatistics := statistics |} in
  let data := getExportData system (only_mode "minimal") in
  let summary :=
    {| totalRequests := 1; pendingRequests := 1; approvedRequests := 0;
       rejectedRequests := 0; totalApprovals := 0; totalRejections := 0;
       totalComments := 0; avgApprovalTime := "N/A";
       mostActiveRequester := "A"; mostCommonWorkflow := "W1" |} in
  let exported :=
    VObject
      [ ("requests",
         VArray [ VObject [ ("id", VString "R1"); ("requester", VString "A");
                            ("subject", VString "S"); ("status", VString "pending");
                            ("submittedAt", VDate (Some T));
                            ("workflow", VString "W1") ] ]);
        ("summary", js_of_summary summary) ] in
  createMinimalData data
  = {| minimal_requests :=
         [ {| minimal_id := "R1"; minimal_requester := "A"; minimal_subject := "S";
              minimal_status := "pending"; minimal_submittedAt := T;
              minimal_workflow := "W1" |} ];
       minimal_summary := summary |}
  /\ js_of_minimal (createMinimalData data) = exported
  /\ js_get "totalRequests" (js_get "summary" exported) = VNumber 1
  /\ exportToJson data (only_mode "minimal")
     = Ok {| content := JSON_stringify exported;
             filename := "approvals_minimal_" ++ today ++ ".json";
             mimeType := "application/json";
             size := blob_size (JSON_stringify exported) |}
  /\ exportData (createExportSystem system) "json" (only_mode "minimal") []
     = (Ok {| payload :=
                {| content := JSON_stringify exported;
                   filename := "approvals_minimal_" ++ today ++ ".json";
                   mimeType := "application/json";
                   size := blob_size (JSON_stringify exported) |};
              export_metadata :=
                {| exportedAt := toISOString now;
                   meta_format := "json";
                   recordCount := 1;
                   meta_filters := no_filters;
                   generatedBy := "ApprovalSystem Export Module" |} |},
        [QueryEngineCalled (only_mode "minimal"); RendererCalled "json"]).
Proof.
  intros request system data summary exported.
  repeat (split; [reflexivity |]). reflexivity.
Qed.

(** ** What [sanitizeRequest] writes *)

Module StoreFacts.
Import Store.

Lemma fresh_is_new (h : store) (l : loc) :
  is_Some (h !! l) -> fresh (dom h) <> l.
Proof.
  intros Hl E. apply elem_of_dom in Hl. rewrite <- E in Hl.
  exact (is_fresh (dom h) Hl).
Qed.

Lemma delete_optional_frame (target : value) (key : string) (h : store) (l : loc) :
  target <> Ref l -> delete_optional target key h !! l = h !! l.
Proof.
  intros Hne. destruct target as [| | | | | l']; try reflexivity.
  simpl. apply lookup_alter_ne. congruence.
Qed.

Lemma delete_optional_keeps (target : value) (key other : string) (h : store)
    (l : loc) :
  key <> other ->
  read l other (delete_optional target key h) = read l other h.
Proof.
  intros Hne. destruct target as [| | | | | l']; try reflexivity.
  unfold read, properties. simpl.
  destruct (decide (l' = l)) as [-> | Hl].
  - rewrite lookup_alter_eq. destruct (h !! l) as [o|]; simpl; [| reflexivity].
    now rewrite lookup_delete_ne.
  - now rewrite lookup_alter_ne.
Qed.

Lemma delete_optional_is_Some (target : value) (key : string) (h : store) (l : loc) :
  is_Some (h !! l) -> is_Some (delete_optional target key h !! l).
Proof.
  intros Hl. destruct target as [| | | | | l']; try exact Hl.
  simpl. destruct (decide (l' = l)) as [-> | Hne].
  - rewrite lookup_alter_eq. destruct Hl as [o ->]. now eexists.
  - now rewrite lookup_alter_ne.
Qed.

(** The frame of [sanitizeRequest]: an object of the store stays as it
    is unless the [workflow] or the [data] property of the request refers
    to it. *)
Lemma sanitizeRequest_frame (request l : loc) (h : store) :
  is_Some (h !! l) ->
  read request "workflow" h <> Ref l ->
  read request "data" h <> Ref l ->
  snd (sanitizeRequest request h) !! l = h !! l.
Proof.
  intros Hl Hw Hd. unfold sanitizeRequest, alloc.
  set (s := fresh (dom h)).
  assert (Hs : s <> l) by now apply fresh_is_new.
  set (h1 := <[s := properties request h]> h).
  assert (Hcopy : properties s h1 = properties request h).
  { unfold properties at 1, h1. now rewrite lookup_insert_eq. }
  assert (Hw1 : read s "workflow" h1 = read request "workflow" h).
  { unfold read. now rewrite Hcopy. }
  set (h2 := delete_optional (read s "workflow" h1) "approvers" h1).
  assert (Hd2 : read s "data" h2 = read request "data" h).
  { unfold h2. rewrite delete_optional_keeps by discriminate.
    unfold read. now rewrite Hcopy. }
  set (h3 := delete_optional (read s "data" h2) "sensitiveInfo" h2).
  assert (E3 : h3 !! l = h !! l).
  { unfold h3. rewrite delete_optional_frame by congruence.
    unfold h2. rewrite delete_optional_frame by congruence.
    unfold h1. now rewrite lookup_insert_ne. }
  set (m := fresh (dom h3)).
  assert (Hm : m <> l).
  { apply fresh_is_new. rewrite E3. exact Hl. }
  cbn [snd].
  rewrite lookup_alter_ne by exact Hm.
  rewrite lookup_alter_ne by exact Hs.
  rewrite lookup_insert_ne by exact Hm.
  exact E3.
Qed.

(** C1 fails on the code.  The request at location 1 has a workflow
    object, at location 2, that lists its approvers, and the metadata
    that the approval system keeps.  The export [exportData('json', {})]
    over this request returns; after it the approvers are gone from the
    workflow object of the source request, although the source request
    still refers to that object and its other property is unchanged. *)
Theorem exportData_json_deletes_from_source :
  exists exported after,
    exportData_json [1%positive] tracked_request = Some (exported, after)
    /\ read 1%positive "workflow" tracked_request = Ref 2%positive
    /\ read 2%positive "approvers" tracked_request = Ref 4%positive
    /\ read 1%positive "workflow" after = Ref 2%positive
    /\ read 2%positive "approvers" after = Undefined
    /\ read 2%positive "name" after = Str "two-step"
    /\ after !! 2%positive <> tracked_request !! 2%positive.
Proof.
  set (outcome := exportData_json [1%positive] tracked_request).
  exists (match outcome with
          | Some (exported, _) => exported
          | None => Build_Exported [] [] [] []
          end),
         (match outcome with
          | Some (_, after) => after
          | None => tracked_request
          end).
  split.
  { assert (Hreturns : match outcome with Some _ => true | None => false end = true)
      by (vm_compute; reflexivity).
    destruct outcome as [[exported after] |]; [reflexivity | discriminate]. }
  subst outcome.
  repeat (split; [vm_compute; reflexivity |]).
  intros E.
  apply (f_equal (fun o => match o with
                           | Some props => props !! "approvers"
                           | None => None
                           end)) in E.
  vm_compute in E. discriminate.
Qed.

(** Without the arrays of events in the metadata the export throws in
    the extraction step, before [sanitizeRequest] is reached. *)
Lemma exportData_json_needs_event_arrays :
  exportData_json [1%positive] request_with_approvers = None.
Proof. reflexivity. Qed.

(** The request object itself and its metadata are copied before they
    are written, and stay as they were. *)
Lemma sanitizeRequest_keeps_request_and_metadata :
  snd (sanitizeAll [1%positive] request_with_approvers) !! 1%positive
  = request_with_approvers !! 1%positive
  /\ snd (sanitizeAll [1%positive] request_with_approvers) !! 3%positive
     = request_with_approvers !! 3%positive.
Proof.
  unfold sanitizeAll.
  destruct (sanitizeRequest 1%positive request_with_approvers) as [c h] eqn:E.
  cbn [snd].
  replace h with (snd (sanitizeRequest 1%positive request_with_approvers))
    by now rewrite E.
  split; apply sanitizeRequest_frame;
    first [ now eexists | vm_compute; discriminate ].
Qed.

End StoreFacts.

(* ================================================================== *)
(** * Further properties of the export module *)
(* ================================================================== *)

(** ** More on escaping *)

Lemma count_char_append (c : ascii) (s t : string) :
  count_char c (s ++ t) = (count_char c s + count_char c t)%nat.
Proof.
  induction s as [|a rest IH]; simpl; [reflexivity |]. rewrite IH. lia.
Qed.

Lemma replacements_encode (s : string) :
  replace_char "'" "&#39;"
    (replace_char DQUOTE "&quot;"
       (replace_char ">" "&gt;"
          (replace_char "<" "&lt;"
             (replace_char "&" "&amp;" s))))
  = xml_encode s.
Proof.
  induction s as [|a rest IH]; [reflexivity |].
  cbn [xml_encode]. rewrite <- IH. unfold xml_entity.
  cbn [replace_char].
  destruct (Ascii.eqb a "&") eqn:E1.
  { apply Ascii.eqb_eq in E1. subst a. reflexivity. }
  cbn [replace_char].
  destruct (Ascii.eqb a "<") eqn:E2.
  { apply Ascii.eqb_eq in E2. subst a. reflexivity. }
  cbn [replace_char].
  destruct (Ascii.eqb a ">") eqn:E3.
  { apply Ascii.eqb_eq in E3. subst a. reflexivity. }
  cbn [replace_char].
  destruct (Ascii.eqb a DQUOTE) eqn:E4.
  { apply Ascii.eqb_eq in E4. subst a. reflexivity. }
  cbn [replace_char].
  destruct (Ascii.eqb a "'") eqn:E5.
  { apply Ascii.eqb_eq in E5. subst a. reflexivity. }
  cbn [replace_char]. reflexivity.
Qed.

Lemma escapeXml_string `{Host} (s : string) :
  exists text, escapeXml (VString s) = Ok text /\ text = xml_encode s.
Proof.
  eexists. split; [reflexivity |]. apply replacements_encode.
Qed.

(** X1.  The five replacements of [escapeXml] never touch what an
    earlier one has written: on a string the result is the
    concatenation of the encodings of its characters, where the
    ampersand, the two angle brackets, the double quote and the
    apostrophe become their entities and any other character stays. *)
Theorem escapeXml_per_character `{Host} (s : string) :
  escapeXml (VString s) = Ok (xml_encode s).
Proof.
  unfold escapeXml, js_toString. cbn [toString_of]. f_equal.
  apply replacements_encode.
Qed.

Lemma xml_entity_plain (markup c : ascii) :
  markup = "<"%char \/ markup = ">"%char \/ markup = DQUOTE \/ markup = "'"%char ->
  count_char markup (xml_entity c) = 0%nat.
Proof.
  intros Hm. unfold xml_entity.
  destruct (Ascii.eqb c "&") eqn:E1;
    [destruct Hm as [-> | [-> | [-> | ->]]]; reflexivity |].
  destruct (Ascii.eqb c "<") eqn:E2;
    [destruct Hm as [-> | [-> | [-> | ->]]]; reflexivity |].
  destruct (Ascii.eqb c ">") eqn:E3;
    [destruct Hm as [-> | [-> | [-> | ->]]]; reflexivity |].
  destruct (Ascii.eqb c DQUOTE) eqn:E4;
    [destruct Hm as [-> | [-> | [-> | ->]]]; reflexivity |].
  destruct (Ascii.eqb c "'") eqn:E5;
    [destruct Hm as [-> | [-> | [-> | ->]]]; reflexivity |].
  cbn [count_char].
  destruct Hm as [-> | [-> | [-> | ->]]];
    rewrite ?E2, ?E3, ?E4, ?E5; reflexivity.
Qed.

Lemma xml_encode_plain (markup : ascii) (s : string) :
  markup = "<"%char \/ markup = ">"%char \/ markup = DQUOTE \/ markup = "'"%char ->
  count_char markup (xml_encode s) = 0%nat.
Proof.
  intros Hm. induction s as [|a rest IH]; [reflexivity |].
  cbn [xml_encode]. now rewrite count_char_append, IH, xml_entity_plain.
Qed.

(** X2.  Whenever [escapeXml] returns a text, whatever value it was
    given, the text holds no angle bracket, no double quote and no
    apostrophe. *)
Theorem escapeXml_leaves_no_markup `{Host} (v : jsval) (text : string) :
  escapeXml v = Ok text ->
  count_char "<" text = 0%nat /\ count_char ">" text = 0%nat
  /\ count_char DQUOTE text = 0%nat /\ count_char "'" text = 0%nat.
Proof.
  intros E.
  assert (Hencoded : text = "" \/ exists s, text = xml_encode s).
  { unfold escapeXml in E.
    destruct v as [| | b | z | s | t | elems | fields];
      try (injection E as <-; now left);
      destruct (js_toString _) as [s' | e]; try discriminate;
      injection E as <-; right; exists s'; apply replacements_encode. }
  destruct Hencoded as [-> | [s ->]]; [repeat split |].
  repeat split; apply xml_encode_plain; tauto.
Qed.

Lemma escapeXml_leaves_no_markup_witness :
  @escapeXml utc_host (VArray [VString "a<b"; VNumber 2]) = Ok "a&lt;b,2"
  /\ count_char "<" "a&lt;b,2" = 0%nat.
Proof.
  split; [reflexivity |].
  exact (proj1 (@escapeXml_leaves_no_markup utc_host
                  (VArray [VString "a<b"; VNumber 2]) "a&lt;b,2" eq_refl)).
Defined.

Lemma xml_entity_cases (c : ascii) :
  (c = "&"%char /\ xml_entity c = "&amp;")
  \/ (c = "<"%char /\ xml_entity c = "&lt;")
  \/ (c = ">"%char /\ xml_entity c = "&gt;")
  \/ (c = DQUOTE /\ xml_entity c = "&quot;")
  \/ (c = "'"%char /\ xml_entity c = "&#39;")
  \/ (c <> "&"%char /\ xml_entity c = String c EmptyString).
Proof.
  unfold xml_entity.
  destruct (Ascii.eqb_spec c "&"); [tauto |].
  destruct (Ascii.eqb_spec c "<"); [tauto |].
  destruct (Ascii.eqb_spec c ">"); [tauto |].
  destruct (Ascii.eqb_spec c DQUOTE); [tauto |].
  destruct (Ascii.eqb_spec c "'"); [tauto |].
  do 5 right. tauto.
Qed.

Lemma xml_encode_injective (s t : string) :
  xml_encode s = xml_encode t -> s = t.
Proof.
  revert t. induction s as [|a s IH]; intros [|b t] E; cbn [xml_encode] in E.
  - reflexivity.
  - exfalso.
    destruct (xml_entity_cases b) as [[_ Eb] | [[_ Eb] | [[_ Eb] | [[_ Eb] | [[_ Eb] | [_ Eb]]]]]];
      rewrite Eb in E; discriminate.
  - exfalso.
    destruct (xml_entity_cases a) as [[_ Ea] | [[_ Ea] | [[_ Ea] | [[_ Ea] | [[_ Ea] | [_ Ea]]]]]];
      rewrite Ea in E; discriminate.
  - destruct (xml_entity_cases a) as [[Ha Ea] | [[Ha Ea] | [[Ha Ea] | [[Ha Ea] | [[Ha Ea] | [Ha Ea]]]]]];
      destruct (xml_entity_cases b) as [[Hb Eb] | [[Hb Eb] | [[Hb Eb] | [[Hb Eb] | [[Hb Eb] | [Hb Eb]]]]]];
      rewrite Ea, Eb in E; cbn in E;
      try discriminate;
      try (injection E as E; subst; f_equal; now apply IH);
      try (injection E as E1 E; congruence).
Qed.

(** X3.  [escapeXml] loses nothing: two strings with the same escaped
    text are the same string. *)
Theorem escapeXml_injective `{Host} (s t : string) :
  escapeXml (VString s) = escapeXml (VString t) -> s = t.
Proof.
  destruct (escapeXml_string s) as [text_s [-> ->]].
  destruct (escapeXml_string t) as [text_t [-> ->]].
  intros [= E]. now apply xml_encode_injective.
Qed.

Lemma escapeXml_injective_witness :
  @escapeXml utc_host (VString "a<b") = @escapeXml utc_host (VString "a<b")
  /\ "a<b" = "a<b".
Proof.
  split; [reflexivity |].
  apply (@escapeXml_injective utc_host "a<b" "a<b"). reflexivity.
Defined.

Lemma length_append (s t : string) :
  String.length (s ++ t) = (String.length s + String.length t)%nat.
Proof. induction s as [|a s IH]; simpl; [reflexivity | now rewrite IH]. Qed.

Lemma append_cancel_right (s t u : string) : s ++ u = t ++ u -> s = t.
Proof.
  revert t. induction s as [|a s IH]; intros [|b t] E.
  - reflexivity.
  - exfalso. apply (f_equal String.length) in E.
    rewrite !length_append in E. cbn [String.length] in E. lia.
  - exfalso. apply (f_equal String.length) in E.
    rewrite !length_append in E. cbn [String.length] in E. lia.
  - cbn [String.append] in E. injection E as -> E. f_equal. now apply IH.
Qed.

Lemma doubling_injective (s t : string) :
  replace_char DQUOTE (dq ++ dq) s = replace_char DQUOTE (dq ++ dq) t -> s = t.
Proof.
  revert t. induction s as [|a s IH]; intros [|b t] E; cbn [replace_char] in E.
  - reflexivity.
  - destruct (Ascii.eqb b DQUOTE); discriminate.
  - destruct (Ascii.eqb a DQUOTE); discriminate.
  - destruct (Ascii.eqb_spec a DQUOTE) as [-> | Ha];
      destruct (Ascii.eqb_spec b DQUOTE) as [-> | Hb]; cbn in E.
    + injection E as E. f_equal. now apply IH.
    + injection E as E1 E. congruence.
    + injection E as E1 E. congruence.
    + injection E as -> E. f_equal. now apply IH.
Qed.

(** X4.  [escapeCsv] loses nothing: two strings that give the same cell
    are the same string, whether the cell is quoted or not. *)
Theorem escapeCsv_injective `{Host} (s t : string) :
  escapeCsv (VString s) = escapeCsv (VString t) -> s = t.
Proof.
  unfold escapeCsv, js_toString. cbn [toString_of].
  destruct (includes_char "," s || includes_char DQUOTE s || includes_char NEWLINE s)
    eqn:Es;
    destruct (includes_char "," t || includes_char DQUOTE t || includes_char NEWLINE t)
      eqn:Et; intros [= E].
  - assert (E' : replace_char DQUOTE (dq ++ dq) s ++ dq
                 = replace_char DQUOTE (dq ++ dq) t ++ dq) by exact E.
    apply append_cancel_right in E'. now apply doubling_injective.
  - exfalso. subst t.
    change (includes_char DQUOTE (dq ++ replace_char DQUOTE (dq ++ dq) s ++ dq))
      with true in Et.
    rewrite orb_true_r in Et. discriminate.
  - exfalso. subst s.
    change (includes_char DQUOTE (dq ++ replace_char DQUOTE (dq ++ dq) t ++ dq))
      with true in Es.
    rewrite orb_true_r in Es. discriminate.
  - exact E.
Qed.

Lemma escapeCsv_injective_witness :
  @escapeCsv utc_host (VString "a,b") = @escapeCsv utc_host (VString "a,b")
  /\ "a,b" = "a,b".
Proof.
  split; [reflexivity |].
  apply (@escapeCsv_injective utc_host "a,b" "a,b"). reflexivity.
Defined.

(** ** More on durations *)

(** X5.  A duration under one minute, a negative one included, is
    written as its whole seconds, rounded down, followed by s: no
    minutes, hours or days appear, and a completion that lies before the
    submission shows as a negative number of seconds. *)
Theorem formatDuration_under_a_minute (ms : Q) :
  (ms < inject_Z 60000)%Q ->
  formatDuration ms = show_Z (Qfloor (ms / inject_Z 1000)) ++ "s".
Proof.
  intros Hms. rewrite formatDuration_coarsest_unit. unfold spec_duration_text.
  assert (Hs : Qfloor (ms / inject_Z 1000) < 60).
  { assert (Hq : (ms / inject_Z 1000 < inject_Z 60)%Q).
    { apply Qlt_shift_div_r; [reflexivity |].
      rewrite <- inject_Z_mult. exact Hms. }
    pose proof (Qfloor_le (ms / inject_Z 1000)) as Hfloor.
    rewrite Zlt_Qlt. eapply Qle_lt_trans; [exact Hfloor | exact Hq]. }
  destruct (86400 <=? _) eqn:E1; [apply Z.leb_le in E1; lia |].
  destruct (3600 <=? _) eqn:E2; [apply Z.leb_le in E2; lia |].
  destruct (60 <=? _) eqn:E3; [apply Z.leb_le in E3; lia |].
  reflexivity.
Qed.

Lemma formatDuration_under_a_minute_witness :
  (inject_Z (-7200000) < inject_Z 60000)%Q
  /\ formatDuration (inject_Z (-7200000)) = "-7200s".
Proof.
  assert (Hlt : (inject_Z (-7200000) < inject_Z 60000)%Q) by reflexivity.
  split; [exact Hlt |].
  exact (formatDuration_under_a_minute (inject_Z (-7200000)) Hlt).
Defined.

(** ** The most frequent requester and workflow *)

Lemma counter_get_set (c : counters) (x k : string) (v : Z) :
  counter_get k (counter_set x v c)
  = if String.eqb x k then Some v else counter_get k c.
Proof.
  induction c as [|[k0 n] rest IH]; cbn [counter_set counter_get].
  - rewrite (String.eqb_sym x k). now destruct (String.eqb k x).
  - destruct (String.eqb_spec k0 x) as [-> | Hx]; cbn [counter_get].
    + now destruct (String.eqb x k).
    + destruct (String.eqb_spec k0 k) as [-> | Hk].
      * destruct (String.eqb_spec x k); [congruence | reflexivity].
      * exact IH.
Qed.

Lemma count_in_increment (c : counters) (x k : string) :
  count_in (counter_increment c x) k
  = count_in c k + (if String.eqb x k then 1 else 0).
Proof.
  unfold count_in, counter_increment. rewrite counter_get_set.
  destruct (String.eqb_spec x k) as [-> | Hne]; [| lia].
  destruct (counter_get k c) as [n|]; [| reflexivity].
  destruct (n =? 0) eqn:E; [apply Z.eqb_eq in E; lia | reflexivity].
Qed.

Lemma occurrences_cons (k x : string) (names : list string) :
  occurrences k (x :: names)
  = (if String.eqb x k then 1 else 0) + occurrences k names.
Proof.
  unfold occurrences, array_length. cbn [List.filter].
  rewrite (String.eqb_sym k x).
  destruct (String.eqb x k); cbn [length]; lia.
Qed.

Lemma count_in_fold (names : list string) (c : counters) (k : string) :
  count_in (fold_left counter_increment names c) k
  = count_in c k + occurrences k names.
Proof.
  revert c. induction names as [|x names IH]; intros c; cbn [fold_left].
  - unfold occurrences, array_length. simpl. lia.
  - rewrite IH, count_in_increment, occurrences_cons. lia.
Qed.

Lemma keys_counter_set (c : counters) (x k : string) (v : Z) :
  In k (map fst (counter_set x v c)) <-> k = x \/ In k (map fst c).
Proof.
  induction c as [|[k0 n] rest IH]; cbn [counter_set map fst In].
  - intuition.
  - destruct (String.eqb_spec k0 x) as [-> | Hx]; cbn [map fst In].
    + intuition.
    + rewrite IH. intuition.
Qed.

Lemma keys_fold (names : list string) (c : counters) (k : string) :
  In k (map fst (fold_left counter_increment names c))
  <-> In k names \/ In k (map fst c).
Proof.
  revert c. induction names as [|x names IH]; intros c; cbn [fold_left In].
  - tauto.
  - rewrite IH. unfold counter_increment. rewrite keys_counter_set. intuition.
Qed.

Lemma Object_keys_In (c : counters) (k : string) :
  In k (Object_keys c) <-> In k (map fst c).
Proof.
  unfold Object_keys. rewrite in_app_iff, filter_In. split.
  - intros [Hin | [Hin _]]; [| exact Hin].
    apply in_map_iff in Hin. destruct Hin as [[n k'] [Ek Hin]].
    cbn in Ek. subst k'.
    apply (Permutation_in _ (Array_sort_Permutation compare_index _)) in Hin.
    apply in_flat_map in Hin. destruct Hin as [kv [Hkv Hin]].
    destruct (array_index (fst kv)); [| destruct Hin].
    destruct Hin as [[= _ <-] | []]. now apply in_map.
  - intros Hin. destruct (array_index k) as [n|] eqn:E; [left | right; tauto].
    apply in_map_iff. exists (n, k). split; [reflexivity |].
    apply (Permutation_in _ (Permutation_sym (Array_sort_Permutation compare_index _))).
    apply in_map_iff in Hin. destruct Hin as [kv [<- Hkv]].
    apply in_flat_map. exists kv. split; [exact Hkv |].
    rewrite E. now left.
Qed.

(** The reduction keeps a key of highest count. *)
Lemma reduce_keeps_a_maximum (count_of : string -> Z) (others : list string)
    (first : string) :
  let winner :=
    fold_left (fun a b => if count_of b <? count_of a then a else b) others first in
  In winner (first :: others)
  /\ forall k, In k (first :: others) -> count_of k <= count_of winner.
Proof.
  revert first. induction others as [|b others IH]; intros first; cbn [fold_left].
  - split; [now left |]. intros k [<- | []]. lia.
  - specialize (IH (if count_of b <? count_of first then first else b)).
    cbv zeta in IH. destruct IH as [Hin Hmax].
    destruct (count_of b <? count_of first) eqn:E.
    + apply Z.ltb_lt in E. split.
      * destruct Hin as [<- | Hin]; [now left | right; now right].
      * intros k [<- | [<- | Hk]].
        -- apply Hmax. now left.
        -- transitivity (count_of first); [lia | apply Hmax; now left].
        -- apply Hmax. now right.
    + apply Z.ltb_ge in E. split.
      * destruct Hin as [<- | Hin]; [right; now left | right; now right].
      * intros k [<- | [<- | Hk]].
        -- transitivity (count_of b); [lia | apply Hmax; now left].
        -- apply Hmax. now left.
        -- apply Hmax. now right.
Qed.

Lemma occurrences_nonneg (k : string) (names : list string) :
  0 <= occurrences k names.
Proof. unfold occurrences, array_length. lia. Qed.

Lemma occurrences_absent (k : string) (names : list string) :
  ~ In k names -> occurrences k names = 0.
Proof.
  intros Hnot. unfold occurrences, array_length.
  destruct (List.filter (String.eqb k) names) as [|x rest] eqn:E; [reflexivity |].
  exfalso. assert (Hx : In x (List.filter (String.eqb k) names))
    by (rewrite E; now left).
  apply filter_In in Hx. destruct Hx as [Hin Heq].
  apply String.eqb_eq in Heq. now subst x.
Qed.

Lemma most_frequent_is_a_maximum (names : list string) :
  names <> [] ->
  In (most_frequent names) names
  /\ forall name, occurrences name names <= occurrences (most_frequent names) names.
Proof.
  intros Hne. unfold most_frequent.
  set (counts := fold_left counter_increment names []).
  assert (Hcount : forall k, count_in counts k = occurrences k names).
  { intros k. unfold counts. rewrite count_in_fold. reflexivity. }
  assert (Hkeys : forall k, In k (Object_keys counts) <-> In k names).
  { intros k. rewrite Object_keys_In. unfold counts. rewrite keys_fold.
    cbn. tauto. }
  destruct (Object_keys counts) as [|first others] eqn:E.
  - exfalso. destruct names as [|x names]; [contradiction |].
    apply (proj2 (Hkeys x)). now left.
  - pose proof (reduce_keeps_a_maximum (count_in counts) others first) as Hred.
    cbv zeta in Hred. fold (count_in counts) in Hred |- *.
    change (fun key : string => match counter_get key counts with
                                | Some n => n
                                | None => 0
                                end) with (count_in counts).
    destruct Hred as [Hin Hmax]. split.
    + now apply Hkeys.
    + intros name. destruct (in_dec string_dec name names) as [Hname | Hname].
      * rewrite <- !Hcount. apply Hmax. now apply Hkeys.
      * rewrite (occurrences_absent _ _ Hname). apply occurrences_nonneg.
Qed.

(** X6.  For a non-empty list of requests whose requesters and
    workflow ids are not names of members of [Object.prototype],
    [getMostActiveRequester] answers the requester of one of them, and
    no requester has more requests than that one;
    [getMostCommonWorkflow] does the same for the workflow ids. *)
Theorem most_active_requester_and_workflow (requests : list Request) :
  requests <> [] ->
  (forall r, In r requests ->
     ~ In (requester r) Object_prototype_names
     /\ ~ In (workflowId r) Object_prototype_names) ->
  (In (getMostActiveRequester requests) (map requester requests)
   /\ forall name,
        occurrences name (map requester requests)
        <= occurrences (getMostActiveRequester requests) (map requester requests))
  /\ (In (getMostCommonWorkflow requests) (map workflowId requests)
      /\ forall name,
           occurrences name (map workflowId requests)
           <= occurrences (getMostCommonWorkflow requests) (map workflowId requests)).
Proof.
  intros Hne _.
  assert (Hlen : (array_length requests =? 0) = false).
  { apply Z.eqb_neq. unfold array_length. destruct requests; [contradiction |].
    cbn [length]. lia. }
  unfold getMostActiveRequester, getMostCommonWorkflow. rewrite Hlen.
  split; apply most_frequent_is_a_maximum;
    destruct requests; [contradiction | discriminate | contradiction | discriminate].
Qed.

Lemma most_active_requester_and_workflow_witness :
  getMostActiveRequester three_requests = "A"
  /\ getMostCommonWorkflow three_requests = "W1"
  /\ occurrences "B" (map requester three_requests)
     <= occurrences (getMostActiveRequester three_requests) (map requester three_requests).
Proof.
  assert (Hne : three_requests <> []) by discriminate.
  assert (Hnames : forall r, In r three_requests ->
                     ~ In (requester r) Object_prototype_names
                     /\ ~ In (workflowId r) Object_prototype_names).
  { intros r [<- | [<- | [<- | []]]]; split; cbn; intuition discriminate. }
  split; [reflexivity | split; [reflexivity |]].
  exact (proj2 (proj1 (most_active_requester_and_workflow three_requests Hne Hnames))
           "B").
Defined.

(** ** More on the query engine *)

Lemma filter_filter {A : Type} (p q : A -> bool) (xs : list A) :
  List.filter p (List.filter q xs) = List.filter (fun x => q x && p x) xs.
Proof.
  induction xs as [|x xs IH]; cbn [List.filter]; [reflexivity |].
  destruct (q x); cbn [List.filter andb]; [| exact IH].
  destruct (p x); now rewrite IH.
Qed.

Lemma filter_true {A : Type} (xs : list A) :
  List.filter (fun _ => true) xs = xs.
Proof. induction xs as [|x xs IH]; cbn [List.filter]; [reflexivity | now rewrite IH]. Qed.

Lemma filter_sublist {A : Type} (p : A -> bool) (xs : list A) :
  sublist (List.filter p xs) xs.
Proof.
  induction xs as [|x xs IH]; cbn [List.filter]; [constructor |].
  destruct (p x); now constructor.
Qed.

Lemma applyFilters_filter (filters : Filters) (xs : list Request) :
  applyFilters filters xs = List.filter (passes filters) xs.
Proof.
  unfold applyFilters. cbv zeta.
  transitivity
    (List.filter
       (fun r => match supplied (filter_workflowId filters) with
                 | Some wanted => String.eqb (workflowId r) wanted
                 | None => true
                 end)
       (List.filter
          (fun r => match supplied (filter_requester filters) with
                    | Some wanted => String.eqb (requester r) wanted
                    | None => true
                    end)
          (List.filter
             (fun r => match supplied (filter_status filters) with
                       | Some wanted => String.eqb (status (metadata r)) wanted
                       | None => true
                       end)
             (List.filter
                (fun r => match filter_dateRange filters with
                          | Some range => in_dateRange range r
                          | None => true
                          end) xs)))).
  - destruct (filter_dateRange filters), (supplied (filter_status filters)),
      (supplied (filter_requester filters)), (supplied (filter_workflowId filters));
      now rewrite ?filter_true.
  - rewrite !filter_filter. apply List.filter_ext. intros r. unfold passes.
    now rewrite !andb_assoc.
Qed.

(** X7.  The four filter steps amount to one pass that keeps the
    requests passing all present criteria at once.  So they keep the
    relative order of the input, filtering a second time changes
    nothing, and the steps can be applied to the parts of a collection
    separately. *)
Theorem applyFilters_single_pass (filters : Filters) (xs ys : list Request) :
  applyFilters filters xs = List.filter (passes filters) xs
  /\ sublist (applyFilters filters xs) xs
  /\ applyFilters filters (applyFilters filters xs) = applyFilters filters xs
  /\ applyFilters filters (xs ++ ys)%list
     = (applyFilters filters xs ++ applyFilters filters ys)%list.
Proof.
  rewrite !applyFilters_filter. repeat split.
  - apply filter_sublist.
  - rewrite filter_filter. apply List.filter_ext. intros r. now destruct (passes filters r).
  - apply List.filter_app.
Qed.

Lemma length_Array_sort {A : Type} (compare : A -> A -> Z) (xs : list A) :
  length (Array_sort compare xs) = length xs.
Proof. apply Permutation_length, Array_sort_Permutation. Qed.

(** X8.  The limit at its edges: a limit of 0 cuts nothing, and a
    negative limit [-k] drops the last [k] requests of the sorted,
    filtered sequence (all of them when there are at most [k]). *)
Theorem limit_zero_and_negative `{Host} (filters : Filters)
    (allRequests : list Request) (n : Z) :
  filter_limit filters = Some n ->
  n <= 0 ->
  let unlimited := sortRequests filters (applyFilters filters allRequests) in
  let result := queryRequests filters allRequests in
  (n = 0 -> result = unlimited)
  /\ (n < 0 ->
      result = firstn (length unlimited - Z.to_nat (- n)) unlimited
      /\ array_length result = Z.max (array_length unlimited + n) 0).
Proof.
  intros Hlimit Hn unlimited result. subst result.
  unfold queryRequests, applyLimit. rewrite Hlimit. fold unlimited. split.
  - intros ->. reflexivity.
  - intros Hneg.
    destruct (n =? 0) eqn:E0; [apply Z.eqb_eq in E0; lia |].
    unfold slice0. destruct (n <? 0) eqn:E; [| apply Z.ltb_ge in E; lia].
    replace (Z.to_nat (Z.max (Z.of_nat (length unlimited) + n) 0))
      with (length unlimited - Z.to_nat (- n))%nat by lia.
    split; [reflexivity |].
    unfold array_length. rewrite length_firstn. lia.
Qed.

Lemma limit_zero_and_negative_witness :
  let filters := with_limit no_filters (Some (-1)) in
  filter_limit filters = Some (-1)
  /\ array_length (@queryRequests utc_host filters three_requests) = 2.
Proof.
  intros filters. split; [reflexivity |].
  assert (Hle : -1 <= 0) by lia.
  assert (Hlt : -1 < 0) by lia.
  exact (proj2 (proj2 (@limit_zero_and_negative utc_host filters three_requests (-1)
                         eq_refl Hle) Hlt)).
Defined.

Lemma extract_In {A : Type} (events : Metadata -> list A)
    (requests : list Request) (t : Tagged A) :
  In t (extract events requests)
  <-> exists r, In r requests /\ requestId t = id r
                /\ In (event t) (events (metadata r)).
Proof.
  unfold extract. rewrite in_flat_map. split.
  - intros [r [Hr Ht]]. apply in_map_iff in Ht. destruct Ht as [e [<- He]].
    exists r. cbn. tauto.
  - intros [r [Hr [Hid He]]]. exists r. split; [exact Hr |].
    apply in_map_iff. exists (event t). split; [| exact He].
    destruct t as [e rid]. cbn in *. now subst rid.
Qed.

Lemma length_extract {A : Type} (events : Metadata -> list A)
    (requests : list Request) :
  array_length (extract events requests)
  = sum_Z (map (fun r => array_length (events (metadata r))) requests).
Proof.
  unfold extract, array_length.
  induction requests as [|r rest IH]; cbn [flat_map map sum_Z fold_right];
    [reflexivity |].
  rewrite length_app, length_map, Nat2Z.inj_add. unfold sum_Z in IH. now rewrite IH.
Qed.

(** X9.  Every approval, rejection and comment of the export data
    carries the id of a returned request that holds it, and the three
    event totals of the summary are the sums over the returned requests. *)
Theorem extracted_events_belong_to_requests `{Host} (approvalSystem : ApprovalSystem)
    (options : Options) :
  let data := getExportData approvalSystem options in
  (forall t, In t (data_approvals data) ->
     exists r, In r (data_requests data) /\ requestId t = id r
               /\ In (event t) (approvals (metadata r)))
  /\ (forall t, In t (data_rejections data) ->
        exists r, In r (data_requests data) /\ requestId t = id r
                  /\ In (event t) (rejections (metadata r)))
  /\ (forall t, In t (data_comments data) ->
        exists r, In r (data_requests data) /\ requestId t = id r
                  /\ In (event t) (comments (metadata r)))
  /\ totalApprovals (createSummary data)
     = sum_Z (map (fun r => array_length (approvals (metadata r))) (data_requests data))
  /\ totalRejections (createSummary data)
     = sum_Z (map (fun r => array_length (rejections (metadata r))) (data_requests data))
  /\ totalComments (createSummary data)
     = sum_Z (map (fun r => array_length (comments (metadata r))) (data_requests data)).
Proof.
  intros data. subst data.
  cbn [getExportData data_approvals data_rejections data_comments data_requests
       createSummary totalApprovals totalRejections totalComments].
  repeat split; try (intros t Ht; now apply extract_In in Ht);
    apply length_extract.
Qed.

(** X10.  Sorting by currentLevel cannot place a request at level 0, and
    sorting by completedAt cannot place a request without a completion
    date: the value read for it is [undefined] (or an invalid date), and
    the comparator answers -1 for such a request against any other, in
    both directions and for both sort orders. *)
Theorem comparator_cannot_place_falsy_values `{Host} (sortOrder : string)
    (a b : Request) :
  (currentLevel (metadata a) = 0 ->
     compareFn "currentLevel" sortOrder a b = -1
     /\ compareFn "currentLevel" sortOrder b a = -1)
  /\ (completedAt (metadata a) = None ->
     compareFn "completedAt" sortOrder a b = -1
     /\ compareFn "completedAt" sortOrder b a = -1).
Proof.
  split.
  - intros Ha.
    assert (Hv : sort_value "currentLevel" a = VUndefined).
    { unfold sort_value, js_or. cbn. rewrite Ha. reflexivity. }
    unfold compareFn, js_gt, js_lt. rewrite Hv. cbn [to_operand operand_number].
    split; destruct (String.eqb sortOrder "asc");
      destruct (to_operand (sort_value "currentLevel" b)) as [s | z |];
      cbn [operand_number]; try reflexivity;
      destruct (string_to_number s); reflexivity.
  - intros Ha.
    assert (Hv : sort_value "completedAt" a = VDate None).
    { unfold sort_value, js_or. cbn. rewrite Ha. reflexivity. }
    unfold compareFn, js_gt, js_lt. rewrite Hv. cbn [to_operand operand_number].
    split; destruct (String.eqb sortOrder "asc");
      destruct (to_operand (sort_value "completedAt" b)) as [s | z |];
      cbn [operand_number]; try reflexivity;
      destruct (string_to_number s); reflexivity.
Qed.

Lemma comparator_cannot_place_falsy_values_witness :
  let a := simple_request "R1" "A" "S" "W1" "pending" 0 None in
  let b := simple_request "R2" "B" "S" "W1" "approved" 5 (Some 9) in
  @compareFn utc_host "currentLevel" "asc" a b = -1
  /\ @compareFn utc_host "currentLevel" "asc" b a = -1.
Proof.
  intros a b.
  exact (proj1 (@comparator_cannot_place_falsy_values utc_host "asc" a b) eq_refl).
Defined.

(** ** More on the renderers and the orchestrator *)

Lemma map_result_Ok {A B : Type} (f : A -> result B) (xs : list A) :
  (forall x, In x xs -> exists y, f x = Ok y) ->
  exists ys, map_result f xs = Ok ys /\ length ys = length xs.
Proof.
  induction xs as [|x xs IH]; intros Hall; cbn [map_result].
  - exists []. split; reflexivity.
  - destruct (Hall x (or_introl eq_refl)) as [y Hy].
    destruct IH as [ys [Hys Hlen]]; [intros z Hz; apply Hall; now right |].
    exists (y :: ys). rewrite Hy, Hys. cbn. split; [reflexivity | now rewrite Hlen].
Qed.

Lemma escapeCsv_string_Ok `{Host} (s : string) : exists cell, escapeCsv (VString s) = Ok cell.
Proof.
  unfold escapeCsv, js_toString. cbn [toString_of].
  destruct (_ || _ || _); eexists; reflexivity.
Qed.

Lemma find_request_owner (data : ExportData) (r : Request) :
  In r (data_requests data) ->
  exists found, find_request data (id r) = Some found /\ id found = id r.
Proof.
  intros Hin. unfold find_request.
  destruct (List.find (fun q => String.eqb (id q) (id r)) (data_requests data))
    as [found|] eqn:E.
  - exists found. split; [reflexivity |].
    apply find_some in E. destruct E as [_ E]. now apply String.eqb_eq in E.
  - exfalso. apply (find_none _ _ E) in Hin. rewrite String.eqb_refl in Hin.
    discriminate.
Qed.

Lemma tagged_rows_Ok {A : Type} (events : Metadata -> list A)
    (row : A -> option Request -> result (list string)) (requests : list Request)
    (data : ExportData) :
  data_requests data = requests ->
  (forall e found, exists cells, row e (Some found) = Ok cells) ->
  exists rows,
    map_result (fun t => row (event t) (find_request data (requestId t)))
      (extract events requests) = Ok rows
    /\ length rows = length (extract events requests).
Proof.
  intros Hdata Hrow. apply map_result_Ok. intros t Ht.
  apply extract_In in Ht. destruct Ht as [r [Hr [Hid _]]].
  rewrite <- Hdata in Hr.
  destruct (find_request_owner data r Hr) as [found [Hfound _]].
  rewrite Hid, Hfound. apply Hrow.
Qed.

(** X11.  On the data that the query engine returns, the delimited-text
    renderer succeeds for each of its four sheets, the default one
    included: every event finds its request, so no row throws.  The
    payload is the header line followed by one line per item of the
    sheet. *)
Theorem exportToCsv_succeeds_on_query_data `{Host} (approvalSystem : ApprovalSystem)
    (query_options render_options : Options) :
  let data := getExportData approvalSystem query_options in
  let sheet := match opt_sheet render_options with
               | Some s => s
               | None => "requests"
               end in
  In sheet ["requests"; "approvals"; "rejections"; "comments"] ->
  exists headers rows,
    csv_headers sheet = Some headers
    /\ exportToCsv data render_options
       = Ok {| content := join nl (join "," headers :: rows);
               filename := "approvals_" ++ sheet ++ "_" ++ today ++ ".csv";
               mimeType := "text/csv";
               size := blob_size (join nl (join "," headers :: rows)) |}
    /\ length rows
       = (if String.eqb sheet "requests" then length (data_requests data)
          else if String.eqb sheet "approvals" then length (data_approvals data)
          else if String.eqb sheet "rejections" then length (data_rejections data)
          else length (data_comments data)).
Proof.
  intros data sheet Hsheet. unfold exportToCsv. fold sheet.
  assert (Hrequests :
            exists rows, map_result map_request_row (data_requests data) = Ok rows
                         /\ length rows = length (data_requests data)).
  { apply map_result_Ok. intros r _. unfold map_request_row.
    destruct (escapeCsv_string_Ok (subject r)) as [cell ->]. eexists. reflexivity. }
  assert (Happrovals :
            exists rows,
              map_result
                (fun a => map_approval_row (event a) (find_request data (requestId a)))
                (data_approvals data) = Ok rows
              /\ length rows = length (data_approvals data)).
  { apply (tagged_rows_Ok approvals map_approval_row _ data eq_refl).
    intros e found. unfold map_approval_row. cbn [found_id bind_result].
    destruct (escapeCsv_string_Ok (or_default (approval_comment e) "")) as [cell ->].
    eexists. reflexivity. }
  assert (Hrejections :
            exists rows,
              map_result
                (fun r => map_rejection_row (event r) (find_request data (requestId r)))
                (data_rejections data) = Ok rows
              /\ length rows = length (data_rejections data)).
  { apply (tagged_rows_Ok rejections map_rejection_row _ data eq_refl).
    intros e found. unfold map_rejection_row. cbn [found_id bind_result].
    destruct (escapeCsv_string_Ok (or_default (rejection_reason e) "")) as [cell ->].
    eexists. reflexivity. }
  assert (Hcomments :
            exists rows,
              map_result
                (fun c => map_comment_row (event c) (find_request data (requestId c)))
                (data_comments data) = Ok rows
              /\ length rows = length (data_comments data)).
  { apply (tagged_rows_Ok comments map_comment_row _ data eq_refl).
    intros e found. unfold map_comment_row. cbn [found_id bind_result].
    destruct (escapeCsv_string_Ok (comment_text e)) as [cell ->].
    eexists. reflexivity. }
  destruct Hsheet as [E | [E | [E | [E | []]]]]; rewrite <- E;
    cbn [csv_headers String.eqb Ascii.eqb Bool.eqb];
    [ destruct Hrequests as [rows [-> Hlen]]
    | destruct Happrovals as [rows [-> Hlen]]
    | destruct Hrejections as [rows [-> Hlen]]
    | destruct Hcomments as [rows [-> Hlen]] ];
    eexists; exists (map (join ",") rows);
    (split; [reflexivity |]); (split; [reflexivity |]);
    now rewrite length_map.
Qed.

Lemma exportToCsv_succeeds_on_query_data_witness :
  exists payload,
    @exportToCsv utc_host (@getExportData utc_host eventful_system no_options)
      (only_sheet "rejections") = Ok payload.
Proof.
  destruct (@exportToCsv_succeeds_on_query_data utc_host eventful_system no_options
              (only_sheet "rejections"))
    as [headers [rows [_ [Hpayload _]]]].
  - cbn. tauto.
  - eexists. exact Hpayload.
Defined.

Lemma json_template_unknown (mode : string) :
  mode <> "full" -> mode <> "summary" -> mode <> "minimal" ->
  json_template mode = None.
Proof.
  intros H1 H2 H3. unfold json_template.
  destruct (String.eqb_spec mode "full"); [contradiction |].
  destruct (String.eqb_spec mode "summary"); [contradiction |].
  destruct (String.eqb_spec mode "minimal"); [contradiction | reflexivity].
Qed.

Lemma csv_headers_unknown (sheet : string) :
  ~ In sheet ["requests"; "approvals"; "rejections"; "comments"] ->
  csv_headers sheet = None.
Proof.
  intros Hnot. unfold csv_headers.
  destruct (String.eqb_spec sheet "requests"); [subst; exfalso; apply Hnot; cbn; tauto |].
  destruct (String.eqb_spec sheet "approvals"); [subst; exfalso; apply Hnot; cbn; tauto |].
  destruct (String.eqb_spec sheet "rejections"); [subst; exfalso; apply Hnot; cbn; tauto |].
  destruct (String.eqb_spec sheet "comments"); [subst; exfalso; apply Hnot; cbn; tauto |].
  reflexivity.
Qed.

(** X12.  An unknown JSON mode and an unknown CSV sheet are found only
    inside the renderer: [exportData] throws the template error after
    the query engine has run and the renderer has been entered.  The
    names of the members of [Object.prototype] are left out: the table
    of templates has an inherited member for each of them. *)
Theorem unknown_template_is_found_late `{Host} `{Renderers} (sys : ExportSystem)
    (format : string) (options : Options) (log : list Step) :
  In (toLowerCase format) (exportFormats sys) ->
  (toLowerCase format = "json" ->
   forall mode,
     opt_mode options = Some mode ->
     mode <> "full" -> mode <> "summary" -> mode <> "minimal" ->
     ~ In mode Object_prototype_names ->
     exportData sys format options log
     = (Throw (Error ("No JSON template for mode: " ++ mode)),
        (log ++ [QueryEngineCalled options; RendererCalled "json"])%list))
  /\ (toLowerCase format = "csv" ->
      forall sheet,
        opt_sheet options = Some sheet ->
        ~ In sheet ["requests"; "approvals"; "rejections"; "comments"] ->
        ~ In sheet Object_prototype_names ->
        exportData sys format options log
        = (Throw (Error ("No CSV template for sheet: " ++ sheet)),
           (log ++ [QueryEngineCalled options; RendererCalled "csv"])%list)).
Proof.
  intros Hin. apply array_includes_In in Hin.
  split.
  - intros Etag mode Hmode H1 H2 H3 _.
    unfold exportData. rewrite Hin. cbn [negb].
    unfold render. rewrite Etag. cbn [String.eqb Ascii.eqb Bool.eqb].
    unfold bind, record_step, lift, exportToJson. rewrite Hmode.
    rewrite (json_template_unknown mode H1 H2 H3).
    now rewrite <- app_assoc.
  - intros Etag sheet Hsheet Hnot _.
    unfold exportData. rewrite Hin. cbn [negb].
    unfold render. rewrite Etag. cbn [String.eqb Ascii.eqb Bool.eqb].
    unfold bind, record_step, lift, exportToCsv. rewrite Hsheet.
    rewrite (csv_headers_unknown sheet Hnot).
    now rewrite <- app_assoc.
Qed.

Lemma unknown_template_is_found_late_witness :
  @exportData utc_host bare_page three_request_system "JSON" (only_mode "compact") []
  = (Throw (Error "No JSON template for mode: compact"),
     [QueryEngineCalled (only_mode "compact"); RendererCalled "json"]).
Proof.
  assert (Hin : In (toLowerCase "JSON") (exportFormats three_request_system))
    by (cbn; tauto).
  apply (proj1 (@unknown_template_is_found_late utc_host bare_page
                  three_request_system "JSON" (only_mode "compact") [] Hin)
           eq_refl "compact" eq_refl); try discriminate.
  cbn. intuition discriminate.
Defined.

Lemma not_a_rendered_format (sys : ExportSystem) (name : string) :
  has_builtin_formats sys -> ~ In name (exportFormats sys) ->
  ~ In name rendered_formats.
Proof. intros Hb Hnot Hin. apply Hnot, Hb, Hin. Qed.

(** X13.  A format registered with [addCustomFormat] under a lower-case
    name is listed and passes the format check, but is never rendered:
    [exportData] runs the query engine and then throws that the format is
    not implemented.  The template handed over is not used. *)
Theorem custom_format_is_never_rendered `{Host} `{Renderers} (sys : ExportSystem)
    (name : string) (template : jsval) (options : Options) (log : list Step) :
  has_builtin_formats sys ->
  ~ In name (exportFormats sys) ->
  toLowerCase name = name ->
  exists registered,
    addCustomFormat sys name template = Ok registered
    /\ In name (getAvailableFormats registered)
    /\ exportData registered name options log
       = (Throw (Error ("Format " ++ name ++ " not implemented")),
          (log ++ [QueryEngineCalled options])%list).
Proof.
  intros Hbuiltin Hnew Hlower.
  pose proof (not_a_rendered_format sys name Hbuiltin Hnew) as Hnot.
  unfold addCustomFormat.
  destruct (array_includes (exportFormats sys) name) eqn:E;
    [apply array_includes_In in E; contradiction |].
  eexists. split; [reflexivity |].
  cbn [getAvailableFormats exportFormats]. split.
  - apply in_or_app. right. now left.
  - unfold exportData. cbn [exportFormats approvalSystem]. rewrite Hlower.
    assert (Hinc : array_includes (exportFormats sys ++ [name]) name = true).
    { apply array_includes_In, in_or_app. right. now left. }
    rewrite Hinc. cbn [negb]. unfold render. rewrite Hlower.
    destruct (String.eqb_spec name "csv");
      [subst; exfalso; apply Hnot; cbn; tauto |].
    destruct (String.eqb_spec name "json");
      [subst; exfalso; apply Hnot; cbn; tauto |].
    destruct (String.eqb_spec name "excel");
      [subst; exfalso; apply Hnot; cbn; tauto |].
    destruct (String.eqb_spec name "pdf");
      [subst; exfalso; apply Hnot; cbn; tauto |].
    destruct (String.eqb_spec name "xml");
      [subst; exfalso; apply Hnot; cbn; tauto |].
    reflexivity.
Qed.

Lemma createExportSystem_has_builtin_formats (approvalSystem : ApprovalSystem) :
  has_builtin_formats (createExportSystem approvalSystem).
Proof. intros format Hin. exact Hin. Qed.

Lemma custom_format_is_never_rendered_witness :
  exists registered,
    addCustomFormat three_request_system "yaml" (VString "template") = Ok registered
    /\ In "yaml" (getAvailableFormats registered)
    /\ @exportData utc_host bare_page registered "yaml" no_options []
       = (Throw (Error "Format yaml not implemented"), [QueryEngineCalled no_options]).
Proof.
  apply (@custom_format_is_never_rendered utc_host bare_page three_request_system
           "yaml" (VString "template") no_options []).
  - apply createExportSystem_has_builtin_formats.
  - cbn. intuition discriminate.
  - reflexivity.
Defined.

(** X14.  A format registered under a name with an upper-case letter can
    never be exported: it is listed, but the format check looks for the
    lower-cased name, which is not listed, and rejects it as unsupported
    before anything is queried. *)
Theorem custom_format_with_capitals_is_rejected `{Host} `{Renderers}
    (sys : ExportSystem) (name : string) (template : jsval) (options : Options)
    (log : list Step) :
  ~ In name (exportFormats sys) ->
  ~ In (toLowerCase name) (exportFormats sys) ->
  toLowerCase name <> name ->
  exists registered,
    addCustomFormat sys name template = Ok registered
    /\ In name (getAvailableFormats registered)
    /\ exportData registered name options log
       = (Throw (Error ("Unsupported format: " ++ name ++ ". Supported formats: "
                          ++ join ", " (getAvailableFormats registered))),
          log).
Proof.
  intros Hnew Hlower Hcase. unfold addCustomFormat.
  destruct (array_includes (exportFormats sys) name) eqn:E;
    [apply array_includes_In in E; contradiction |].
  eexists. split; [reflexivity |].
  cbn [getAvailableFormats exportFormats]. split.
  - apply in_or_app. right. now left.
  - unfold exportData. cbn [exportFormats].
    destruct (array_includes (exportFormats sys ++ [name]) (toLowerCase name)) eqn:Ei;
      [| reflexivity].
    exfalso. apply array_includes_In, in_app_or in Ei.
    destruct Ei as [Hin | [Hin | []]]; [contradiction | congruence].
Qed.

Lemma custom_format_with_capitals_is_rejected_witness :
  exists registered,
    addCustomFormat three_request_system "YAML" (VString "template") = Ok registered
    /\ In "YAML" (getAvailableFormats registered)
    /\ @exportData utc_host bare_page registered "YAML" no_options []
       = (Throw (Error ("Unsupported format: YAML. Supported formats: "
                          ++ join ", " (getAvailableFormats registered))),
          []).
Proof.
  apply (@custom_format_with_capitals_is_rejected utc_host bare_page
           three_request_system "YAML" (VString "template") no_options []).
  - cbn. intuition discriminate.
  - cbn. intuition discriminate.
  - discriminate.
Defined.

(** ** More on what [sanitizeRequest] writes *)

Module StoreMore.
Import Store StoreFacts.

Lemma read_same_object (l : loc) (key : string) (h h' : store) :
  h' !! l = h !! l -> read l key h' = read l key h.
Proof. intros E. unfold read, properties. now rewrite E. Qed.

Lemma sanitizeAll_frame (requests : list loc) (h : store) :
  (forall r, In r requests ->
     is_Some (h !! r)
     /\ (forall l, read r "workflow" h <> Ref l)
     /\ (forall l, read r "data" h <> Ref l)) ->
  forall l, is_Some (h !! l) -> snd (sanitizeAll requests h) !! l = h !! l.
Proof.
  revert h. induction requests as [|r rest IH]; intros h Hplain l Hl;
    cbn [sanitizeAll]; [reflexivity |].
  destruct (sanitizeRequest r h) as [copy h1] eqn:E1.
  destruct (sanitizeAll rest h1) as [copies h2] eqn:E2. cbn [snd].
  assert (Hframe : forall l', is_Some (h !! l') -> h1 !! l' = h !! l').
  { intros l' Hl'. replace h1 with (snd (sanitizeRequest r h)) by now rewrite E1.
    destruct (Hplain r (or_introl eq_refl)) as (_ & Hw & Hd).
    now apply sanitizeRequest_frame. }
  replace h2 with (snd (sanitizeAll rest h1)) by now rewrite E2.
  rewrite IH.
  - now apply Hframe.
  - intros r' Hr'. destruct (Hplain r' (or_intror Hr')) as (Hex & Hw & Hd).
    pose proof (Hframe r' Hex) as Er. repeat split.
    + now rewrite Er.
    + intros l'. rewrite (read_same_object r' "workflow" h h1 Er). apply Hw.
    + intros l'. rewrite (read_same_object r' "data" h h1 Er). apply Hd.
  - rewrite (Hframe l Hl). exact Hl.
Qed.

(** X15.  When no request has an object as its workflow or as its data,
    the full structured-data export writes to new objects only: after
    [sanitizeRequest] has run over all requests, every object that was in
    the store is as it was. *)
Theorem sanitizing_plain_requests_changes_nothing (requests : list loc) (h : store)
    (l : loc) :
  (forall r, In r requests ->
     is_Some (h !! r)
     /\ (forall l, read r "workflow" h <> Ref l)
     /\ (forall l, read r "data" h <> Ref l)) ->
  is_Some (h !! l) ->
  snd (sanitizeAll requests h) !! l = h !! l.
Proof. intros Hplain Hl. now apply sanitizeAll_frame. Qed.

Lemma sanitizing_plain_requests_changes_nothing_witness :
  snd (sanitizeAll [1%positive; 3%positive] plain_requests) !! 2%positive
  = plain_requests !! 2%positive.
Proof.
  apply (sanitizing_plain_requests_changes_nothing
           [1%positive; 3%positive] plain_requests 2%positive).
  - intros r [<- | [<- | []]]; (split; [now eexists |]);
      split; intros l; vm_compute; discriminate.
  - now eexists.
Defined.

Lemma properties_insert_eq (l : loc) (o : object) (h : store) :
  properties l (<[l := o]> h) = o.
Proof. unfold properties. now rewrite lookup_insert_eq. Qed.

Lemma properties_same_object (l : loc) (h h' : store) :
  h' !! l = h !! l -> properties l h' = properties l h.
Proof. intros E. unfold properties. now rewrite E. Qed.

(** X16.  The metadata of the copy is a new object: it holds the
    metadata of the source with every date replaced by its ISO string,
    while the metadata object of the source keeps its dates. *)
Theorem sanitizeRequest_copies_metadata (request source_metadata : loc) (h : store) :
  read request "metadata" h = Ref source_metadata ->
  is_Some (h !! source_metadata) ->
  read request "workflow" h <> Ref source_metadata ->
  read request "data" h <> Ref source_metadata ->
  let copy := fst (sanitizeRequest request h) in
  let after := snd (sanitizeRequest request h) in
  exists metadata_copy,
    read copy "metadata" after = Ref metadata_copy
    /\ h !! metadata_copy = None
    /\ properties metadata_copy after
       = date_to_iso <$> properties source_metadata h
    /\ after !! source_metadata = h !! source_metadata.
Proof.
  intros Hm Hl Hw Hd copy after. subst copy after.
  pose proof (sanitizeRequest_frame request source_metadata h Hl Hw Hd) as Hframe.
  revert Hframe. unfold sanitizeRequest, alloc.
  set (s := fresh (dom h)).
  assert (Hs : s <> source_metadata) by now apply fresh_is_new.
  set (h1 := <[s := properties request h]> h).
  assert (Hcopy : properties s h1 = properties request h)
    by apply properties_insert_eq.
  assert (Hw1 : read s "workflow" h1 = read request "workflow" h)
    by (unfold read; now rewrite Hcopy).
  set (h2 := delete_optional (read s "workflow" h1) "approvers" h1).
  assert (Hd2 : read s "data" h2 = read request "data" h).
  { unfold h2. rewrite delete_optional_keeps by discriminate.
    unfold read. now rewrite Hcopy. }
  set (h3 := delete_optional (read s "data" h2) "sensitiveInfo" h2).
  assert (Hm3 : read s "metadata" h3 = Ref source_metadata).
  { unfold h3. rewrite delete_optional_keeps by discriminate.
    unfold h2. rewrite delete_optional_keeps by discriminate.
    unfold read. rewrite Hcopy. exact Hm. }
  assert (E3 : h3 !! source_metadata = h !! source_metadata).
  { unfold h3. rewrite delete_optional_frame by congruence.
    unfold h2. rewrite delete_optional_frame by congruence.
    unfold h1. now rewrite lookup_insert_ne. }
  assert (Hs3 : is_Some (h3 !! s)).
  { unfold h3, h2. do 2 apply delete_optional_is_Some.
    unfold h1. rewrite lookup_insert_eq. now eexists. }
  set (m := fresh (dom h3)).
  assert (Hms : m <> s) by now apply fresh_is_new.
  assert (Hm_new : h3 !! m = None).
  { apply not_elem_of_dom. apply is_fresh. }
  assert (Hm_old : h !! m = None).
  { destruct (h !! m) as [o|] eqn:Eo; [| reflexivity]. exfalso.
    assert (Hin : is_Some (h3 !! m)).
    { unfold h3, h2. do 2 apply delete_optional_is_Some.
      unfold h1. rewrite lookup_insert_ne by (intros E; now apply Hms).
      rewrite Eo. now eexists. }
    rewrite Hm_new in Hin. now destruct Hin. }
  cbn [fst snd]. intros Hframe. exists m. repeat split.
  - unfold read, properties.
    rewrite lookup_alter_ne by exact Hms.
    rewrite lookup_alter_eq. rewrite lookup_insert_ne by exact Hms.
    destruct Hs3 as [o Ho]. rewrite Ho. cbn. now rewrite lookup_insert_eq.
  - exact Hm_old.
  - unfold properties at 1.
    rewrite lookup_alter_eq, lookup_alter_ne by (intros E; now apply Hms).
    rewrite lookup_insert_eq. cbn. f_equal.
    rewrite Hm3. cbn [spread]. now apply properties_same_object.
  - exact Hframe.
Qed.

Lemma sanitizeRequest_copies_metadata_witness :
  exists metadata_copy,
    read (fst (sanitizeRequest 1%positive request_with_approvers)) "metadata"
      (snd (sanitizeRequest 1%positive request_with_approvers)) = Ref metadata_copy
    /\ request_with_approvers !! metadata_copy = None
    /\ properties metadata_copy (snd (sanitizeRequest 1%positive request_with_approvers))
       = date_to_iso <$> properties 3%positive request_with_approvers
    /\ snd (sanitizeRequest 1%positive request_with_approvers) !! 3%positive
       = request_with_approvers !! 3%positive.
Proof.
  apply (sanitizeRequest_copies_metadata 1%positive 3%positive request_with_approvers).
  - reflexivity.
  - now eexists.
  - vm_compute. discriminate.
  - vm_compute. discriminate.
Defined.

(** X17.  The copy shares the workflow object of the source: when the
    workflow of a request is an object of the store, the copy refers to
    the same object, and after [sanitizeRequest] that object, read
    through the source request, has no approvers any more.  Its
    properties other than approvers and sensitiveInfo are as before. *)
Theorem sanitizeRequest_shares_workflow (request workflow : loc) (h : store) :
  read request "workflow" h = Ref workflow ->
  is_Some (h !! workflow) ->
  let copy := fst (sanitizeRequest request h) in
  let after := snd (sanitizeRequest request h) in
  read copy "workflow" after = Ref workflow
  /\ read workflow "approvers" after = Undefined
  /\ forall key, key <> "approvers" -> key <> "sensitiveInfo" ->
       read workflow key after = read workflow key h.
Proof.
  intros Hw Hl copy after. subst copy after.
  unfold sanitizeRequest, alloc.
  set (s := fresh (dom h)).
  assert (Hs : s <> workflow) by now apply fresh_is_new.
  set (h1 := <[s := properties request h]> h).
  assert (Hcopy : properties s h1 = properties request h)
    by apply properties_insert_eq.
  assert (Hw1 : read s "workflow" h1 = Ref workflow)
    by (unfold read; rewrite Hcopy; exact Hw).
  rewrite Hw1.
  set (h2 := delete_optional (Ref workflow) "approvers" h1).
  set (h3 := delete_optional (read s "data" h2) "sensitiveInfo" h2).
  assert (Hs3 : is_Some (h3 !! s)).
  { unfold h3, h2. do 2 apply delete_optional_is_Some.
    unfold h1. rewrite lookup_insert_eq. now eexists. }
  assert (Hw3 : is_Some (h3 !! workflow)).
  { unfold h3, h2. do 2 apply delete_optional_is_Some.
    unfold h1. now rewrite lookup_insert_ne. }
  set (m := fresh (dom h3)).
  assert (Hms : m <> s) by now apply fresh_is_new.
  assert (Hmw : m <> workflow) by now apply fresh_is_new.
  assert (Hprops2 : properties workflow h2 = delete "approvers" (properties workflow h)).
  { unfold properties, h2. cbn [delete_optional].
    rewrite lookup_alter_eq. unfold h1. rewrite lookup_insert_ne by exact Hs.
    destruct Hl as [o ->]. reflexivity. }
  assert (Hfinal : forall key,
             read workflow key
               (alter (fmap date_to_iso) m
                  (alter (insert "metadata" (Ref m)) s
                     (<[m := spread (read s "metadata" h3) h3]> h3)))
             = read workflow key h3).
  { intros key. apply read_same_object.
    rewrite lookup_alter_ne by exact Hmw.
    rewrite lookup_alter_ne by exact Hs.
    now rewrite lookup_insert_ne by exact Hmw. }
  cbn [fst snd]. repeat split.
  - unfold read at 1, properties.
    rewrite lookup_alter_ne by exact Hms.
    rewrite lookup_alter_eq, lookup_insert_ne by exact Hms.
    destruct Hs3 as [o Ho]. rewrite Ho. cbn.
    rewrite lookup_insert_ne by discriminate.
    assert (Eo : properties s h3 = o) by (unfold properties; now rewrite Ho).
    rewrite <- Eo.
    change (read s "workflow" h3 = Ref workflow).
    unfold h3. rewrite delete_optional_keeps by discriminate.
    unfold h2. rewrite delete_optional_keeps by discriminate.
    exact Hw1.
  - rewrite Hfinal.
    unfold h3. rewrite delete_optional_keeps by discriminate.
    unfold read. rewrite Hprops2. now rewrite lookup_delete_eq.
  - intros key Ha Hsi. rewrite Hfinal.
    unfold h3. rewrite delete_optional_keeps by congruence.
    unfold read. rewrite Hprops2. now rewrite lookup_delete_ne by congruence.
Qed.

Lemma sanitizeRequest_shares_workflow_witness :
  read (fst (sanitizeRequest 1%positive request_with_approvers)) "workflow"
    (snd (sanitizeRequest 1%positive request_with_approvers)) = Ref 2%positive
  /\ read 2%positive "approvers" (snd (sanitizeRequest 1%positive request_with_approvers))
     = Undefined
  /\ forall key, key <> "approvers" -> key <> "sensitiveInfo" ->
       read 2%positive key (snd (sanitizeRequest 1%positive request_with_approvers))
       = read 2%positive key request_with_approvers.
Proof.
  apply (sanitizeRequest_shares_workflow 1%positive 2%positive request_with_approvers).
  - reflexivity.
  - now eexists.
Defined.

End StoreMore.

(** ** The paginated document *)

Lemma js_length_append (s t : string) :
  js_length (s ++ t) = (js_length s + js_length t)%nat.
Proof.
  induction s as [|b s IH]; [reflexivity |].
  change (String b s ++ t) with (String b (s ++ t)).
  cbn [js_length]. rewrite IH. lia.
Qed.

Lemma code_units_of_le (b : ascii) : (code_units_of b <= 2)%nat.
Proof.
  unfold code_units_of.
  destruct (_ <? 128)%N; [lia |].
  destruct (_ <? 192)%N; [lia |].
  destruct (_ <? 240)%N; lia.
Qed.

Lemma code_units_of_continuation (m : N) :
  code_units_of (ascii_of_N (128 + m mod 64)) = 0%nat.
Proof.
  assert (Hm : (m mod 64 < 64)%N) by (apply N.mod_lt; discriminate).
  set (k := (m mod 64)%N) in *.
  assert (Hbyte : (128 + k < 256)%N) by lia.
  unfold code_units_of. rewrite (N_ascii_embedding _ Hbyte).
  destruct (N.ltb_spec (128 + k) 128) as [Hlt | _]; [lia |].
  destruct (N.ltb_spec (128 + k) 192) as [_ | Hge]; [reflexivity | lia].
Qed.

Lemma js_length_high_surrogate (b0 b1 b2 b3 : ascii) :
  js_length (high_surrogate b0 b1 b2 b3) = 1%nat.
Proof.
  unfold high_surrogate. cbn [js_length].
  now rewrite !code_units_of_continuation.
Qed.

Lemma js_length_substring0 (n : nat) (s : string) :
  (js_length (substring0 n s) <= n)%nat.
Proof.
  revert n. induction s as [|b rest IH]; intros n; cbn [substring0 js_length]; [lia |].
  destruct (code_units_of b) as [|[|units]] eqn:E.
  - cbn [js_length]. rewrite E. apply IH.
  - destruct n as [|k]; cbn [js_length]; [lia |]. rewrite E.
    specialize (IH k). lia.
  - destruct n as [|[|k]]; cbn [js_length]; [lia | |].
    + destruct rest as [|b1 [|b2 [|b3 rest']]]; cbn [js_length]; try lia.
      now rewrite js_length_high_surrogate.
    + pose proof (code_units_of_le b). specialize (IH k). lia.
Qed.

(** A string that is short enough is its own prefix. *)
Lemma substring0_short (n : nat) (s : string) :
  (js_length s <= n)%nat -> substring0 n s = s.
Proof.
  revert n. induction s as [|b rest IH]; intros n Hn; cbn [substring0 js_length] in *;
    [reflexivity |].
  destruct (code_units_of b) as [|[|units]] eqn:E.
  - f_equal. apply IH. lia.
  - destruct n as [|k]; [lia |]. f_equal. apply IH. lia.
  - pose proof (code_units_of_le b).
    destruct n as [|[|k]]; [lia | lia |]. f_equal. apply IH. lia.
Qed.

Lemma pdf_cells_calls (cells : list string) (cellIndex rowY : Z) (call : DocCall) :
  In call (pdf_cells cells cellIndex rowY) ->
  exists text column,
    call = DrawText text (20 + column * 35) rowY
    /\ cellIndex <= column < cellIndex + Z.of_nat (length cells).
Proof.
  revert cellIndex. induction cells as [|cell rest IH]; intros cellIndex;
    cbn [pdf_cells In length]; [tauto |].
  intros [<- | Hin].
  - exists cell, cellIndex. split; [reflexivity | lia].
  - destruct (IH _ Hin) as [text [column [E Hc]]].
    exists text, column. split; [exact E | lia].
Qed.

Lemma pdf_rows_calls (rows : list (list string)) (rowIndex yPosition : Z)
    (call : DocCall) :
  In call (pdf_rows rows rowIndex yPosition) ->
  exists text column row line,
    call = DrawText text (20 + column * 35) (yPosition + line * 7)
    /\ In row rows
    /\ 0 <= column < Z.of_nat (length row)
    /\ rowIndex <= line < rowIndex + Z.of_nat (length rows).
Proof.
  revert rowIndex. induction rows as [|row rest IH]; intros rowIndex;
    cbn [pdf_rows In length]; [tauto |].
  intros Hin. apply in_app_or in Hin. destruct Hin as [Hin | Hin].
  - apply pdf_cells_calls in Hin. destruct Hin as [text [column [E Hc]]].
    exists text, column, row, rowIndex. repeat split; try lia; [exact E | now left].
  - destruct (IH _ Hin) as [text [column [row' [line [E [Hrow [Hc Hl]]]]]]].
    exists text, column, row', line. repeat split; try lia; [exact E | now right].
Qed.

Lemma length_slice0_15 {A : Type} (xs : list A) :
  length (slice0 xs 15) = Nat.min 15 (length xs).
Proof. unfold slice0. cbn. apply length_firstn. Qed.

(** X18.  The document always has one page.  Whatever the data and the
    options, [exportToPdf] never calls [addPage], and every text is
    placed between the vertical positions 20 and 238 and between the
    horizontal positions 20 and 160: the ten summary lines end at 118 and
    the table has at most fifteen rows of five cells. *)
Theorem exportToPdf_stays_on_one_page `{Host} (data : ExportData) (options : Options) :
  ~ In AddPage (exportToPdf_calls data options)
  /\ forall text x y,
       In (DrawText text x y) (exportToPdf_calls data options) ->
       20 <= x <= 160 /\ 20 <= y <= 238.
Proof.
  assert (Htable : forall call,
             In call (pdf_rows (pdf_table data) 0 140) ->
             exists text x y,
               call = DrawText text x y /\ 20 <= x <= 160 /\ 140 <= y <= 238).
  { intros call Hin. apply pdf_rows_calls in Hin.
    destruct Hin as [text [column [row [line [E [Hrow [Hc Hl]]]]]]].
    unfold pdf_table in Hrow, Hl. rewrite length_map, length_slice0_15 in Hl.
    apply in_map_iff in Hrow. destruct Hrow as [req [<- _]].
    cbn [pdf_row length] in Hc.
    exists text, (20 + column * 35), (140 + line * 7).
    split; [exact E | lia]. }
  unfold exportToPdf_calls.
  cbn [summary_entries fold_left summary_line fst snd Z.add Z.ltb Z.compare
       Pos.add Pos.compare Pos.compare_cont Pos.succ Pos.add_carry app].
  split.
  - intros Hin.
    repeat (destruct Hin as [Hin | Hin]; [discriminate |]).
    destruct (Htable _ Hin) as [text [x [y [E _]]]]. discriminate.
  - intros text x y Hin.
    repeat (destruct Hin as [Hin | Hin];
            [first [discriminate | injection Hin as _ <- <-; lia] |]).
    destruct (Htable _ Hin) as [text' [x' [y' [E Hb]]]].
    injection E as _ -> ->. lia.
Qed.

(** X19.  The table of the document: it has a row for each of the first
    fifteen requests and no more; every row has five cells; the id cell
    is the first ten code units of the id followed by three dots, even
    for a short id, which is then there in full; the subject cell is the
    subject when that has at most thirty code units and its first thirty
    followed by three dots otherwise, so it never has more than
    thirty-three. *)
Theorem pdf_table_shape `{Host} (data : ExportData) :
  length (pdf_table data) = Nat.min 15 (length (data_requests data))
  /\ forall row,
       In row (pdf_table data) ->
       exists req,
         In req (data_requests data)
         /\ length row = 5%nat
         /\ nth 0 row "" = substring0 10 (id req) ++ "..."
         /\ (js_length (nth 0 row "") <= 13)%nat
         /\ ((js_length (id req) <= 10)%nat -> nth 0 row "" = id req ++ "...")
         /\ (js_length (nth 2 row "") <= 33)%nat
         /\ ((js_length (subject req) <= 30)%nat -> nth 2 row "" = subject req)
         /\ ((30 < js_length (subject req))%nat ->
             nth 2 row "" = substring0 30 (subject req) ++ "...").
Proof.
  split.
  - unfold pdf_table. now rewrite length_map, length_slice0_15.
  - intros row Hrow. unfold pdf_table in Hrow.
    apply in_map_iff in Hrow. destruct Hrow as [req [<- Hreq]].
    exists req. split; [now apply slice0_incl in Hreq |].
    cbn [pdf_row length nth].
    split; [reflexivity |]. split; [reflexivity |].
    split; [| split; [| split; [| split]]].
    + rewrite js_length_append. pose proof (js_length_substring0 10 (id req)).
      change (js_length "...") with 3%nat. lia.
    + intros Hshort. now rewrite substring0_short.
    + destruct (30 <? js_length (subject req))%nat eqn:E.
      * rewrite js_length_append. pose proof (js_length_substring0 30 (subject req)).
        change (js_length "...") with 3%nat. lia.
      * apply Nat.ltb_ge in E. lia.
    + intros Hshort.
      destruct (30 <? js_length (subject req))%nat eqn:E; [| reflexivity].
      apply Nat.ltb_lt in E. lia.
    + intros Hlong. apply Nat.ltb_lt in Hlong. now rewrite Hlong.
Qed.

(** ** Structured markup *)

Lemma objectToXml_object `{Host} (fields : list (string * jsval)) (tagName : string) :
  objectToXml (VObject fields) tagName
  = xml_wrap tagName
      (order_entries (map (fun kv => (fst kv, xml_entry (fst kv) (snd kv))) fields)).
Proof.
  cbn [objectToXml]. unfold xml_wrap. do 4 f_equal.
  induction fields as [|[key value] rest IH]; [reflexivity |].
  cbn [map fst snd]. rewrite <- IH. reflexivity.
Qed.

Lemma objectToXml_array `{Host} (elems : list jsval) (tagName : string) :
  exists keys,
    length keys = length elems
    /\ objectToXml (VArray elems) tagName
       = xml_wrap tagName
           (map (fun ke => (fst ke, xml_entry (fst ke) (snd ke))) (combine keys elems)).
Proof.
  assert (Hgen : forall i,
             exists keys,
               length keys = length elems
               /\ (fix elements (i : Z) (es : list jsval) {struct es}
                     : list (string * result string) :=
                     match es with
                     | [] => []
                     | e :: rest =>
                         (show_Z i, xml_entry (show_Z i) e) :: elements (i + 1) rest
                     end) i elems
                  = map (fun ke => (fst ke, xml_entry (fst ke) (snd ke)))
                      (combine keys elems)).
  { induction elems as [|e rest IH]; intros i.
    - exists []. split; reflexivity.
    - destruct (IH (i + 1)) as [keys [Hlen Hkeys]].
      exists (show_Z i :: keys). split; [cbn; now rewrite Hlen |].
      cbn [combine map fst snd]. now rewrite <- Hkeys. }
  destruct (Hgen 0) as [keys [Hlen Hkeys]].
  exists keys. split; [exact Hlen |].
  cbn [objectToXml]. unfold xml_wrap. do 3 f_equal. exact Hkeys.
Qed.

Lemma sequence_results_Throw {A : Type} (steps : list (result A)) (e : error) :
  In (Throw e) steps -> exists e', sequence_results steps = Throw e'.
Proof.
  induction steps as [|step rest IH]; cbn [In sequence_results]; [tauto |].
  intros [-> | Hin]; [eexists; reflexivity |].
  destruct step as [x | e0]; [| eexists; reflexivity].
  destruct (IH Hin) as [e' ->]. eexists. reflexivity.
Qed.

Lemma order_entries_Permutation {A : Type} (entries : list (string * A)) :
  Permutation (order_entries entries) entries.
Proof.
  unfold order_entries.
  rewrite (Permutation_map snd (Array_sort_Permutation compare_fst _)).
  induction entries as [|[k v] rest IH]; cbn [flat_map List.filter fst];
    [reflexivity |].
  destruct (array_index k); cbn [app map snd].
  - now constructor.
  - rewrite <- Permutation_middle. now constructor.
Qed.

(** X20.  An object that has a property whose value is [null] or
    [undefined] cannot be rendered: [objectToXml] throws, whatever the
    other properties are. *)
Theorem objectToXml_throws_on_null_property `{Host} (fields : list (string * jsval))
    (key tagName : string) :
  In (key, VNull) fields \/ In (key, VUndefined) fields ->
  exists e, objectToXml (VObject fields) tagName = Throw e.
Proof.
  intros Hin. rewrite objectToXml_object. unfold xml_wrap.
  assert (Hthrow : exists e,
             In (Throw e)
               (map snd
                  (order_entries
                     (map (fun kv => (fst kv, xml_entry (fst kv) (snd kv))) fields)))).
  { destruct Hin as [Hin | Hin].
    - eexists. apply in_map_iff. eexists (key, _). split; [reflexivity |].
      apply (Permutation_in _ (Permutation_sym (order_entries_Permutation _))).
      apply in_map_iff. exists (key, VNull). split; [reflexivity | exact Hin].
    - eexists. apply in_map_iff. eexists (key, _). split; [reflexivity |].
      apply (Permutation_in _ (Permutation_sym (order_entries_Permutation _))).
      apply in_map_iff. exists (key, VUndefined). split; [reflexivity | exact Hin]. }
  destruct Hthrow as [e He].
  destruct (sequence_results_Throw _ e He) as [e' ->].
  eexists. reflexivity.
Qed.

Lemma objectToXml_throws_on_null_property_witness :
  exists e,
    @objectToXml utc_host
      (VObject [("id", VString "R1"); ("completedAt", VNull)]) "request" = Throw e.
Proof.
  apply (@objectToXml_throws_on_null_property utc_host
           [("id", VString "R1"); ("completedAt", VNull)] "completedAt" "request").
  left. right. left. reflexivity.
Defined.

Lemma blank_dates_object (fields : list (string * jsval)) :
  blank_dates (VObject fields)
  = VObject (map (fun kv => (fst kv, blank_dates (snd kv))) fields).
Proof.
  cbn [blank_dates]. f_equal.
  induction fields as [|[key value] rest IH]; [reflexivity |].
  cbn [map fst snd]. now rewrite IH.
Qed.

Lemma objectToXml_elements `{Host} (elems : list jsval) (tagName : string) :
  objectToXml (VArray elems) tagName
  = xml_wrap tagName
      ((fix elements (i : Z) (es : list jsval) {struct es}
          : list (string * result string) :=
          match es with
          | [] => []
          | e :: rest => (show_Z i, xml_entry (show_Z i) e) :: elements (i + 1) rest
          end) 0 elems).
Proof. reflexivity. Qed.

(** X21.  [objectToXml] never writes the content of a date: with every
    date inside a value replaced by the invalid date the output is the
    same, so a date-valued property is exported as an empty element. *)
Theorem objectToXml_drops_dates `{Host} (v : jsval) (tagName : string) :
  objectToXml (blank_dates v) tagName = objectToXml v tagName.
Proof.
  revert tagName.
  enough (Hall : (forall tagName, objectToXml (blank_dates v) tagName
                                  = objectToXml v tagName)
                 /\ (forall key, xml_entry key (blank_dates v) = xml_entry key v)
                 /\ xml_item (blank_dates v) = xml_item v) by apply Hall.
  induction v as [| | b | z | s | t | elems IH | fields IH] using jsval_nested_ind;
    try (repeat split; reflexivity).
  - assert (Hwhole : forall tagName,
               objectToXml (blank_dates (VArray elems)) tagName
               = objectToXml (VArray elems) tagName).
    { intros tagName. cbn [blank_dates]. rewrite !objectToXml_elements. f_equal.
      generalize 0. induction IH as [|e rest [_ [He _]] _ IHrest]; intros i;
        [reflexivity |].
      cbn [map]. now rewrite He, IHrest. }
    split; [exact Hwhole |]. split; [| exact (Hwhole "item")].
    intros key. cbn [blank_dates xml_entry]. do 2 f_equal. clear Hwhole.
    induction IH as [|e rest [_ [_ He]] _ IHrest]; [reflexivity |].
    cbn [map]. now rewrite He, IHrest.
  - assert (Hwhole : forall tagName,
               objectToXml (blank_dates (VObject fields)) tagName
               = objectToXml (VObject fields) tagName).
    { intros tagName. rewrite blank_dates_object, !objectToXml_object. do 2 f_equal.
      induction IH as [|[key value] rest [_ [He _]] _ IHrest]; [reflexivity |].
      cbn [map fst snd] in *. now rewrite He, IHrest. }
    split; [exact Hwhole |]. split; [| exact (Hwhole "item")].
    intros key. rewrite blank_dates_object.
    change (objectToXml
              (VObject (map (fun kv => (fst kv, blank_dates (snd kv))) fields)) key
            = objectToXml (VObject fields) key).
    rewrite <- blank_dates_object. exact (Hwhole key).
Qed.

Lemma string_of_uint_plain (markup : ascii) (u : Decimal.uint) :
  markup = "<"%char \/ markup = ">"%char ->
  count_char markup (NilEmpty.string_of_uint u) = 0%nat.
Proof.
  intros Hm. induction u as [| u IH | u IH | u IH | u IH | u IH | u IH | u IH
                               | u IH | u IH | u IH];
    cbn [NilEmpty.string_of_uint count_char]; [reflexivity | ..];
    rewrite IH; destruct Hm as [-> | ->]; reflexivity.
Qed.

Lemma show_Z_plain (markup : ascii) (z : Z) :
  markup = "<"%char \/ markup = ">"%char ->
  count_char markup (show_Z z) = 0%nat.
Proof.
  intros Hm. unfold show_Z, NilZero.string_of_int, NilZero.string_of_uint.
  destruct (Z.to_int z) as [u | u].
  - destruct u; try (now apply string_of_uint_plain);
      destruct Hm as [-> | ->]; reflexivity.
  - cbn [count_char].
    replace (Ascii.eqb "-" markup) with false
      by (destruct Hm as [-> | ->]; reflexivity).
    destruct u; try (now apply string_of_uint_plain);
      destruct Hm as [-> | ->]; reflexivity.
Qed.

(** X22.  [requestToXml] always gives the same markup: whatever the
    texts of the request are, the result has the twenty opening and the
    twenty closing angle brackets of the template, so no field value
    can add or break an element. *)
Theorem requestToXml_markup_is_fixed `{Host} (request : Request) :
  exists text,
    requestToXml request = Ok text
    /\ count_char "<" text = 20%nat /\ count_char ">" text = 20%nat.
Proof.
  unfold requestToXml.
  destruct (escapeXml_string (id request)) as [t1 [-> ->]].
  destruct (escapeXml_string (requester request)) as [t2 [-> ->]].
  destruct (escapeXml_string (subject request)) as [t3 [-> ->]].
  destruct (escapeXml_string (workflowId request)) as [t4 [-> ->]].
  destruct (escapeXml_string (status (metadata request))) as [t5 [-> ->]].
  destruct (escapeXml_string (toISOString (submittedAt (metadata request))))
    as [t6 [-> ->]].
  cbn [bind_result]. eexists. split; [reflexivity |].
  unfold open_tag, close_tag.
  split; rewrite !count_char_append;
    rewrite !xml_encode_plain by tauto; rewrite !show_Z_plain by tauto;
    reflexivity.
Qed.

Lemma map_result_Throw {A B : Type} (f : A -> result B) (xs : list A) :
  (exists e, map_result f xs = Throw e)
  <-> (exists x e, In x xs /\ f x = Throw e).
Proof.
  induction xs as [|x rest IH]; cbn [map_result In].
  - split; [intros [e E]; discriminate | intros [x [e [[] _]]]].
  - destruct (f x) as [y | e0] eqn:Ex; cbn [bind_result].
    + destruct (map_result f rest) as [ys | e1] eqn:Erest; cbn [bind_result].
      * split; [intros [e E]; discriminate |].
        intros [x' [e [[<- | Hin] Ex']]]; [congruence |].
        destruct (proj2 IH) as [e' E']; [now exists x', e | discriminate].
      * split; [| intros _; now exists e1].
        intros _. destruct (proj1 IH) as [x' [e [Hin Ex']]]; [now exists e1 |].
        exists x', e. split; [now right | exact Ex'].
    + split; [| intros _; now exists e0].
      intros _. exists x, e0. split; [now left | exact Ex].
Qed.

(** X23.  [generateXml] writes all items or none: it throws exactly when
    [objectToXml] throws on one of the items, and then no document is
    returned for the others. *)
Theorem generateXml_all_or_nothing `{Host} (items : list jsval)
    (rootTag itemTag : string) :
  (exists e, generateXml items rootTag itemTag = Throw e)
  <-> (exists item e, In item items /\ objectToXml item itemTag = Throw e).
Proof.
  rewrite <- (map_result_Throw (fun item => objectToXml item itemTag) items).
  unfold generateXml.
  destruct (map_result _ items) as [rendered | e0]; cbn [bind_result].
  - split; intros [e E]; discriminate.
  - split; intros _; now exists e0.
Qed.
